(** * request-bot-pos: the intake conversation and the query engine of main.py

    A shallow embedding of the handlers of [main.py] (a python-telegram-bot
    application writing to a Google sheet) and the properties of its
    conversation state machine and of its queries.

    Conventions of the embedding.
    - Python [str] values are Rocq [string]s (bytes); [strip], [lower] and
      [in] are modelled on the ASCII range.
    - [context.user_data] is a dict each key of which only ever holds one type
      of value: it is the record [user_data] of optional fields ([None]: key
      absent).
    - A handler is a computation in the monad [M]: it threads [user_data],
      appends the calls it makes to the transport and to the sheet to a trace
      of [effect]s, and either returns or raises.
    - What the process cannot decide is a parameter: the enumeration order of
      a Python [set] of [str] ([SetIter]), [datetime.strptime] ([Strptime]),
      and the environment of one call ([env]: the clock, the sheet's
      content, which calls fail, the configuration read at import). *)

From Stdlib Require Import ZArith Ascii String List Bool Lia.
From stdpp Require Import base decidable option list gmap strings pretty sorting.

Local Open Scope string_scope.
Local Open Scope list_scope.
Local Open Scope Z_scope.
#[local] Set Warnings "-clear-no-such-hyp".

(** ** Python string operations *)

Module Str.

(** [str.isspace] on the ASCII range: TAB..CR, FS..US and the space. *)
Definition isspace (c : ascii) : bool :=
  let n := N_of_ascii c in
  (((9 <=? n) && (n <=? 13)) || ((28 <=? n) && (n <=? 32)))%N.

Fixpoint lstrip (s : string) : string :=
  match s with
  | String c s' => if isspace c then lstrip s' else s
  | EmptyString => EmptyString
  end.

Definition rstrip (s : string) : string := String.rev (lstrip (String.rev s)).

(** [s.strip()] *)
Definition strip (s : string) : string := rstrip (lstrip s).

(** [s.lstrip(c)] for a one-character argument: every leading [c] goes. *)
Fixpoint lstrip_char (c : ascii) (s : string) : string :=
  match s with
  | String a s' => if Ascii.eqb a c then lstrip_char c s' else s
  | EmptyString => EmptyString
  end.

Definition lower_char (c : ascii) : ascii :=
  let n := N_of_ascii c in
  if ((65 <=? n) && (n <=? 90))%N then ascii_of_N (n + 32) else c.

(** [s.lower()] *)
Fixpoint lower (s : string) : string :=
  match s with
  | String c s' => String (lower_char c) (lower s')
  | EmptyString => EmptyString
  end.

(** [s.startswith(p)], also [re.match("^p", s)] for a literal [p]. *)
Fixpoint startswith (p s : string) : bool :=
  match p, s with
  | EmptyString, _ => true
  | String a p', String b s' => Ascii.eqb a b && startswith p' s'
  | String _ _, EmptyString => false
  end.

(** [n in h] *)
Fixpoint contains (n h : string) : bool :=
  startswith n h ||
  match h with
  | String _ h' => contains n h'
  | EmptyString => false
  end.

(** [sep.join(l)] *)
Fixpoint join (sep : string) (l : list string) : string :=
  match l with
  | [] => ""
  | [x] => x
  | x :: l' => x +:+ sep +:+ join sep l'
  end.

(** [s.split(c)] for a one-character separator: the list is never empty. *)
Fixpoint split_go (c : ascii) (cur : string) (s : string) : list string :=
  match s with
  | EmptyString => [String.rev cur]
  | String a s' =>
      if Ascii.eqb a c then String.rev cur :: split_go c "" s'
      else split_go c (String a cur) s'
  end.
Definition split (c : ascii) (s : string) : list string := split_go c "" s.

(** [s.split(c, 1)[1]]: what follows the first [c]; [None] stands for the
    [IndexError] of a string without [c]. *)
Fixpoint after_first (c : ascii) (s : string) : option string :=
  match s with
  | EmptyString => None
  | String a s' => if Ascii.eqb a c then Some s' else after_first c s'
  end.

(** [re.match("^lit$", s)]: [$] also matches before one final newline. *)
Definition match_exact (lit s : string) : bool :=
  bool_decide (s = lit) || bool_decide (s = lit +:+ String "010" "").

(** Two decimal digits, four decimal digits ([%m], [%d], ... and [%Y]). *)
Definition pad (width : nat) (n : Z) : string :=
  let d := pretty (Z.to_N n) in
  string_of_list_ascii (repeat "0"%char (width - String.length d)) +:+ d.

End Str.

(** ** Dates ([datetime.date], [datetime.datetime], [timedelta.days]) *)

Record date := Date { year : Z; month : Z; day : Z }.

Record datetime := Datetime {
  dt_date : date; hour : Z; minute : Z; second : Z; microsecond : Z }.

Global Instance date_eq_dec : EqDecision date.
Proof. solve_decision. Defined.

(** [a < b] and [a <= b] on dates: the order of the triples. *)
Definition date_ltb (a b : date) : bool :=
  (year a <? year b) ||
  ((year a =? year b) &&
   ((month a <? month b) || ((month a =? month b) && (day a <? day b)))).

Definition date_leb (a b : date) : bool := negb (date_ltb b a).

Definition is_leap (y : Z) : bool :=
  (y mod 4 =? 0) && (negb (y mod 100 =? 0) || (y mod 400 =? 0)).

Definition days_before_year (y : Z) : Z :=
  let y := y - 1 in y * 365 + y / 4 - y / 100 + y / 400.

Definition days_before_month (y m : Z) : Z :=
  nth (Z.to_nat m) [0; 0; 31; 59; 90; 120; 151; 181; 212; 243; 273; 304; 334] 0
  + (if (2 <? m) && is_leap y then 1 else 0).

(** [date.toordinal()] *)
Definition toordinal (d : date) : Z :=
  days_before_year (year d) + days_before_month (year d) (month d) + day d.

Definition microseconds (t : datetime) : Z :=
  ((toordinal (dt_date t) * 86400 + hour t * 3600 + minute t * 60 + second t)
   * 1000000 + microsecond t).

(** [(a - b).days] for two datetimes carrying the same [tzinfo] object: the
    offsets are ignored and the difference of the wall clocks is normalised
    to [0 <= seconds < 86400], so that [days] is the floor. *)
Definition delta_days (a b : datetime) : Z :=
  (microseconds a - microseconds b) / 86400000000.

(** [t.strftime("%Y-%m-%d %H:%M:%S")] and the compact form of the file name. *)
Definition strftime_iso (t : datetime) : string :=
  Str.pad 4 (year (dt_date t)) +:+ "-" +:+ Str.pad 2 (month (dt_date t)) +:+ "-" +:+
  Str.pad 2 (day (dt_date t)) +:+ " " +:+ Str.pad 2 (hour t) +:+ ":" +:+
  Str.pad 2 (minute t) +:+ ":" +:+ Str.pad 2 (second t).

Definition strftime_compact (t : datetime) : string :=
  Str.pad 4 (year (dt_date t)) +:+ Str.pad 2 (month (dt_date t)) +:+
  Str.pad 2 (day (dt_date t)) +:+ "-" +:+ Str.pad 2 (hour t) +:+
  Str.pad 2 (minute t) +:+ Str.pad 2 (second t).

(** [datetime.strptime]: supplied by the Python library. [strptime_date s]
    is [strptime(s, "%Y-%m-%d").date()] and [strptime_datetime s] is
    [strptime(s, "%Y-%m-%d %H:%M:%S")]; [None] stands for the [ValueError]. *)
Class Strptime := {
  strptime_date : string -> option date;
  strptime_datetime : string -> option datetime }.

(** ** Python sets of strings *)

(** A [set] of [str] is enumerated in an order fixed by the hashes of its
    members, which change from one process to the next: [list(s)] is some
    enumeration of the members, each once. *)
Class SetIter := {
  set_to_list : gset string -> list string;
  set_to_list_perm : forall s, set_to_list s ≡ₚ elements s }.

(** [set(l)] *)
Definition set_of_list (l : list string) : gset string := list_to_set l.

(** ** The data of the application *)

(** The rows of [ws.get_all_records()]: a dict per row, keyed by the header
    row, in the header's order. A cell is kept as the text [str] gives it. *)
Definition record : Type := list (string * string).

(** [str(r.get(key, ""))] *)
Fixpoint get (key : string) (r : record) : string :=
  match r with
  | [] => ""
  | (k, v) :: r' => if String.eqb k key then v else get key r'
  end.

(** [update.effective_user], [query.from_user] *)
Record user := User { username : option string; id : Z }.

(** A [chat_id]: the number of a chat, or the text ["@name"]. *)
Inductive chat :=
| ChatId (n : Z)
| ChatName (name : string).

Global Instance chat_eq_dec : EqDecision chat.
Proof. solve_decision. Defined.

(** An [InlineKeyboardMarkup]: rows of buttons, each a label and its
    [callback_data]. *)
Definition keyboard : Type := list (list (string * string)).

(** The states of the [ConversationHandler], [range(18)]. *)
Inductive state :=
| CHOOSING_ACTION | BRAND_NAME | CREATOR_NAME | ROOM_NO | DATE_TO_BE_AIRED
| CAMERA_REQ | STAGE_DESIGN | OTHER_TECH | PLATFORM_MODE | PLATFORM_SELECT
| PLATFORM_OTHER | CONFIRM_SUBMIT | RECALL_MENU | SEARCH_BRAND | EXPORT_CHOICE
| EXPORT_DATE_START | EXPORT_DATE_END | EXPORT_REQUESTER.

Global Instance state_eq_dec : EqDecision state.
Proof. solve_decision. Defined.

(** What a handler returns: a state, [ConversationHandler.END], or [None]. *)
Inductive result :=
| Goto (s : state)
| END
| NoResult.

Global Instance result_eq_dec : EqDecision result.
Proof. solve_decision. Defined.

Definition PLATFORMS : list string :=
  ["Facebook"; "Instagram"; "YouTube"; "Brand's Website"; "Lazada"; "Shopee";
   "TikTok"; "Others"].

(** [context.user_data] *)
Record user_data := UserData {
  ud_brand_name : option string;
  ud_creator_name : option string;
  ud_room_no : option string;
  ud_date_to_be_aired : option string;
  ud_camera_requirements : option string;
  ud_stage_design : option string;
  ud_other_technical : option string;
  ud_platform_mode : option string;
  ud_platforms : option (list string);
  ud_platforms_other : option string;
  ud_export_start : option date }.

Global Instance user_data_eq_dec : EqDecision user_data.
Proof. solve_decision. Defined.

(** [user_data.clear()] leaves the empty dict. *)
Definition cleared : user_data :=
  UserData None None None None None None None None None None None.

Definition set_brand_name (v : string) (d : user_data) : user_data :=
  UserData (Some v) (ud_creator_name d) (ud_room_no d) (ud_date_to_be_aired d)
    (ud_camera_requirements d) (ud_stage_design d) (ud_other_technical d)
    (ud_platform_mode d) (ud_platforms d) (ud_platforms_other d) (ud_export_start d).

Definition set_creator_name (v : string) (d : user_data) : user_data :=
  UserData (ud_brand_name d) (Some v) (ud_room_no d) (ud_date_to_be_aired d)
    (ud_camera_requirements d) (ud_stage_design d) (ud_other_technical d)
    (ud_platform_mode d) (ud_platforms d) (ud_platforms_other d) (ud_export_start d).

Definition set_room_no (v : string) (d : user_data) : user_data :=
  UserData (ud_brand_name d) (ud_creator_name d) (Some v) (ud_date_to_be_aired d)
    (ud_camera_requirements d) (ud_stage_design d) (ud_other_technical d)
    (ud_platform_mode d) (ud_platforms d) (ud_platforms_other d) (ud_export_start d).

Definition set_date_to_be_aired (v : string) (d : user_data) : user_data :=
  UserData (ud_brand_name d) (ud_creator_name d) (ud_room_no d) (Some v)
    (ud_camera_requirements d) (ud_stage_design d) (ud_other_technical d)
    (ud_platform_mode d) (ud_platforms d) (ud_platforms_other d) (ud_export_start d).

Definition set_camera_requirements (v : string) (d : user_data) : user_data :=
  UserData (ud_brand_name d) (ud_creator_name d) (ud_room_no d) (ud_date_to_be_aired d)
    (Some v) (ud_stage_design d) (ud_other_technical d)
    (ud_platform_mode d) (ud_platforms d) (ud_platforms_other d) (ud_export_start d).

Definition set_stage_design (v : string) (d : user_data) : user_data :=
  UserData (ud_brand_name d) (ud_creator_name d) (ud_room_no d) (ud_date_to_be_aired d)
    (ud_camera_requirements d) (Some v) (ud_other_technical d)
    (ud_platform_mode d) (ud_platforms d) (ud_platforms_other d) (ud_export_start d).

Definition set_other_technical (v : string) (d : user_data) : user_data :=
  UserData (ud_brand_name d) (ud_creator_name d) (ud_room_no d) (ud_date_to_be_aired d)
    (ud_camera_requirements d) (ud_stage_design d) (Some v)
    (ud_platform_mode d) (ud_platforms d) (ud_platforms_other d) (ud_export_start d).

Definition set_platform_mode (v : string) (d : user_data) : user_data :=
  UserData (ud_brand_name d) (ud_creator_name d) (ud_room_no d) (ud_date_to_be_aired d)
    (ud_camera_requirements d) (ud_stage_design d) (ud_other_technical d)
    (Some v) (ud_platforms d) (ud_platforms_other d) (ud_export_start d).

Definition set_platforms (v : list string) (d : user_data) : user_data :=
  UserData (ud_brand_name d) (ud_creator_name d) (ud_room_no d) (ud_date_to_be_aired d)
    (ud_camera_requirements d) (ud_stage_design d) (ud_other_technical d)
    (ud_platform_mode d) (Some v) (ud_platforms_other d) (ud_export_start d).

Definition set_platforms_other (v : string) (d : user_data) : user_data :=
  UserData (ud_brand_name d) (ud_creator_name d) (ud_room_no d) (ud_date_to_be_aired d)
    (ud_camera_requirements d) (ud_stage_design d) (ud_other_technical d)
    (ud_platform_mode d) (ud_platforms d) (Some v) (ud_export_start d).

(** [user_data["export_start"] = v] and [user_data.pop("export_start", None)] *)
Definition set_export_start (v : option date) (d : user_data) : user_data :=
  UserData (ud_brand_name d) (ud_creator_name d) (ud_room_no d) (ud_date_to_be_aired d)
    (ud_camera_requirements d) (ud_stage_design d) (ud_other_technical d)
    (ud_platform_mode d) (ud_platforms d) (ud_platforms_other d) v.

(** ** Effects *)

(** The calls a handler makes to the transport, the sheet and the log. *)
Inductive effect :=
| answer
| reply_text (text : string) (reply_markup : option keyboard)
| edit_message_text (text : string) (reply_markup : option keyboard)
| edit_message_reply_markup (reply_markup : keyboard)
| send_message (chat_id : chat) (text : string)
| send_document (chat_id : chat) (rows : list record) (filename : string)
| get_all_records
| append_row (data : list string)
| log (msg : string).

Global Instance effect_eq_dec : EqDecision effect.
Proof. solve_decision. Defined.

(** The environment of one handler call. *)
Record env := Env {
  (** [datetime.now(TIMEZONE)] *)
  now : datetime;
  (** [_get_sheet().get_all_records()]: the rows, or the text of the
      exception it raises *)
  sheet : string + list record;
  (** [_append_row]: [Some exc] when it raises *)
  append_error : option string;
  (** [bot.send_message(chat_id, ...)]: [Some exc] when it raises *)
  send_error : chat -> option string;
  (** the environment variables read at import *)
  NOTIFY_USERNAMES_env : string;
  ADMIN_USERNAMES_env : string;
  SHEET_ID : string }.

Inductive outcome (A : Type) :=
| Returns (a : A)
| Raises (exc : string).
Arguments Returns {A} a.
Arguments Raises {A} exc.

(** The state a handler threads: the session and the calls made so far. *)
Record world := World { data : user_data; trace : list effect }.

Definition M (A : Type) : Type := world -> outcome A * world.

Definition ret {A} (a : A) : M A := fun w => (Returns a, w).

Definition bind {A B} (m : M A) (k : A -> M B) : M B :=
  fun w => match m w with
           | (Returns a, w') => k a w'
           | (Raises e, w') => (Raises e, w')
           end.

Global Instance M_ret : MRet M := @ret.
Global Instance M_bind : MBind M := fun A B k m => bind m k.

Definition raise {A} (exc : string) : M A := fun w => (Raises exc, w).

(** [try: m except Exception as exc: h exc] *)
Definition try_except {A} (m : M A) (h : string -> M A) : M A :=
  fun w => match m w with
           | (Returns a, w') => (Returns a, w')
           | (Raises e, w') => h e w'
           end.

Definition emit (e : effect) : M unit :=
  fun w => (Returns tt, World (data w) (trace w ++ [e])).

Definition read : M user_data := fun w => (Returns (data w), w).

Definition modify (f : user_data -> user_data) : M unit :=
  fun w => (Returns tt, World (f (data w)) (trace w)).

(** [for x in l: body x] *)
Fixpoint for_each {A} (l : list A) (body : A -> M unit) : M unit :=
  match l with
  | [] => ret tt
  | x :: l' => body x;; for_each l' body
  end.

(** [l[-n:]] for [0 < n] *)
Definition last_n {A} (n : nat) (l : list A) : list A := drop (length l - n) l.

Definition nl : string := String "010" "".

(** The messaging transport delivers a text message that is not a command,
    a command, or the press of a button with its [callback_data]. *)
Inductive event :=
| Text (text : string)
| Command (name : string)
| Callback (data : string).

(** An [Update]: who sent it, in which chat, and what. *)
Record update := Update { effective_user : user; chat_id : Z; payload : event }.

(** ** The handlers of main.py *)

Section Handlers.

Context {SI : SetIter} {SP : Strptime} (E : env).

(** [[u.strip().lstrip("@") for u in raw.split(",") if u.strip()]] *)
Definition usernames_of (raw : string) : list string :=
  map (fun u => Str.lstrip_char "@" (Str.strip u))
      (List.filter (fun u => negb (String.eqb (Str.strip u) "")) (Str.split "," raw)).

Definition NOTIFY_USERNAMES : list string := usernames_of (NOTIFY_USERNAMES_env E).
Definition ADMIN_USERNAMES : list string := usernames_of (ADMIN_USERNAMES_env E).

(** *** The transport and the sheet *)

Definition bot_send_message (chat_id : chat) (text : string) : M unit :=
  emit (send_message chat_id text);;
  match send_error E chat_id with
  | Some exc => raise exc
  | None => ret tt
  end.

(** [ws = _get_sheet(); records = ws.get_all_records()] *)
Definition fetch_records : M (list record) :=
  emit get_all_records;;
  match sheet E with
  | inl exc => raise exc
  | inr records => ret records
  end.

(** [_append_row(data)]: when it raises, no row has been written. *)
Definition _append_row (row : list string) : M unit :=
  match append_error E with
  | Some exc => raise exc
  | None => emit (append_row row)
  end.

(** *** Rendering *)

Definition _format_summary (d : user_data) : string :=
  let platforms := Str.join ", " (default [] (ud_platforms d)) in
  let other_platforms := Str.strip (default "" (ud_platforms_other d)) in
  "Brand Name: " +:+ default "" (ud_brand_name d) +:+ nl +:+
  "Creator Name: " +:+ default "" (ud_creator_name d) +:+ nl +:+
  "Room No / Room Letter: " +:+ default "" (ud_room_no d) +:+ nl +:+
  "Date to be Aired: " +:+ default "" (ud_date_to_be_aired d) +:+ nl +:+
  "Camera Requirements: " +:+ default "" (ud_camera_requirements d) +:+ nl +:+
  "Stage Design: " +:+ default "" (ud_stage_design d) +:+ nl +:+
  "Other Technical Requirements: " +:+ default "" (ud_other_technical d) +:+ nl +:+
  "Platform Mode: " +:+ default "" (ud_platform_mode d) +:+ nl +:+
  "Platforms: " +:+ platforms +:+ nl +:+
  "Other Platforms: " +:+
    (if String.eqb other_platforms "" then "N/A" else other_platforms).

Definition _action_keyboard (is_admin : bool) : keyboard :=
  [[("New Request", "action:new")]; [("Recall Submissions", "action:recall")]]
  ++ (if is_admin
      then [[("Export CSV", "action:export")];
            [("Dashboard Link", "action:dashboard")];
            [("Manager View", "action:manager")]]
      else []).

Definition _platform_mode_keyboard : keyboard :=
  [[("Single Platform", "mode:single")]; [("Multistreaming", "mode:multi")]].

Definition _platforms_keyboard (selected : gset string) : keyboard :=
  map (fun name =>
         [((if bool_decide (name ∈ selected) then "[x]" else "[ ]") +:+ " " +:+ name,
           "platform:" +:+ name)]) PLATFORMS
  ++ [[("Done", "platform:done")]].

Definition confirm_keyboard : keyboard :=
  [[("Confirm", "confirm:yes")]; [("Cancel", "confirm:no")]].

Definition recall_keyboard : keyboard :=
  [[("Last 10 submissions", "recall:history")];
   [("Search by Brand Name", "recall:search")]].

Definition export_keyboard : keyboard :=
  [[("All submissions", "export:all")]; [("Date range", "export:date")];
   [("By requester", "export:requester")]].

(** *** Authorisation and parsing *)

Definition _is_admin (u : user) : bool :=
  let username := Str.strip (default "" (username u)) in
  if String.eqb username "" then false
  else bool_decide (Str.lstrip_char "@" username ∈ ADMIN_USERNAMES).

Definition _parse_date (value : string) : option date :=
  strptime_date (Str.strip value).

(** *** The menu and the entry points *)

Definition menu (u : user) : M result :=
  let is_admin := _is_admin u in
  emit (reply_text
          "Hi! I can record a new request or recall past submissions. Choose an option:"
          (Some (_action_keyboard is_admin)));;
  ret END.

Definition action_new_entry : M result :=
  emit answer;;
  emit (edit_message_text "Brand Name:" None);;
  ret (Goto BRAND_NAME).

Definition action_recall_entry : M result :=
  emit answer;;
  emit (log "action_recall_entry triggered");;
  emit (reply_text "How would you like to recall submissions?" (Some recall_keyboard));;
  ret (Goto RECALL_MENU).

Definition action_export_entry (from_user : user) : M result :=
  emit answer;;
  emit (log "action_export_entry triggered");;
  if negb (_is_admin from_user) then
    emit (reply_text "Sorry, only admins can export CSV." None);;
    ret END
  else
    emit (reply_text "Choose an export option:" (Some export_keyboard));;
    ret (Goto EXPORT_CHOICE).

Definition export_csv_command (effective_user : user) : M result :=
  if negb (_is_admin effective_user) then
    emit (reply_text "Sorry, only admins can export CSV." None);;
    ret END
  else
    emit (reply_text "Choose an export option:" (Some export_keyboard));;
    ret (Goto EXPORT_CHOICE).

(** *** The form *)

Definition brand_name (text : string) : M result :=
  modify (set_brand_name (Str.strip text));;
  emit (reply_text "Creator Name:" None);;
  ret (Goto CREATOR_NAME).

Definition creator_name (text : string) : M result :=
  modify (set_creator_name (Str.strip text));;
  emit (reply_text "Room No / Room Letter:" None);;
  ret (Goto ROOM_NO).

Definition room_no (text : string) : M result :=
  modify (set_room_no (Str.strip text));;
  emit (reply_text "Date to be Aired (e.g., 2026-02-15):" None);;
  ret (Goto DATE_TO_BE_AIRED).

Definition date_to_be_aired (text : string) : M result :=
  modify (set_date_to_be_aired (Str.strip text));;
  emit (reply_text "Camera Requirements:" None);;
  ret (Goto CAMERA_REQ).

Definition camera_requirements (text : string) : M result :=
  modify (set_camera_requirements (Str.strip text));;
  emit (reply_text "Stage Design:" None);;
  ret (Goto STAGE_DESIGN).

Definition stage_design (text : string) : M result :=
  modify (set_stage_design (Str.strip text));;
  emit (reply_text "Other Technical Requirements:" None);;
  ret (Goto OTHER_TECH).

Definition other_technical (text : string) : M result :=
  modify (set_other_technical (Str.strip text));;
  emit (reply_text "Platform to be used:" (Some _platform_mode_keyboard));;
  ret (Goto PLATFORM_MODE).

(** *** The platform selector *)

Definition platform_mode (data : string) : M result :=
  emit answer;;
  let mode := if String.eqb data "mode:single" then "Single" else "Multi" in
  modify (set_platform_mode mode);;
  modify (set_platforms []);;
  emit (edit_message_text "Select platform(s):" (Some (_platforms_keyboard ∅)));;
  ret (Goto PLATFORM_SELECT).

Definition platform_select (data : string) : M result :=
  emit answer;;
  selection ← match Str.after_first ":" data with
              | Some s => ret s
              | None => raise "IndexError: list index out of range"
              end;
  d ← read;
  let selected := set_of_list (default [] (ud_platforms d)) in
  let mode := default "Multi" (ud_platform_mode d) in
  if String.eqb selection "done" then
    modify (set_platforms (set_to_list selected));;
    if bool_decide ("Others" ∈ selected) then
      emit (edit_message_text "Please specify other platforms:" None);;
      ret (Goto PLATFORM_OTHER)
    else
      d' ← read;
      emit (edit_message_text
              ("Please confirm your submission:" +:+ nl +:+ nl +:+ _format_summary d')
              (Some confirm_keyboard));;
      ret (Goto CONFIRM_SUBMIT)
  else
    let selected :=
      if String.eqb mode "Single" then {[ selection ]}
      else if bool_decide (selection ∈ selected) then selected ∖ {[ selection ]}
           else selected ∪ {[ selection ]} in
    modify (set_platforms (set_to_list selected));;
    emit (edit_message_reply_markup (_platforms_keyboard selected));;
    ret (Goto PLATFORM_SELECT).

Definition platform_other (text : string) : M result :=
  modify (set_platforms_other (Str.strip text));;
  d ← read;
  emit (reply_text
          ("Please confirm your submission:" +:+ nl +:+ nl +:+ _format_summary d)
          (Some confirm_keyboard));;
  ret (Goto CONFIRM_SUBMIT).

(** *** The submission *)

Definition confirm_submit (data : string) (from_user : user) (chat_id : Z) : M result :=
  emit answer;;
  if String.eqb data "confirm:no" then
    emit (edit_message_text "Submission canceled. Use /start to begin again." None);;
    ret END
  else
    let user := from_user in
    let username :=
      let u := Str.strip (default "" (username user)) in
      if String.eqb u "" then "id:" +:+ pretty (id user) else u in
    let timestamp := strftime_iso (now E) in
    d ← read;
    let row := [ timestamp; username;
                 default "" (ud_brand_name d);
                 default "" (ud_creator_name d);
                 default "" (ud_room_no d);
                 default "" (ud_date_to_be_aired d);
                 default "" (ud_camera_requirements d);
                 default "" (ud_stage_design d);
                 default "" (ud_other_technical d);
                 default "" (ud_platform_mode d);
                 Str.join ", " (default [] (ud_platforms d));
                 default "" (ud_platforms_other d) ] in
    saved ← try_except (_append_row row;; ret true)
              (fun exc =>
                 emit (log "Failed to append row");;
                 emit (edit_message_text
                         ("Sorry, I couldn't save your request. Error: " +:+ exc) None);;
                 ret false);
    if negb saved then ret END
    else
      let summary := _format_summary d in
      emit (edit_message_text
              ("Your request has been recorded." +:+ nl +:+ nl +:+ summary) None);;
      let notify_text :=
        "New request submitted:" +:+ nl +:+ nl +:+ summary
        +:+ nl +:+ nl +:+ "Submitted by: @" +:+ username
        +:+ nl +:+ "Timestamp: " +:+ timestamp in
      bot_send_message (ChatId chat_id) notify_text;;
      for_each NOTIFY_USERNAMES (fun uname =>
        if negb (String.eqb uname "") then
          try_except (bot_send_message (ChatName ("@" +:+ uname)) notify_text)
            (fun _ => emit (log ("Failed to notify " +:+ uname)))
        else ret tt);;
      modify (fun _ => cleared);;
      ret END.

(** *** Recall *)

Definition history_line (r : record) : string :=
  "- " +:+ get "Timestamp" r +:+ " | " +:+ get "Brand Name" r +:+ " | "
  +:+ get "Date to be Aired" r.

Definition show_history (from_user : user) : M result :=
  let username := Str.strip (default "" (username from_user)) in
  if String.eqb username "" then
    emit (edit_message_text
            "I couldn't find your username. Please set a Telegram username and try again."
            None);;
    ret END
  else
    fetched ← try_except (records ← fetch_records; ret (Some records))
                (fun exc =>
                   emit (log "Failed to fetch history");;
                   emit (edit_message_text
                           ("Sorry, I couldn't access the sheet. Error: " +:+ exc) None);;
                   ret None);
    match fetched with
    | None => ret END
    | Some records =>
        let matches :=
          List.filter (fun r => String.eqb (Str.strip (get "Requester Username" r)) username)
                      records in
        let latest := last_n 10 matches in
        match latest with
        | [] =>
            emit (edit_message_text "No submissions found for your username." None);;
            ret END
        | _ =>
            let lines := map history_line latest in
            emit (edit_message_text
                    ("Your last submissions:" +:+ nl +:+ Str.join nl lines) None);;
            ret END
        end
    end.

Definition recall_choice (data : string) (from_user : user) : M result :=
  emit answer;;
  if String.eqb data "recall:history" then show_history from_user
  else if String.eqb data "recall:search" then
    emit (edit_message_text "Enter the Brand Name to search:" None);;
    ret (Goto SEARCH_BRAND)
  else
    emit (edit_message_text
            "Sorry, I didn't understand that recall option. Use /menu to try again." None);;
    ret END.

Definition search_line (r : record) : string :=
  "- " +:+ get "Timestamp" r +:+ " | " +:+ get "Brand Name" r +:+ " | "
  +:+ get "Requester Username" r.

(** [[r for r in records if query_text in str(r.get("Brand Name", "")).lower()]] *)
Definition search_matches (query_text : string) (records : list record) : list record :=
  List.filter (fun r => Str.contains query_text (Str.lower (get "Brand Name" r))) records.

Definition search_brand (text : string) : M result :=
  let query_text := Str.lower (Str.strip text) in
  fetched ← try_except (records ← fetch_records; ret (Some records))
              (fun exc =>
                 emit (log "Failed to search");;
                 emit (reply_text
                         ("Sorry, I couldn't access the sheet. Error: " +:+ exc) None);;
                 ret None);
  match fetched with
  | None => ret END
  | Some records =>
      let matches := search_matches query_text records in
      match matches with
      | [] =>
          emit (reply_text "No submissions found for that brand name." None);;
          ret END
      | _ =>
          let lines := map search_line (last_n 10 matches) in
          emit (reply_text ("Matches:" +:+ nl +:+ Str.join nl lines) None);;
          ret END
      end
  end.

(** *** Export *)

(** The document sent is the CSV of [rows] ([csv.DictWriter] over the keys
    of the first row); the effect carries the rows themselves. *)
Definition bot_send_document (chat_id : chat) (rows : list record) (filename : string)
  : M unit :=
  emit (send_document chat_id rows filename);;
  match send_error E chat_id with
  | Some exc => raise exc
  | None => ret tt
  end.

Definition export_csv_records (records : list record) (chat_id : Z) : M unit :=
  match records with
  | [] => bot_send_message (ChatId chat_id) "No submissions found to export."
  | _ =>
      let filename :=
        "request-submissions-" +:+ strftime_compact (now E) +:+ ".csv" in
      bot_send_document (ChatId chat_id) records filename
  end.

Definition export_choice (data : string) (chat_id : Z) : M result :=
  emit answer;;
  choice ← match Str.after_first ":" data with
           | Some s => ret s
           | None => raise "IndexError: list index out of range"
           end;
  if String.eqb choice "all" then
    emit (edit_message_text "Preparing CSV export..." None);;
    fetched ← try_except (records ← fetch_records; ret (Some records))
                (fun exc =>
                   emit (log "Failed to export CSV");;
                   emit (reply_text
                           ("Sorry, I couldn't access the sheet. Error: " +:+ exc) None);;
                   ret None);
    match fetched with
    | None => ret END
    | Some records => export_csv_records records chat_id;; ret END
    end
  else if String.eqb choice "date" then
    emit (edit_message_text "Enter start date (YYYY-MM-DD):" None);;
    ret (Goto EXPORT_DATE_START)
  else if String.eqb choice "requester" then
    emit (edit_message_text "Enter requester username (without @):" None);;
    ret (Goto EXPORT_REQUESTER)
  else ret NoResult.

Definition export_date_start (text : string) : M result :=
  match _parse_date text with
  | None =>
      emit (reply_text "Invalid date format. Please enter start date as YYYY-MM-DD:" None);;
      ret (Goto EXPORT_DATE_START)
  | Some start =>
      modify (set_export_start (Some start));;
      emit (reply_text "Enter end date (YYYY-MM-DD):" None);;
      ret (Goto EXPORT_DATE_END)
  end.

(** The loop that fills [filtered]; [start <= ts_dt] raises a [TypeError]
    when [start] is [None]. *)
Fixpoint filter_date_range (start : option date) (end_ : date) (records : list record)
  : M (list record) :=
  match records with
  | [] => ret []
  | r :: records' =>
      let ts := Str.strip (get "Timestamp" r) in
      if String.eqb ts "" then filter_date_range start end_ records'
      else
        match strptime_datetime ts with
        | None => filter_date_range start end_ records'
        | Some ts_dt =>
            match start with
            | None =>
                raise "TypeError: '<=' not supported between instances of 'NoneType' and 'datetime.date'"
            | Some s =>
                filtered ← filter_date_range start end_ records';
                ret (if date_leb s (dt_date ts_dt) && date_leb (dt_date ts_dt) end_
                     then r :: filtered else filtered)
            end
        end
  end.

Definition export_date_end (text : string) (chat_id : Z) : M result :=
  match _parse_date text with
  | None =>
      emit (reply_text "Invalid date format. Please enter end date as YYYY-MM-DD:" None);;
      ret (Goto EXPORT_DATE_END)
  | Some end_ =>
      d ← read;
      let start := ud_export_start d in
      if match start with Some s => date_ltb end_ s | None => false end then
        emit (reply_text "End date must be after start date. Enter end date (YYYY-MM-DD):"
                         None);;
        ret (Goto EXPORT_DATE_END)
      else
        fetched ← try_except (records ← fetch_records; ret (Some records))
                    (fun exc =>
                       emit (log "Failed to export CSV");;
                       emit (reply_text
                               ("Sorry, I couldn't access the sheet. Error: " +:+ exc) None);;
                       ret None);
        match fetched with
        | None => ret END
        | Some records =>
            filtered ← filter_date_range start end_ records;
            export_csv_records filtered chat_id;;
            modify (set_export_start None);;
            ret END
        end
  end.

Definition export_requester (text : string) (chat_id : Z) : M result :=
  let requester := Str.lstrip_char "@" (Str.strip text) in
  fetched ← try_except (records ← fetch_records; ret (Some records))
              (fun exc =>
                 emit (log "Failed to export CSV");;
                 emit (reply_text
                         ("Sorry, I couldn't access the sheet. Error: " +:+ exc) None);;
                 ret None);
  match fetched with
  | None => ret END
  | Some records =>
      let filtered :=
        List.filter (fun r => String.eqb (Str.strip (get "Requester Username" r)) requester)
                    records in
      export_csv_records filtered chat_id;;
      ret END
  end.

(** *** The dashboard link and the manager view *)

Definition dashboard_text : string :=
  "Dashboard link:" +:+ nl +:+ "https://docs.google.com/spreadsheets/d/" +:+ SHEET_ID E.

Definition action_dashboard (from_user : user) : M result :=
  emit answer;;
  if negb (_is_admin from_user) then
    emit (reply_text "Sorry, only admins can access the dashboard link." None);;
    ret NoResult
  else
    emit (reply_text dashboard_text None);;
    ret NoResult.

Definition dashboard_command (effective_user : user) : M result :=
  if negb (_is_admin effective_user) then
    emit (reply_text "Sorry, only admins can access the dashboard link." None);;
    ret NoResult
  else
    emit (reply_text dashboard_text None);;
    ret NoResult.

(** [brand_counts[brand] = brand_counts.get(brand, 0) + 1]: a dict keeps its
    keys in the order of their first insertion. *)
Fixpoint bump (brand : string) (counts : list (string * nat)) : list (string * nat) :=
  match counts with
  | [] => [(brand, 1%nat)]
  | (b, n) :: counts' =>
      if String.eqb b brand then (b, S n) :: counts' else (b, n) :: bump brand counts'
  end.

(** The counters of the loop of [send_manager_view]. *)
Record stats := Stats {
  last_7 : nat; last_30 : nat; brand_counts : list (string * nat) }.

(** One iteration of the loop. *)
Definition count_record (st : stats) (r : record) : stats :=
  let brand :=
    let b := Str.strip (get "Brand Name" r) in
    if String.eqb b "" then "Unknown" else b in
  let counts := bump brand (brand_counts st) in
  let ts := Str.strip (get "Timestamp" r) in
  match strptime_datetime ts with
  | None => Stats (last_7 st) (last_30 st) counts
  | Some ts_dt =>
      let days := delta_days (now E) ts_dt in
      Stats (if days <=? 7 then S (last_7 st) else last_7 st)
            (if days <=? 30 then S (last_30 st) else last_30 st)
            counts
  end.

Definition manager_stats (records : list record) : stats :=
  fold_left count_record records (Stats 0 0 []).

(** [sorted(items, key=lambda x: x[1], reverse=True)]: stable. *)
Fixpoint insert_desc (x : string * nat) (l : list (string * nat)) : list (string * nat) :=
  match l with
  | [] => [x]
  | y :: l' => if (snd y <=? snd x)%nat then x :: l else y :: insert_desc x l'
  end.

Definition sorted_desc (l : list (string * nat)) : list (string * nat) :=
  foldr insert_desc [] l.

Definition manager_message (total : nat) (st : stats) : string :=
  let top_brands := take 5 (sorted_desc (brand_counts st)) in
  let top_lines :=
    match map (fun '(name, count) => "- " +:+ name +:+ ": " +:+ pretty count) top_brands with
    | [] => ["- None"]
    | lines => lines
    end in
  "Manager View" +:+ nl +:+
  "Total submissions: " +:+ pretty total +:+ nl +:+
  "Last 7 days: " +:+ pretty (last_7 st) +:+ nl +:+
  "Last 30 days: " +:+ pretty (last_30 st) +:+ nl +:+
  "Top brands:" +:+ nl +:+ Str.join nl top_lines.

Definition send_manager_view (chat_id : Z) : M unit :=
  fetched ← try_except (records ← fetch_records; ret (Some records))
              (fun exc =>
                 emit (log "Failed to load manager view");;
                 bot_send_message (ChatId chat_id)
                   ("Sorry, I couldn't access the sheet. Error: " +:+ exc);;
                 ret None);
  match fetched with
  | None => ret tt
  | Some records =>
      let total := length records in
      bot_send_message (ChatId chat_id) (manager_message total (manager_stats records))
  end.

Definition action_manager (from_user : user) (chat_id : Z) : M result :=
  emit answer;;
  if negb (_is_admin from_user) then
    emit (reply_text "Sorry, only admins can access the manager view." None);;
    ret NoResult
  else
    emit (reply_text "Preparing manager view..." None);;
    send_manager_view chat_id;;
    ret NoResult.

Definition manager_view_command (effective_user : user) (chat_id : Z) : M result :=
  if negb (_is_admin effective_user) then
    emit (reply_text "Sorry, only admins can access the manager view." None);;
    ret NoResult
  else
    send_manager_view chat_id;;
    ret NoResult.

Definition cancel : M result :=
  emit (reply_text "Canceled. Use /start to begin again." None);;
  modify (fun _ => cleared);;
  ret END.

Definition recall_hint : M result :=
  emit (reply_text "Use /menu and choose Recall Submissions." None);;
  ret NoResult.

(** *** [build_app]: the routing of updates *)

(** [entry_points] *)
Definition entry_points (u : update) : option (M result) :=
  match payload u with
  | Callback data =>
      if Str.match_exact "action:new" data then Some action_new_entry
      else if Str.match_exact "action:recall" data then Some action_recall_entry
      else if Str.match_exact "action:export" data
           then Some (action_export_entry (effective_user u))
      else None
  | Command name =>
      if String.eqb name "export" then Some (export_csv_command (effective_user u))
      else None
  | Text _ => None
  end.

(** [states]: [CHOOSING_ACTION] has no entry. *)
Definition states (st : state) (u : update) : option (M result) :=
  match st, payload u with
  | BRAND_NAME, Text t => Some (brand_name t)
  | CREATOR_NAME, Text t => Some (creator_name t)
  | ROOM_NO, Text t => Some (room_no t)
  | DATE_TO_BE_AIRED, Text t => Some (date_to_be_aired t)
  | CAMERA_REQ, Text t => Some (camera_requirements t)
  | STAGE_DESIGN, Text t => Some (stage_design t)
  | OTHER_TECH, Text t => Some (other_technical t)
  | PLATFORM_MODE, Callback data =>
      if Str.startswith "mode:" data then Some (platform_mode data) else None
  | PLATFORM_SELECT, Callback data =>
      if Str.startswith "platform:" data then Some (platform_select data) else None
  | PLATFORM_OTHER, Text t => Some (platform_other t)
  | CONFIRM_SUBMIT, Callback data =>
      if Str.startswith "confirm:" data
      then Some (confirm_submit data (effective_user u) (chat_id u)) else None
  | RECALL_MENU, Callback data =>
      if Str.startswith "recall:" data
      then Some (recall_choice data (effective_user u)) else None
  | SEARCH_BRAND, Text t => Some (search_brand t)
  | EXPORT_CHOICE, Callback data =>
      if Str.startswith "export:" data
      then Some (export_choice data (chat_id u)) else None
  | EXPORT_DATE_START, Text t => Some (export_date_start t)
  | EXPORT_DATE_END, Text t => Some (export_date_end t (chat_id u))
  | EXPORT_REQUESTER, Text t => Some (export_requester t (chat_id u))
  | _, _ => None
  end.

(** [fallbacks] *)
Definition fallbacks (u : update) : option (M result) :=
  match payload u with
  | Command name => if String.eqb name "cancel" then Some cancel else None
  | _ => None
  end.

(** The handler the [ConversationHandler] picks for an update: an entry
    point when the user is in no state; otherwise the handler of the state
    and, failing that, a fallback. *)
Definition conversation (current : option state) (u : update) : option (M result) :=
  match current with
  | None => entry_points u
  | Some st =>
      match states st u with
      | Some h => Some h
      | None => fallbacks u
      end
  end.

(** The handlers added after the conversation, in their order. *)
Definition other_handlers (u : update) : option (M result) :=
  match payload u with
  | Callback data =>
      if Str.match_exact "action:dashboard" data
      then Some (action_dashboard (effective_user u))
      else if Str.match_exact "action:manager" data
           then Some (action_manager (effective_user u) (chat_id u))
      else None
  | Command name =>
      if String.eqb name "history" then Some recall_hint
      else if String.eqb name "search" then Some recall_hint
      else if String.eqb name "dashboard" then Some (dashboard_command (effective_user u))
      else if String.eqb name "manager"
           then Some (manager_view_command (effective_user u) (chat_id u))
      else None
  | Text _ => None
  end.

(** The state of the conversation after a handler of it has run: a raised
    exception or a [None] result leave it as it was. *)
Definition next_state (current : option state) (o : outcome result) : option state :=
  match o with
  | Returns (Goto st) => Some st
  | Returns END => None
  | Returns NoResult => current
  | Raises _ => current
  end.

(** One update through the application: [/start] and [/menu] come first,
    then the conversation, then the other handlers; the first that accepts
    the update runs, and an update that none accepts is dropped. *)
Definition step (current : option state) (u : update) (w : world) : option state * world :=
  let is_menu :=
    match payload u with
    | Command name => String.eqb name "start" || String.eqb name "menu"
    | _ => false
    end in
  if is_menu then (current, snd (menu (effective_user u) w))
  else
    match conversation current u with
    | Some h => let '(o, w') := h w in (next_state current o, w')
    | None =>
        match other_handlers u with
        | Some h => (current, snd (h w))
        | None => (current, w)
        end
    end.

(** A sequence of updates of one user in one chat. *)
Fixpoint run (current : option state) (us : list update) (w : world) : option state * world :=
  match us with
  | [] => (current, w)
  | u :: us' => let '(current', w') := step current u w in run current' us' w'
  end.

End Handlers.

(** ** Instances for concrete runs *)

(** Two enumeration orders of sets: the one of [elements], and its reverse. *)
Definition elements_order : SetIter :=
  {| set_to_list := elements;
     set_to_list_perm := fun s => reflexivity (elements s) |}.

Definition reversed_order : SetIter :=
  {| set_to_list := fun s => reverse (elements s);
     set_to_list_perm := fun s => reverse_Permutation (elements s) |}.

Definition digit (c : ascii) : option Z :=
  let n := N_of_ascii c in
  if ((48 <=? n) && (n <=? 57))%N then Some (Z.of_N n - 48) else None.

Fixpoint number (acc : Z) (s : string) : option Z :=
  match s with
  | EmptyString => Some acc
  | String c s' => match digit c with
                   | Some d => number (acc * 10 + d) s'
                   | None => None
                   end
  end.

Definition days_in_month (y m : Z) : Z :=
  if m =? 2 then (if is_leap y then 29 else 28)
  else if (m =? 4) || (m =? 6) || (m =? 9) || (m =? 11) then 30 else 31.

(** [strptime] on the zero-padded texts [YYYY-MM-DD] and
    [YYYY-MM-DD HH:MM:SS], where it agrees with Python's; this parser refuses
    every other text (Python's also reads fields without their padding). *)
Definition iso_date (s : string) : option date :=
  if (String.length s =? 10)%nat && String.eqb (substring 4 1 s) "-"
     && String.eqb (substring 7 1 s) "-"
  then
    match number 0 (substring 0 4 s), number 0 (substring 5 2 s),
          number 0 (substring 8 2 s) with
    | Some y, Some m, Some d =>
        if (1 <=? y) && (1 <=? m) && (m <=? 12) && (1 <=? d) && (d <=? days_in_month y m)
        then Some (Date y m d) else None
    | _, _, _ => None
    end
  else None.

Definition iso_datetime (s : string) : option datetime :=
  if (String.length s =? 19)%nat && String.eqb (substring 10 1 s) " "
     && String.eqb (substring 13 1 s) ":" && String.eqb (substring 16 1 s) ":"
  then
    match iso_date (substring 0 10 s), number 0 (substring 11 2 s),
          number 0 (substring 14 2 s), number 0 (substring 17 2 s) with
    | Some d, Some h, Some mi, Some se =>
        if (h <=? 23) && (mi <=? 59) && (se <=? 59)
        then Some (Datetime d h mi se 0) else None
    | _, _, _, _ => None
    end
  else None.

Definition iso_strptime : Strptime :=
  {| strptime_date := iso_date; strptime_datetime := iso_datetime |}.

(** A row of the sheet as the application writes it. *)
Definition row_record (timestamp requester brand : string) : record :=
  [("Timestamp", timestamp); ("Requester Username", requester); ("Brand Name", brand)].

(** An environment in which every call succeeds. *)
Definition quiet_env (clock : datetime) (rows : list record) (notify admins : string) : env :=
  Env clock (inr rows) None (fun _ => None) notify admins "sheet-1".

(** The selection set of a session: [set(user_data.get("platforms", []))]. *)
Definition selection (w : world) : gset string :=
  set_of_list (default [] (ud_platforms (data w))).

(** The press of the button of a platform, and of [Done]. *)
Definition toggle (who : user) (chat : Z) (name : string) : update :=
  Update who chat (Callback ("platform:" +:+ name)).

(** The rows written by a trace, in order. *)
Definition written (t : list effect) : list (list string) :=
  omap (fun e => match e with append_row row => Some row | _ => None end) t.

(** The chats a trace sent (or tried to send) a message to, in order. *)
Definition messaged (t : list effect) : list chat :=
  omap (fun e => match e with send_message c _ => Some c | _ => None end) t.

(** The number of reads of the sheet in a trace. *)
Definition reads (t : list effect) : nat :=
  length (List.filter (fun e => bool_decide (e = get_all_records)) t).

(** The documents a trace sent, in order. *)
Definition exported (t : list effect) : list (list record) :=
  omap (fun e => match e with send_document _ rows _ => Some rows | _ => None end) t.

(** The symmetric difference, for the selection in Multi mode as the
    specification words it: a toggle flips the membership of its entry. *)
Definition sym_diff (a b : gset string) : gset string := (a ∖ b) ∪ (b ∖ a).

Definition apply_toggles (s : gset string) (names : list string) : gset string :=
  foldl (fun acc name => sym_diff acc {[ name ]}) s names.

(** The press of a platform button in a world: the selection it leaves. *)
Definition toggled (name : string) (w : world) : gset string :=
  if String.eqb (default "Multi" (ud_platform_mode (data w))) "Single" then {[ name ]}
  else if bool_decide (name ∈ selection w) then selection w ∖ {[ name ]}
       else selection w ∪ {[ name ]}.

(** The scenario of the Multi-mode submission, from [PLATFORM_MODE] on. *)
Definition multi_scenario (who : user) (chat : Z) : list update :=
  [ Update who chat (Callback "mode:multi");
    toggle who chat "Others";
    toggle who chat "TikTok";
    Update who chat (Callback "platform:done");
    Update who chat (Text "Podcast Clips");
    Update who chat (Callback "confirm:yes") ].

(** The row [confirm_submit] builds from a session. *)
Definition submission_row (E : env) (who : user) (d : user_data) : list string :=
  [ strftime_iso (now E);
    (let u := Str.strip (default "" (username who)) in
     if String.eqb u "" then "id:" +:+ pretty (id who) else u);
    default "" (ud_brand_name d);
    default "" (ud_creator_name d);
    default "" (ud_room_no d);
    default "" (ud_date_to_be_aired d);
    default "" (ud_camera_requirements d);
    default "" (ud_stage_design d);
    default "" (ud_other_technical d);
    default "" (ud_platform_mode d);
    Str.join ", " (default [] (ud_platforms d));
    default "" (ud_platforms_other d) ].

(** The observers that are sent a notification: [for uname in
    NOTIFY_USERNAMES: if uname: ...]. *)
Definition observers (E : env) : list chat :=
  map (fun uname => ChatName ("@" +:+ uname))
      (List.filter (fun uname => negb (String.eqb uname "")) (NOTIFY_USERNAMES E)).

Definition alice : user := User (Some "alice") 1001.

Definition clock : datetime := Datetime (Date 2026 2 10) 9 30 0 0.

(** A session at [CONFIRM_SUBMIT] after the Multi-mode form. *)
Definition filled : user_data :=
  UserData (Some "ACME") (Some "Kim") (Some "B") (Some "2026-02-15") (Some "2 cams")
    (Some "plain") (Some "none") (Some "Multi") (Some ["Others"; "TikTok"])
    (Some "Podcast Clips") None.

(** An environment in which the transport refuses the message to the
    submitter's chat [7], with two observers configured. *)
Definition echo_fails_env : env :=
  Env clock (inr []) None
      (fun c => if bool_decide (c = ChatId 7) then Some "Forbidden" else None)
      "bob, @carol" "" "sheet-1".

(** An environment in which the transport refuses the first observer. *)
Definition observer_fails_env : env :=
  Env clock (inr []) None
      (fun c => if bool_decide (c = ChatName "@bob") then Some "Chat not found" else None)
      "bob, @carol" "" "sheet-1".

(** A new Single-mode request after a cancelled one, from the menu button to
    the confirmation. *)
Definition second_request (who : user) (chat : Z) : list update :=
  [ Update who chat (Callback "confirm:no");
    Update who chat (Callback "action:new");
    Update who chat (Text "Zeta");
    Update who chat (Text "Lee");
    Update who chat (Text "C");
    Update who chat (Text "2026-03-01");
    Update who chat (Text "1 cam");
    Update who chat (Text "none");
    Update who chat (Text "none");
    Update who chat (Callback "mode:single");
    toggle who chat "Facebook";
    Update who chat (Callback "platform:done");
    Update who chat (Callback "confirm:yes") ].

(** The order of the reported matches as the specification words it: the
    most recent first, at most ten. *)
Definition search_most_recent_first (query_text : string) (records : list record)
  : list record :=
  take 10 (reverse (search_matches query_text records)).

(** A sheet with two ACME rows around another brand, in the order written. *)
Definition acme_records : list record :=
  [ row_record "2026-01-05 10:00:00" "alice" "ACME Corp";
    row_record "2026-01-06 11:00:00" "bob" "Zeta";
    row_record "2026-01-07 12:00:00" "carol" "Acme2" ].

(** A row counts for a window of [days] days when its timestamp parses and
    [(now - ts_dt).days <= days]. *)
Definition in_window {SP : Strptime} (E : env) (days : Z) (r : record) : bool :=
  match strptime_datetime (Str.strip (get "Timestamp" r)) with
  | Some ts_dt => delta_days (now E) ts_dt <=? days
  | None => false
  end.

(** Noon of 9 January 2026, and a row written 7 days and 23 hours earlier. *)
Definition noon_jan_9 : datetime := Datetime (Date 2026 1 9) 12 0 0 0.

Definition week_old_records : list record :=
  [ row_record "2026-01-01 13:00:00" "alice" "ACME Corp" ].

(** A computation that leaves the session as it found it, however it ends. *)
Definition keeps {A} (m : M A) : Prop := forall w, data (m w).2 = data w.

(** A handler that never returns the state [s]. *)
Definition never_goto (s : state) (m : M result) : Prop :=
  forall w, (m w).1 <> Returns (Goto s).

(** A handler that leaves the session as it found it unless it returns
    [ConversationHandler.END]. *)
Definition keeps_unless_end (m : M result) : Prop :=
  forall w, (m w).1 = Returns END \/ data (m w).2 = data w.

(** The invariant of the export by date range: in [EXPORT_DATE_END] the
    start date has been collected. *)
Definition start_collected (current : option state) (w : world) : Prop :=
  current = Some EXPORT_DATE_END -> is_Some (ud_export_start (data w)).

(** Concrete inputs of the checks at the end of the file. *)
Definition quiet : env := quiet_env clock acme_records "bob, @carol" "alice".

Definition mallory : user := User (Some "mallory") 1002.

Definition single_start : world := World (set_platform_mode "Single" cleared) [].

Definition multi_start : world := World (set_platform_mode "Multi" cleared) [].

Definition start_feb_10 : world :=
  World (set_export_start (Some (Date 2026 2 10)) cleared) [].

(** The callback data of the buttons of a keyboard, row by row. *)
Definition offered (k : keyboard) : list string := map snd (concat k).

(** The seven answers of the form, as text messages. *)
Definition answers (who : user) (chat : Z) (texts : list string) : list update :=
  map (fun t => Update who chat (Text t)) texts.

(** A whole Single-mode request from [BRAND_NAME] on: the seven answers, the
    mode, one platform, [Done], and the confirmation. *)
Definition single_request (who : user) (chat : Z) (texts : list string) (name : string)
  : list update :=
  answers who chat texts
  ++ [ Update who chat (Callback "mode:single");
       toggle who chat name;
       Update who chat (Callback "platform:done");
       Update who chat (Callback "confirm:yes") ].

(** The rows of a user in the sheet: the requester cell, stripped, is the
    handle. *)
Definition rows_of (handle : string) (records : list record) : list record :=
  List.filter (fun r => String.eqb (Str.strip (get "Requester Username" r)) handle) records.

(** A row is in the range of an export when its timestamp, stripped, is not
    empty, parses, and its date lies between the two dates, both included. *)
Definition in_range {SP : Strptime} (start end_ : date) (r : record) : bool :=
  let ts := Str.strip (get "Timestamp" r) in
  if String.eqb ts "" then false
  else match strptime_datetime ts with
       | Some ts_dt => date_leb start (dt_date ts_dt) && date_leb (dt_date ts_dt) end_
       | None => false
       end.

(** What [export_csv_records] sends: a notice for no rows, the file of the
    rows otherwise. *)
Definition export_effect (E : env) (chat : Z) (rows : list record) : effect :=
  match rows with
  | [] => send_message (ChatId chat) "No submissions found to export."
  | _ => send_document (ChatId chat) rows
           ("request-submissions-" +:+ strftime_compact (now E) +:+ ".csv")
  end.

(** The brand a row counts for: the brand cell stripped, "Unknown" when it is
    empty. *)
Definition brand_of (r : record) : string :=
  let b := Str.strip (get "Brand Name" r) in
  if String.eqb b "" then "Unknown" else b.

(** [brand_counts.get(brand, 0)] *)
Fixpoint count_of (brand : string) (counts : list (string * nat)) : nat :=
  match counts with
  | [] => 0
  | (b, n) :: counts' => if String.eqb b brand then n else count_of brand counts'
  end.

(** The number of rows of a brand. *)
Definition rows_of_brand (brand : string) (records : list record) : nat :=
  length (List.filter (fun r => String.eqb (brand_of r) brand) records).

(** ** The file of environment variables *)

Module Dotenv.

(** [s.strip(c)] for a one-character argument. *)
Definition strip_char (c : ascii) (s : string) : string :=
  String.rev (Str.lstrip_char c (String.rev (Str.lstrip_char c s))).

(** [s.split(c, 1)[0]]: what comes before the first [c]. *)
Fixpoint before_first (c : ascii) (s : string) : string :=
  match s with
  | EmptyString => EmptyString
  | String a s' => if Ascii.eqb a c then EmptyString else String a (before_first c s')
  end.

(** One line of the file: [None] for a line that is skipped (blank, a
    comment, or without [=]), the key and the value otherwise. *)
Definition parse_line (line : string) : option (string * string) :=
  let line := Str.strip line in
  if String.eqb line "" || Str.startswith "#" line || negb (Str.contains "=" line)
  then None
  else
    let key := before_first "=" line in
    let value := default "" (Str.after_first "=" line) in
    let key := Str.strip key in
    let value := strip_char "034" (strip_char "'" (Str.strip value)) in
    Some (key, value).

(** The body of the loop: [os.environ] after one line. *)
Definition load_line (environ : gmap string string) (line : string) : gmap string string :=
  match parse_line line with
  | None => environ
  | Some (key, value) =>
      if negb (String.eqb key "") && bool_decide (environ !! key = None)
      then <[ key := value ]> environ
      else environ
  end.

(** [_load_dotenv()], given the lines of the file ([None]: there is no
    file) and [os.environ]. *)
Definition _load_dotenv (file : option (list string)) (environ : gmap string string)
  : gmap string string :=
  match file with
  | None => environ
  | Some lines => foldl load_line environ lines
  end.

(** The value the file gives a key: that of the first line that assigns it. *)
Definition first_value (key : string) (lines : list string) : option string :=
  head (omap (fun line =>
                match parse_line line with
                | Some (k, v) => if String.eqb k key then Some v else None
                | None => None
                end) lines).

End Dotenv.

(** An environment in which the sheet refuses the row, one in which it
    cannot be read, and a user without a handle. *)
Definition write_fails_env : env :=
  Env clock (inr []) (Some "quota exceeded") (fun _ => None) "" "alice" "sheet-1".

Definition unreadable_env : env :=
  Env clock (inl "timed out") None (fun _ => None) "" "alice" "sheet-1".

Definition nobody : user := User None 1003.

(** Unfolds the operations of [M] in a goal. *)
Ltac run_handler :=
  unfold mbind, M_bind, mret, M_ret, bind, ret, emit, modify, read, raise, try_except;
  cbn.

(** * Properties *)

(** ** The string and date operations on examples *)

Example strip_ex : Str.strip ("  ab c " +:+ nl) = "ab c".
Proof. reflexivity. Qed.
Example lstrip_char_ex : Str.lstrip_char "@" "@@bob@" = "bob@".
Proof. reflexivity. Qed.
Example lower_ex : Str.lower "ACME Corp-@[`{" = "acme corp-@[`{".
Proof. reflexivity. Qed.
Example contains_ex : Str.contains "acme" "the acme2" = true /\ Str.contains "acme" "ac me" = false.
Proof. split; reflexivity. Qed.
Example join_ex : Str.join ", " ["a"; "b"; "c"] = "a, b, c" /\ Str.join ", " [] = "".
Proof. split; reflexivity. Qed.
Example split_ex : Str.split "," "a, b,,c" = ["a"; " b"; ""; "c"] /\ Str.split "," "" = [""].
Proof. split; reflexivity. Qed.
Example after_first_ex : Str.after_first ":" "platform:a:b" = Some "a:b" /\ Str.after_first ":" "x" = None.
Proof. split; reflexivity. Qed.
Example pad_ex : Str.pad 2 7 = "07" /\ Str.pad 4 2026 = "2026" /\ Str.pad 2 12 = "12".
Proof. repeat split; vm_compute; reflexivity. Qed.

Example toordinal_ex : toordinal (Date 2026 11 4) = 739924 /\ toordinal (Date 1 1 1) = 1
  /\ toordinal (Date 2024 3 1) = 738946.
Proof. repeat split; reflexivity. Qed.

Example strftime_ex :
  strftime_iso (Datetime (Date 2026 2 5) 9 3 0 123) = "2026-02-05 09:03:00".
Proof. vm_compute. reflexivity. Qed.

Example iso_date_ex :
  iso_date "2026-02-15" = Some (Date 2026 2 15) /\ iso_date "2026-02-30" = None
  /\ iso_date "15/02/2026" = None
  /\ iso_datetime "2026-01-01 13:00:00" = Some (Datetime (Date 2026 1 1) 13 0 0 0).
Proof. repeat split; vm_compute; reflexivity. Qed.

Example elements_order_ex :
  @set_to_list elements_order (set_of_list ["Others"; "TikTok"]) = ["Others"; "TikTok"]
  /\ @set_to_list reversed_order (set_of_list ["Others"; "TikTok"]) = ["TikTok"; "Others"].
Proof. split; vm_compute; reflexivity. Qed.

(** ** Strings *)

Lemma app_cons (a : ascii) (p s : string) : String a p +:+ s = String a (p +:+ s).
Proof. reflexivity. Qed.

Lemma startswith_app (p s : string) : Str.startswith p (p +:+ s) = true.
Proof.
  induction p as [|a p IH]; [reflexivity|].
  rewrite app_cons. cbn. rewrite Ascii.eqb_refl. exact IH.
Qed.

Lemma startswith_spec (p s : string) :
  Str.startswith p s = true <-> exists post, s = p +:+ post.
Proof.
  split.
  - revert s. induction p as [|a p IH]; intros s H.
    + exists s. reflexivity.
    + destruct s as [|b s]; [discriminate|].
      cbn in H. apply andb_true_iff in H as [Hab Hps].
      apply Ascii.eqb_eq in Hab as ->.
      destruct (IH _ Hps) as [post ->]. exists post. reflexivity.
  - intros [post ->]. apply startswith_app.
Qed.

Lemma contains_spec (n h : string) :
  Str.contains n h = true <-> exists pre post, h = pre +:+ n +:+ post.
Proof.
  split.
  - induction h as [|c h IH]; cbn; intros H.
    + rewrite orb_false_r in H. apply startswith_spec in H as [post ->].
      exists "", post. reflexivity.
    + apply orb_true_iff in H as [H|H].
      * apply startswith_spec in H as [post ->]. exists "", post. reflexivity.
      * destruct (IH H) as (pre & post & ->). exists (String c pre), post. reflexivity.
  - intros (pre & post & ->). induction pre as [|c pre IH].
    + change ("" +:+ n +:+ post) with (n +:+ post).
      destruct (n +:+ post) eqn:E; cbn; rewrite <- E, startswith_app; reflexivity.
    + change (String c pre +:+ n +:+ post) with (String c (pre +:+ n +:+ post)).
      cbn. rewrite IH. apply orb_true_r.
Qed.

Lemma after_first_platform (name : string) :
  Str.after_first ":" ("platform:" +:+ name) = Some name.
Proof. reflexivity. Qed.

Lemma lower_idemp (s : string) : Str.lower (Str.lower s) = Str.lower s.
Proof.
  induction s as [|c s IH]; [reflexivity|].
  cbn. rewrite IH. f_equal.
  destruct c as [[] [] [] [] [] [] [] []]; reflexivity.
Qed.

(** ** Sets *)

Section SetIterFacts.
Context {SI : SetIter}.

Lemma set_to_list_singleton (x : string) : set_to_list {[ x ]} = [x].
Proof.
  apply Permutation_singleton_r.
  rewrite set_to_list_perm, elements_singleton. reflexivity.
Qed.

Lemma set_to_list_empty : set_to_list ∅ = [].
Proof.
  apply Permutation_nil_r. rewrite set_to_list_perm, elements_empty. reflexivity.
Qed.

Lemma set_of_list_to_list (s : gset string) : set_of_list (set_to_list s) = s.
Proof.
  unfold set_of_list. rewrite set_to_list_perm. apply list_to_set_elements_L.
Qed.

Lemma length_set_to_list (s : gset string) : length (set_to_list s) = size s.
Proof. rewrite set_to_list_perm. reflexivity. Qed.
End SetIterFacts.

(** ** The platform selector *)

Section Selector.
Context {SI : SetIter} {SP : Strptime} (E : env).

(** A button pressed in a state whose handler accepts it. *)
Lemma step_callback (current : state) (who : user) (chat : Z) (token : string)
    (h : M result) (w : world) :
  states E current (Update who chat (Callback token)) = Some h ->
  step E (Some current) (Update who chat (Callback token)) w =
  (next_state (Some current) (h w).1, (h w).2).
Proof.
  intros H. unfold step, conversation. cbn [payload]. rewrite H.
  destruct (h w); reflexivity.
Qed.


Lemma platform_select_toggle (name : string) (w : world) :
  name <> "done" ->
  platform_select ("platform:" +:+ name) w =
  (Returns (Goto PLATFORM_SELECT),
   World (set_platforms (set_to_list (toggled name w)) (data w))
         (trace w ++ [answer; edit_message_reply_markup (_platforms_keyboard (toggled name w))])).
Proof.
  intros Hne. apply String.eqb_neq in Hne.
  unfold platform_select. rewrite after_first_platform.
  run_handler. rewrite Hne. cbn.
  rewrite <- app_assoc. reflexivity.
Qed.

Lemma step_toggle (who : user) (chat : Z) (name : string) (w : world) :
  name <> "done" ->
  step E (Some PLATFORM_SELECT) (toggle who chat name) w =
  (Some PLATFORM_SELECT,
   World (set_platforms (set_to_list (toggled name w)) (data w))
         (trace w ++ [answer; edit_message_reply_markup (_platforms_keyboard (toggled name w))])).
Proof.
  intros Hne. unfold toggle.
  erewrite step_callback
    by (cbv beta iota delta [states payload]; rewrite startswith_app; reflexivity).
  rewrite platform_select_toggle by assumption. reflexivity.
Qed.

Lemma run_cons (current : option state) (u : update) (us : list update) (w : world) :
  run E current (u :: us) w = run E (step E current u w).1 us (step E current u w).2.
Proof. cbn. destruct (step E current u w); reflexivity. Qed.

Lemma run_app (current : option state) (us vs : list update) (w : world) :
  run E current (us ++ vs) w =
  run E (run E current us w).1 vs (run E current us w).2.
Proof.
  revert current w. induction us as [|u us IH]; intros current w; [reflexivity|].
  cbn. destruct (step E current u w) as [current' w']. apply IH.
Qed.

(** Toggles keep the conversation in [PLATFORM_SELECT] and the mode as it is. *)
Lemma run_toggles_stay (who : user) (chat : Z) (names : list string) (w : world) :
  Forall (fun n => n <> "done") names ->
  (run E (Some PLATFORM_SELECT) (map (toggle who chat) names) w).1 = Some PLATFORM_SELECT
  /\ ud_platform_mode (data (run E (Some PLATFORM_SELECT) (map (toggle who chat) names) w).2)
     = ud_platform_mode (data w).
Proof.
  intros Hnames. revert w.
  induction Hnames as [|name names Hne _ IH]; intros w; [split; reflexivity|].
  cbn [map]. rewrite run_cons, step_toggle by assumption. cbn [fst snd].
  destruct (IH (World (set_platforms (set_to_list (toggled name w)) (data w))
                      (trace w ++ [answer;
                         edit_message_reply_markup (_platforms_keyboard (toggled name w))])))
    as [H1 H2].
  split; [exact H1|]. rewrite H2. reflexivity.
Qed.

(** C1: in Single mode, after each event of any sequence of platform
    toggles, the selection is exactly the entry toggled last: the stored
    list is that one entry, of cardinality at most 1. *)
Theorem single_mode_selection_is_last_toggle
    (who : user) (chat : Z) (names : list string) (name : string) (w : world) :
  Forall (fun n => n <> "done") (names ++ [name]) ->
  ud_platform_mode (data w) = Some "Single" ->
  let final := run E (Some PLATFORM_SELECT) (map (toggle who chat) (names ++ [name])) w in
  final.1 = Some PLATFORM_SELECT
  /\ ud_platforms (data final.2) = Some [name]
  /\ selection final.2 = {[ name ]}
  /\ (size (selection final.2) <= 1)%nat
  /\ ud_platform_mode (data final.2) = Some "Single".
Proof.
  intros Hall Hmode. apply Forall_app in Hall as [Hnames Hname].
  apply Forall_inv in Hname.
  cbv zeta. rewrite map_app, run_app.
  destruct (run_toggles_stay who chat names w Hnames) as [Hst Hm].
  rewrite Hst. cbn [map].
  rewrite run_cons, step_toggle by exact Hname. cbn [run fst snd].
  assert (Ht : toggled name (run E (Some PLATFORM_SELECT) (map (toggle who chat) names) w).2
               = {[ name ]}).
  { unfold toggled. rewrite Hm, Hmode. reflexivity. }
  rewrite Ht, set_to_list_singleton.
  assert (Hs : set_of_list [name] = {[ name ]}).
  { unfold set_of_list. cbn. apply (right_id_L ∅ (∪)). }
  unfold selection.
  cbn [data ud_platforms ud_platform_mode set_platforms from_option id Datatypes.id].
  rewrite Hm, Hmode, Hs, size_singleton. repeat split; lia.
Qed.


Lemma toggled_multi (name : string) (w : world) :
  ud_platform_mode (data w) = Some "Multi" ->
  toggled name w = sym_diff (selection w) {[ name ]}.
Proof.
  intros Hmode. unfold toggled, sym_diff. rewrite Hmode. cbn.
  case_bool_decide; set_solver.
Qed.

Lemma sym_diff_flips (s : gset string) (name x : string) :
  x ∈ sym_diff s {[ name ]} <-> (if bool_decide (x = name) then x ∉ s else x ∈ s).
Proof. unfold sym_diff. case_bool_decide; set_solver. Qed.

Lemma sym_diff_twice (s : gset string) (name : string) :
  sym_diff (sym_diff s {[ name ]}) {[ name ]} = s.
Proof.
  apply set_eq. intros x. rewrite sym_diff_flips.
  case_bool_decide; rewrite sym_diff_flips; case_bool_decide; try done.
  split; [apply dec_stable | auto].
Qed.

Lemma selection_after_toggle (who : user) (chat : Z) (name : string) (w : world) :
  name <> "done" ->
  selection (step E (Some PLATFORM_SELECT) (toggle who chat name) w).2 = toggled name w.
Proof.
  intros Hne. rewrite step_toggle by assumption.
  unfold selection. cbn [snd data ud_platforms set_platforms from_option id Datatypes.id].
  apply set_of_list_to_list.
Qed.

(** C2: in Multi mode the selection after any sequence of platform toggles
    is the symmetric difference applied toggle by toggle: a toggle flips
    the membership of its entry and of no other, and the same entry
    toggled twice in a row leaves the selection as it was. *)
Theorem multi_mode_toggles_flip_membership
    (who : user) (chat : Z) (names : list string) (w : world) :
  Forall (fun n => n <> "done") names ->
  ud_platform_mode (data w) = Some "Multi" ->
  let final := run E (Some PLATFORM_SELECT) (map (toggle who chat) names) w in
  final.1 = Some PLATFORM_SELECT
  /\ selection final.2 = apply_toggles (selection w) names
  /\ (forall s name x, x ∈ sym_diff s {[ name ]} <->
                       (if bool_decide (x = name) then x ∉ s else x ∈ s))
  /\ (forall name, name <> "done" ->
        selection (run E final.1 [toggle who chat name; toggle who chat name] final.2).2
        = selection final.2).
Proof.
  intros Hnames Hmode. cbv zeta.
  assert (Hrun : forall names w,
             Forall (fun n => n <> "done") names ->
             ud_platform_mode (data w) = Some "Multi" ->
             selection (run E (Some PLATFORM_SELECT) (map (toggle who chat) names) w).2
             = apply_toggles (selection w) names).
  { clear. intros names w Hnames. revert w.
    induction Hnames as [|name names Hne Hnames IH]; intros w Hmode; [reflexivity|].
    cbn [map]. rewrite run_cons.
    pose proof (selection_after_toggle who chat name w Hne) as Hsel.
    rewrite step_toggle in * by assumption. cbn [fst snd] in *.
    rewrite IH by exact Hmode. rewrite Hsel, toggled_multi by assumption.
    reflexivity. }
  destruct (run_toggles_stay who chat names w Hnames) as [Hst Hm].
  split; [exact Hst|]. split; [apply Hrun; assumption|].
  split; [apply sym_diff_flips|].
  intros name Hne. rewrite Hst.
  set (w1 := (run E (Some PLATFORM_SELECT) (map (toggle who chat) names) w).2) in *.
  assert (Hmode1 : ud_platform_mode (data w1) = Some "Multi") by (rewrite Hm; exact Hmode).
  change [toggle who chat name; toggle who chat name]
    with (map (toggle who chat) [name; name]).
  rewrite (Hrun [name; name] w1) by (repeat constructor; assumption).
  cbn. apply sym_diff_twice.
Qed.

End Selector.

(** ** The submission *)

Lemma written_app (t1 t2 : list effect) : written (t1 ++ t2) = written t1 ++ written t2.
Proof. apply omap_app. Qed.

Lemma messaged_app (t1 t2 : list effect) : messaged (t1 ++ t2) = messaged t1 ++ messaged t2.
Proof. apply omap_app. Qed.

Lemma bind_eq {A B} (m : M A) (k : A -> M B) (w w' : world) (a : A) :
  m w = (Returns a, w') -> (m ≫= k) w = k a w'.
Proof. intros H. unfold mbind, M_bind, bind. rewrite H. reflexivity. Qed.

Lemma bind_raise {A B} (m : M A) (k : A -> M B) (w w' : world) (exc : string) :
  m w = (Raises exc, w') -> (m ≫= k) w = (Raises exc, w').
Proof. intros H. unfold mbind, M_bind, bind. rewrite H. reflexivity. Qed.

Section Finalizer.
Context {SI : SetIter} {SP : Strptime} (E : env).

(** The answer [confirm:no] ends the conversation and writes nothing; the
    session is left as it is. *)
Lemma confirm_submit_no (who : user) (chat : Z) (w : world) :
  confirm_submit E "confirm:no" who chat w =
  (Returns END,
   World (data w)
         (trace w ++ [answer;
                      edit_message_text "Submission canceled. Use /start to begin again."
                                        None])).
Proof. unfold confirm_submit. run_handler. rewrite <- app_assoc. reflexivity. Qed.

Lemma notify_one (text uname : string) (w : world) :
  exists t,
    try_except (bot_send_message E (ChatName ("@" +:+ uname)) text)
               (fun _ => emit (log ("Failed to notify " +:+ uname))) w
    = (Returns tt, World (data w) (trace w ++ t))
    /\ written t = []
    /\ messaged t = [ChatName ("@" +:+ uname)].
Proof.
  unfold bot_send_message. run_handler.
  destruct (send_error E (ChatName ("@" +:+ uname))) as [exc|]; cbn.
  - exists [send_message (ChatName ("@" +:+ uname)) text;
            log ("Failed to notify " +:+ uname)].
    rewrite <- app_assoc. repeat split.
  - exists [send_message (ChatName ("@" +:+ uname)) text]. repeat split.
Qed.

(** The loop over the observers never raises: it tries every observer,
    whatever the transport answers, writes no row and keeps the session. *)
Lemma notify_loop (text : string) (l : list string) (w : world) :
  exists t,
    for_each l (fun uname =>
      if negb (String.eqb uname "") then
        try_except (bot_send_message E (ChatName ("@" +:+ uname)) text)
                   (fun _ => emit (log ("Failed to notify " +:+ uname)))
      else ret tt) w
    = (Returns tt, World (data w) (trace w ++ t))
    /\ written t = []
    /\ messaged t = map (fun uname => ChatName ("@" +:+ uname))
                        (List.filter (fun uname => negb (String.eqb uname "")) l).
Proof.
  revert w. induction l as [|uname l IH]; intros w.
  - exists []. cbn. rewrite app_nil_r. destruct w; repeat split.
  - cbn [for_each List.filter].
    destruct (negb (String.eqb uname "")) eqn:Hu.
    + destruct (notify_one text uname w) as (t1 & H1 & Hw1 & Hm1).
      destruct (IH (World (data w) (trace w ++ t1))) as (t & Ht & Hw & Hm).
      exists (t1 ++ t). erewrite bind_eq by exact H1.
      rewrite Ht. cbn [data trace].
      rewrite written_app, messaged_app, Hw, Hm, Hw1, Hm1, <- app_assoc. repeat split.
    + destruct (IH w) as (t & Ht & Hw & Hm).
      exists t. erewrite bind_eq by reflexivity. rewrite Ht. repeat split; assumption.
Qed.

(** A confirmed submission whose echo to the submitter goes through: the
    row is written, every observer is tried, the session is cleared. *)
Lemma confirm_submit_yes_echo_ok (token : string) (who : user) (chat : Z) (w : world) :
  token <> "confirm:no" ->
  append_error E = None ->
  send_error E (ChatId chat) = None ->
  exists t,
    confirm_submit E token who chat w = (Returns END, World cleared (trace w ++ t))
    /\ written t = [submission_row E who (data w)]
    /\ messaged t = ChatId chat :: observers E.
Proof.
  intros Hne Happ Hsend. apply String.eqb_neq in Hne.
  unfold confirm_submit.
  erewrite bind_eq by reflexivity. rewrite Hne.
  erewrite bind_eq by reflexivity.
  erewrite bind_eq
    by (unfold try_except, _append_row, mbind, M_bind, bind; rewrite Happ; reflexivity).
  cbn [negb].
  erewrite bind_eq by reflexivity.
  erewrite bind_eq
    by (unfold bot_send_message, mbind, M_bind, bind, emit; rewrite Hsend; reflexivity).
  cbn [data trace].
  match goal with
  | |- context [mbind _ (for_each _ _) ?w0] =>
      destruct (notify_loop
                  ("New request submitted:" +:+ nl +:+ nl +:+ _format_summary (data w)
                   +:+ nl +:+ nl +:+ "Submitted by: @" +:+
                   (let u := Str.strip (default "" (username who)) in
                    if String.eqb u "" then "id:" +:+ pretty (id who) else u)
                   +:+ nl +:+ "Timestamp: " +:+ strftime_iso (now E))
                  (NOTIFY_USERNAMES E) w0) as (t & Ht & Hw & Hm)
  end.
  erewrite bind_eq by exact Ht.
  erewrite bind_eq by reflexivity.
  cbn [data trace].
  eexists. split.
  { unfold ret. rewrite <- !app_assoc. reflexivity. }
  rewrite !written_app, !messaged_app, Hw, Hm. split; reflexivity.
Qed.

(** A confirmed submission whose echo to the submitter is refused: the row
    is written, the exception leaves the handler, no observer is tried and
    the session stays. *)
Lemma confirm_submit_yes_echo_fails
    (token : string) (who : user) (chat : Z) (exc : string) (w : world) :
  token <> "confirm:no" ->
  append_error E = None ->
  send_error E (ChatId chat) = Some exc ->
  exists t,
    confirm_submit E token who chat w = (Raises exc, World (data w) (trace w ++ t))
    /\ written t = [submission_row E who (data w)]
    /\ messaged t = [ChatId chat].
Proof.
  intros Hne Happ Hsend. apply String.eqb_neq in Hne.
  unfold confirm_submit.
  erewrite bind_eq by reflexivity. rewrite Hne.
  erewrite bind_eq by reflexivity.
  erewrite bind_eq
    by (unfold try_except, _append_row, mbind, M_bind, bind; rewrite Happ; reflexivity).
  cbn [negb].
  erewrite bind_eq by reflexivity.
  erewrite bind_raise
    by (unfold bot_send_message, mbind, M_bind, bind, emit; rewrite Hsend; reflexivity).
  cbn [data trace].
  eexists. split.
  { rewrite <- !app_assoc. reflexivity. }
  split; reflexivity.
Qed.


(** C3: the answer [confirm:no] at [CONFIRM_SUBMIT] ends the conversation
    and writes no row, and the session is not cleared: [user_data] is after
    the event what it was before. *)
Theorem confirm_no_keeps_session (who : user) (chat : Z) (w : world) :
  step E (Some CONFIRM_SUBMIT) (Update who chat (Callback "confirm:no")) w
  = (None,
     World (data w)
           (trace w ++ [answer;
                        edit_message_text "Submission canceled. Use /start to begin again."
                                          None]))
  /\ written (trace (step E (Some CONFIRM_SUBMIT)
                           (Update who chat (Callback "confirm:no")) w).2)
     = written (trace w).
Proof.
  assert (Hstep : step E (Some CONFIRM_SUBMIT) (Update who chat (Callback "confirm:no")) w
                  = (None,
                     World (data w)
                       (trace w ++ [answer;
                          edit_message_text
                            "Submission canceled. Use /start to begin again." None]))).
  { erewrite step_callback by reflexivity.
    rewrite confirm_submit_no. reflexivity. }
  split; [exact Hstep|]. rewrite Hstep. cbn [snd trace].
  rewrite written_app. cbn. apply app_nil_r.
Qed.

(** C5: when the transport refuses the echo to the submitting chat after a
    successful write, the exception leaves [confirm_submit]: no observer is
    sent anything, the session is not cleared and the conversation stays at
    [CONFIRM_SUBMIT]. *)
Theorem echo_failure_stops_notifications
    (who : user) (chat : Z) (exc : string) (w : world) :
  append_error E = None ->
  send_error E (ChatId chat) = Some exc ->
  let after := step E (Some CONFIRM_SUBMIT) (Update who chat (Callback "confirm:yes")) w in
  after.1 = Some CONFIRM_SUBMIT
  /\ data after.2 = data w
  /\ written (trace after.2) = written (trace w) ++ [submission_row E who (data w)]
  /\ messaged (trace after.2) = messaged (trace w) ++ [ChatId chat].
Proof.
  intros Happ Hsend. cbv zeta.
  erewrite step_callback by reflexivity. cbn [effective_user chat_id].
  destruct (confirm_submit_yes_echo_fails "confirm:yes" who chat exc w)
    as (t & Ht & Hw & Hm); [discriminate | assumption | assumption |].
  rewrite Ht. cbn [fst snd next_state data trace].
  rewrite written_app, messaged_app, Hw, Hm. repeat split.
Qed.

(** A confirmed submission the sheet accepts and whose echo to the chat goes
    through: one row is written, the session is cleared, the conversation
    ends, and after the chat every observer is sent to, in the configured
    order, whichever of them the transport refuses. *)
Lemma observers_all_tried (who : user) (chat : Z) (w : world) :
  append_error E = None ->
  send_error E (ChatId chat) = None ->
  let after := step E (Some CONFIRM_SUBMIT) (Update who chat (Callback "confirm:yes")) w in
  after.1 = None
  /\ data after.2 = cleared
  /\ written (trace after.2) = written (trace w) ++ [submission_row E who (data w)]
  /\ messaged (trace after.2) = messaged (trace w) ++ ChatId chat :: observers E.
Proof.
  intros Happ Hsend. cbv zeta.
  erewrite step_callback by reflexivity. cbn [effective_user chat_id].
  destruct (confirm_submit_yes_echo_ok "confirm:yes" who chat w)
    as (t & Ht & Hw & Hm); [discriminate | assumption | assumption |].
  rewrite Ht. cbn [fst snd next_state data trace].
  rewrite written_app, messaged_app, Hw, Hm. repeat split.
Qed.


(** Whatever the transport does after it, a confirmed submission that the
    sheet accepts writes exactly the row of the session. *)
Lemma confirm_yes_written (who : user) (chat : Z) (w : world) :
  append_error E = None ->
  written (trace (step E (Some CONFIRM_SUBMIT)
                       (Update who chat (Callback "confirm:yes")) w).2)
  = written (trace w) ++ [submission_row E who (data w)].
Proof.
  intros Happ. erewrite step_callback by reflexivity. cbn [effective_user chat_id].
  destruct (send_error E (ChatId chat)) as [exc|] eqn:Hsend.
  - destruct (confirm_submit_yes_echo_fails "confirm:yes" who chat exc w)
      as (t & Ht & Hw & Hm); [discriminate | assumption | assumption |].
    rewrite Ht. cbn [snd trace]. rewrite written_app, Hw. reflexivity.
  - destruct (confirm_submit_yes_echo_ok "confirm:yes" who chat w)
      as (t & Ht & Hw & Hm); [discriminate | assumption | assumption |].
    rewrite Ht. cbn [snd trace]. rewrite written_app, Hw. reflexivity.
Qed.

End Finalizer.

(** The session a cancelled confirmation leaves behind reaches the next
    request: a Single-mode request for Facebook, made after [confirm:no] on
    the Multi-mode form, is written with the other-platforms text of the
    cancelled one. *)
Example cancelled_session_leaks_into_next_request :
  let final := run (SI := elements_order) (SP := iso_strptime) (quiet_env clock [] "" "")
                   (Some CONFIRM_SUBMIT) (second_request alice 7) (World filled []) in
  final.1 = None
  /\ written (trace final.2) =
     [["2026-02-10 09:30:00"; "alice"; "Zeta"; "Lee"; "C"; "2026-03-01"; "1 cam"; "none";
       "none"; "Single"; "Facebook"; "Podcast Clips"]].
Proof. vm_compute. split; reflexivity. Qed.

(** The refused echo on a concrete run: the two observers are configured,
    neither is tried. *)
Example echo_failure_run :
  let after := step (SI := elements_order) (SP := iso_strptime) echo_fails_env
                    (Some CONFIRM_SUBMIT) (Update alice 7 (Callback "confirm:yes"))
                    (World filled []) in
  observers echo_fails_env = [ChatName "@bob"; ChatName "@carol"]
  /\ after.1 = Some CONFIRM_SUBMIT
  /\ messaged (trace after.2) = [ChatId 7]
  /\ data after.2 = filled
  /\ length (written (trace after.2)) = 1%nat.
Proof. vm_compute. repeat split; reflexivity. Qed.

(** A refused observer on a concrete run: the other observer is still tried
    and the submission completes. *)
Example observer_failure_run :
  let after := step (SI := elements_order) (SP := iso_strptime) observer_fails_env
                    (Some CONFIRM_SUBMIT) (Update alice 7 (Callback "confirm:yes"))
                    (World filled []) in
  after.1 = None
  /\ messaged (trace after.2) = [ChatId 7; ChatName "@bob"; ChatName "@carol"]
  /\ data after.2 = cleared.
Proof. vm_compute. repeat split; reflexivity. Qed.

(** ** The Multi-mode scenario *)

Lemma Permutation_pair {A} (l : list A) (a b : A) :
  l ≡ₚ [a; b] -> l = [a; b] \/ l = [b; a].
Proof. intros H. symmetry in H. apply Permutation_length_2_inv in H. exact H. Qed.

Section Scenario.
Context {SI : SetIter} {SP : Strptime} (E : env).

Lemma step_mode_multi (who : user) (chat : Z) (w : world) :
  step E (Some PLATFORM_MODE) (Update who chat (Callback "mode:multi")) w =
  (Some PLATFORM_SELECT,
   World (set_platforms [] (set_platform_mode "Multi" (data w)))
         (trace w ++ [answer;
                      edit_message_text "Select platform(s):"
                                        (Some (_platforms_keyboard ∅))])).
Proof.
  erewrite step_callback by reflexivity.
  unfold platform_mode. run_handler. rewrite <- app_assoc. reflexivity.
Qed.

Lemma step_done_others (who : user) (chat : Z) (w : world) :
  "Others" ∈ selection w ->
  step E (Some PLATFORM_SELECT) (Update who chat (Callback "platform:done")) w =
  (Some PLATFORM_OTHER,
   World (set_platforms (set_to_list (selection w)) (data w))
         (trace w ++ [answer; edit_message_text "Please specify other platforms:" None])).
Proof.
  intros Hin. erewrite step_callback by reflexivity.
  unfold platform_select. run_handler.
  change (set_of_list (default [] (ud_platforms (data w)))) with (selection w).
  rewrite bool_decide_eq_true_2 by assumption. cbn.
  rewrite <- app_assoc. reflexivity.
Qed.

Lemma step_platform_other (who : user) (chat : Z) (text : string) (w : world) :
  step E (Some PLATFORM_OTHER) (Update who chat (Text text)) w =
  (Some CONFIRM_SUBMIT,
   World (set_platforms_other (Str.strip text) (data w))
         (trace w ++ [reply_text
                        ("Please confirm your submission:" +:+ nl +:+ nl +:+
                         _format_summary (set_platforms_other (Str.strip text) (data w)))
                        (Some confirm_keyboard)])).
Proof. reflexivity. Qed.

(** The selection of the scenario, and the two orders a set can give it. *)
Lemma scenario_selection_orders :
  set_to_list ({[ "Others" ]} ∪ {[ "TikTok" ]}) = ["Others"; "TikTok"]
  \/ set_to_list ({[ "Others" ]} ∪ {[ "TikTok" ]}) = ["TikTok"; "Others"].
Proof.
  apply Permutation_pair. rewrite set_to_list_perm.
  assert (Hel : elements ({[ "Others" ]} ∪ {[ "TikTok" ]} : gset string)
                = ["Others"; "TikTok"]) by (vm_compute; reflexivity).
  rewrite Hel. reflexivity.
Qed.

(** C4, as the code has it: in the Multi-mode scenario (Others, then
    TikTok, done, the text "Podcast Clips", confirm) the row written has
    for its platforms field the selected platforms joined by a comma in
    the order in which the set enumerates them, which is one of the two
    orders, and for its other-platforms field "Podcast Clips". *)
Theorem multi_scenario_written_row (who : user) (chat : Z) (w : world) :
  append_error E = None ->
  let final := run E (Some PLATFORM_MODE) (multi_scenario who chat) w in
  exists row,
    written (trace final.2) = written (trace w) ++ [row]
    /\ row !! 10%nat
       = Some (Str.join ", " (set_to_list ({[ "Others" ]} ∪ {[ "TikTok" ]})))
    /\ (row !! 10%nat = Some "Others, TikTok" \/ row !! 10%nat = Some "TikTok, Others")
    /\ row !! 11%nat = Some "Podcast Clips".
Proof.
  intros Happ. cbv zeta. unfold multi_scenario.
  rewrite run_cons, step_mode_multi. cbn [fst snd].
  set (w1 := World _ _).
  assert (Hm1 : ud_platform_mode (data w1) = Some "Multi") by reflexivity.
  rewrite run_cons, step_toggle by discriminate. cbn [fst snd].
  assert (Ht1 : toggled "Others" w1 = {[ "Others" ]}).
  { rewrite toggled_multi by exact Hm1.
    assert (Hs : selection w1 = ∅) by reflexivity.
    rewrite Hs. unfold sym_diff. set_solver. }
  rewrite Ht1, set_to_list_singleton.
  set (w2 := World _ _).
  assert (Hm2 : ud_platform_mode (data w2) = Some "Multi") by reflexivity.
  rewrite run_cons, step_toggle by discriminate. cbn [fst snd].
  assert (Ht2 : toggled "TikTok" w2 = {[ "Others" ]} ∪ {[ "TikTok" ]}).
  { rewrite toggled_multi by exact Hm2.
    assert (Hs : selection w2 = {[ "Others" ]}).
    { unfold selection, set_of_list. cbn. apply (right_id_L ∅ (∪)). }
    rewrite Hs. unfold sym_diff. set_solver. }
  rewrite Ht2.
  set (w3 := World _ _).
  assert (Hs3 : selection w3 = {[ "Others" ]} ∪ {[ "TikTok" ]}).
  { unfold selection, w3.
    cbn [data ud_platforms set_platforms from_option id Datatypes.id].
    apply set_of_list_to_list. }
  rewrite run_cons, step_done_others by (rewrite Hs3; set_solver).
  cbn [fst snd]. rewrite Hs3.
  set (w4 := World _ _).
  rewrite run_cons, step_platform_other. cbn [fst snd].
  set (w5 := World _ _).
  rewrite run_cons. cbn [run snd].
  rewrite confirm_yes_written by exact Happ.
  exists (submission_row E who (data w5)). split.
  { f_equal. unfold w5, w4, w3, w2, w1. cbn [trace].
    rewrite !written_app. cbn. rewrite !app_nil_r. reflexivity. }
  assert (H10 : submission_row E who (data w5) !! 10%nat
                = Some (Str.join ", " (set_to_list ({[ "Others" ]} ∪ {[ "TikTok" ]}))))
    by reflexivity.
  split; [exact H10|]. split; [|reflexivity].
  rewrite H10.
  destruct scenario_selection_orders as [-> | ->]; [left | right]; reflexivity.
Qed.

End Scenario.

(** C4, as the claim words it, fails: the order of the platforms field is the
    enumeration order of a set, not the order of insertion. With a set that
    enumerates TikTok before Others the scenario writes "TikTok, Others". *)
Lemma multi_scenario_insertion_order_counterexample :
  ~ (forall (SI : SetIter) (row : list string),
       written (trace (run (SI := SI) (SP := iso_strptime) (quiet_env clock [] "" "")
                           (Some PLATFORM_MODE) (multi_scenario alice 7)
                           (World cleared [])).2) = [row] ->
       row !! 10%nat = Some "Others, TikTok").
Proof.
  intros H.
  specialize (H reversed_order
                ["2026-02-10 09:30:00"; "alice"; ""; ""; ""; ""; ""; ""; ""; "Multi";
                 "TikTok, Others"; "Podcast Clips"]).
  assert (Hrun : written (trace (run (SI := reversed_order) (SP := iso_strptime)
                                     (quiet_env clock [] "" "")
                                     (Some PLATFORM_MODE) (multi_scenario alice 7)
                                     (World cleared [])).2)
                 = [["2026-02-10 09:30:00"; "alice"; ""; ""; ""; ""; ""; ""; ""; "Multi";
                     "TikTok, Others"; "Podcast Clips"]])
    by (vm_compute; reflexivity).
  specialize (H Hrun). discriminate H.
Qed.


(** With the order of [elements] the same scenario writes "Others, TikTok":
    both orders occur. *)
Example multi_scenario_run_elements_order :
  written (trace (run (SI := elements_order) (SP := iso_strptime) (quiet_env clock [] "" "")
                      (Some PLATFORM_MODE) (multi_scenario alice 7) (World cleared [])).2)
  = [["2026-02-10 09:30:00"; "alice"; ""; ""; ""; ""; ""; ""; ""; "Multi";
      "Others, TikTok"; "Podcast Clips"]].
Proof. vm_compute. reflexivity. Qed.


(** ** Authorisation *)

Lemma reads_app (t1 t2 : list effect) : reads (t1 ++ t2) = (reads t1 + reads t2)%nat.
Proof. unfold reads. rewrite List.filter_app, length_app. reflexivity. Qed.

Section Authorisation.
Context {SI : SetIter} {SP : Strptime} (E : env).

(** The membership test of [_is_admin]: the handle, stripped, is not empty,
    and without its leading [@]s it is one of the admins, compared as it
    is. *)
Lemma is_admin_spec (u : user) :
  _is_admin E u = true <->
  Str.strip (default "" (username u)) <> ""
  /\ Str.lstrip_char "@" (Str.strip (default "" (username u))) ∈ ADMIN_USERNAMES E.
Proof.
  unfold _is_admin.
  destruct (String.eqb_spec (Str.strip (default "" (username u))) "") as [Heq|Hne].
  - split; [discriminate|]. intros [Hne _]. contradiction.
  - rewrite bool_decide_eq_true. tauto.
Qed.

(** C9: the export command of an identity that is not on the allow-list is
    answered with the fixed denial, ends the conversation, and reads
    nothing from the sheet; an identity is off the list exactly when its
    handle, stripped, is empty or, without its leading [@]s, is not one of
    the admins. *)
Theorem export_command_denied_without_read (who : user) (chat : Z) (w : world) :
  _is_admin E who = false ->
  let after := step E None (Update who chat (Command "export")) w in
  after = (None,
           World (data w)
                 (trace w ++ [reply_text "Sorry, only admins can export CSV." None]))
  /\ reads (trace after.2) = reads (trace w)
  /\ exported (trace after.2) = exported (trace w)
  /\ (_is_admin E who = false <->
      ~ (Str.strip (default "" (username who)) <> ""
         /\ Str.lstrip_char "@" (Str.strip (default "" (username who)))
            ∈ ADMIN_USERNAMES E)).
Proof.
  intros Hnot.
  assert (Hstep : step E None (Update who chat (Command "export")) w
                  = (None,
                     World (data w)
                       (trace w ++ [reply_text "Sorry, only admins can export CSV." None]))).
  { unfold step, conversation, entry_points. cbn [payload effective_user].
    cbn [String.eqb Ascii.eqb Bool.eqb orb].
    unfold export_csv_command. rewrite Hnot. reflexivity. }
  cbv zeta. rewrite Hstep. cbn [snd trace].
  split; [reflexivity|]. rewrite reads_app. unfold exported. rewrite omap_app.
  split.
  { replace (reads [reply_text "Sorry, only admins can export CSV." None]) with 0%nat
      by reflexivity.
    lia. }
  split; [apply app_nil_r|].
  rewrite <- is_admin_spec. destruct (_is_admin E who); split; done.
Qed.

(** The export button of the menu, pressed by a user who is not an admin:
    no conversation is entered, the session is as it was, and the sheet is
    not read. *)
Lemma export_button_denied_without_read (who : user) (chat : Z) (w : world) :
  _is_admin E who = false ->
  let after := step E None (Update who chat (Callback "action:export")) w in
  after.1 = None
  /\ data after.2 = data w
  /\ reads (trace after.2) = reads (trace w).
Proof.
  intros Hnot. cbv zeta.
  assert (Hstep : step E None (Update who chat (Callback "action:export")) w
                  = (None,
                     World (data w)
                       (trace w ++ [answer; log "action_export_entry triggered";
                          reply_text "Sorry, only admins can export CSV." None]))).
  { unfold step, conversation, entry_points. cbn [payload effective_user].
    assert (Hm : Str.match_exact "action:new" "action:export" = false
                 /\ Str.match_exact "action:recall" "action:export" = false
                 /\ Str.match_exact "action:export" "action:export" = true)
      by (vm_compute; repeat split).
    destruct Hm as (-> & -> & ->).
    unfold action_export_entry. run_handler. rewrite Hnot. cbn.
    rewrite <- !app_assoc. reflexivity. }
  rewrite Hstep. cbn [fst snd data trace]. rewrite reads_app.
  repeat split.
  replace (reads [answer; log "action_export_entry triggered";
                  reply_text "Sorry, only admins can export CSV." None]) with 0%nat
    by reflexivity.
  lia.
Qed.
End Authorisation.

(** ** Search *)

Lemma filter_sublist {A} (f : A -> bool) (l : list A) : sublist (List.filter f l) l.
Proof.
  induction l as [|x l IH]; cbn; [constructor|].
  destruct (f x); [apply sublist_skip | apply sublist_cons]; exact IH.
Qed.

Lemma last_n_length {A} (n : nat) (l : list A) : (length (last_n n l) <= n)%nat.
Proof. unfold last_n. rewrite length_drop. lia. Qed.

Lemma last_n_suffix {A} (n : nat) (l : list A) :
  l = take (length l - n) l ++ last_n n l.
Proof. unfold last_n. symmetry. apply take_drop. Qed.

Lemma last_n_short {A} (n : nat) (l : list A) : (length l <= n)%nat -> last_n n l = l.
Proof.
  intros H. unfold last_n. replace (length l - n)%nat with 0%nat by lia. reflexivity.
Qed.

Section Search.
Context {SI : SetIter} {SP : Strptime} (E : env).

Lemma search_matches_spec (query_text : string) (records : list record) (r : record) :
  r ∈ search_matches query_text records <->
  r ∈ records
  /\ exists pre post, Str.lower (get "Brand Name" r) = pre +:+ query_text +:+ post.
Proof.
  unfold search_matches. rewrite !list_elem_of_In, List.filter_In, contains_spec.
  reflexivity.
Qed.

(** C6, as the code has it: [search_brand] reads the sheet once and reports
    the rows whose brand, lowercased, contains the query stripped and
    lowercased; it reports the last ten of them at most, in the order of
    the sheet (the oldest of them first). On the sheet with brands
    "ACME Corp" and "Acme2" the query "acme" reports both. *)
Theorem search_brand_reports_in_store_order
    (text : string) (records : list record) (w : world) :
  sheet E = inr records ->
  let query_text := Str.lower (Str.strip text) in
  let matches := search_matches query_text records in
  let reported := last_n 10 matches in
  search_brand E text w
  = (Returns END,
     World (data w)
           (trace w ++ [get_all_records;
                        reply_text
                          (match matches with
                           | [] => "No submissions found for that brand name."
                           | _ => "Matches:" +:+ nl +:+ Str.join nl (map search_line reported)
                           end) None]))
  /\ (forall r, r ∈ matches <->
                r ∈ records
                /\ exists pre post,
                     Str.lower (get "Brand Name" r) = pre +:+ query_text +:+ post)
  /\ (length reported <= 10)%nat
  /\ (exists older, matches = older ++ reported)
  /\ sublist reported records
  /\ last_n 10 (search_matches "acme" acme_records)
     = [ row_record "2026-01-05 10:00:00" "alice" "ACME Corp";
         row_record "2026-01-07 12:00:00" "carol" "Acme2" ].
Proof.
  intros Hsheet. cbv zeta. split.
  { unfold search_brand.
    erewrite bind_eq
      by (unfold try_except, fetch_records, mbind, M_bind, bind, emit;
          rewrite Hsheet; reflexivity).
    cbv beta iota zeta.
    destruct (search_matches (Str.lower (Str.strip text)) records);
      run_handler; rewrite <- app_assoc; reflexivity. }
  split; [intros r; apply search_matches_spec|].
  split; [apply last_n_length|].
  split; [eexists; apply last_n_suffix|].
  split; [|reflexivity].
  etrans; [apply sublist_drop | apply filter_sublist].
Qed.
End Search.

(** C6, as the claim words it, fails: the matches are not reported the most
    recent first. For the query "acme" on the sheet with "ACME Corp" written
    before "Acme2", the reply lists "ACME Corp" first. *)
Lemma search_most_recent_first_counterexample :
  search_brand (quiet_env clock acme_records "" "") "acme" (World cleared [])
  = (Returns END,
     World cleared
       [get_all_records;
        reply_text ("Matches:" +:+ nl +:+
                    "- 2026-01-05 10:00:00 | ACME Corp | alice" +:+ nl +:+
                    "- 2026-01-07 12:00:00 | Acme2 | carol") None])
  /\ last_n 10 (search_matches "acme" acme_records)
     <> search_most_recent_first "acme" acme_records.
Proof. split; [vm_compute; reflexivity | vm_compute; discriminate]. Qed.

(** ** The manager view *)

Lemma days_le_iff (a n : Z) : a / 86400000000 <= n <-> a < (n + 1) * 86400000000.
Proof.
  split; intros H.
  - destruct (Z_lt_le_dec a ((n + 1) * 86400000000)) as [Hlt|Hge]; [exact Hlt|].
    assert (n + 1 <= a / 86400000000) by (apply Z.div_le_lower_bound; lia). lia.
  - assert (a / 86400000000 < n + 1) by (apply Z.div_lt_upper_bound; lia). lia.
Qed.

Section ManagerView.
Context {SP : Strptime} (E : env).

Lemma count_record_windows (st : stats) (r : record) :
  last_7 (count_record E st r) = ((if in_window E 7 r then 1 else 0) + last_7 st)%nat
  /\ last_30 (count_record E st r) = ((if in_window E 30 r then 1 else 0) + last_30 st)%nat.
Proof.
  unfold count_record, in_window.
  destruct (strptime_datetime (Str.strip (get "Timestamp" r))) as [ts_dt|]; cbn;
    [|split; reflexivity].
  destruct (delta_days (now E) ts_dt <=? 7), (delta_days (now E) ts_dt <=? 30);
    split; reflexivity.
Qed.

Lemma fold_count_windows (records : list record) (st : stats) :
  last_7 (fold_left (count_record E) records st)
  = (length (List.filter (in_window E 7) records) + last_7 st)%nat
  /\ last_30 (fold_left (count_record E) records st)
     = (length (List.filter (in_window E 30) records) + last_30 st)%nat.
Proof.
  revert st. induction records as [|r records IH]; intros st; [split; reflexivity|].
  cbn [fold_left List.filter].
  destruct (IH (count_record E st r)) as [H7 H30].
  destruct (count_record_windows st r) as [C7 C30].
  rewrite H7, H30, C7, C30.
  destruct (in_window E 7 r), (in_window E 30 r); cbn [length]; split; lia.
Qed.

Lemma in_window_mono (r : record) : in_window E 7 r = true -> in_window E 30 r = true.
Proof.
  unfold in_window.
  destruct (strptime_datetime (Str.strip (get "Timestamp" r))); [|discriminate].
  rewrite !Z.leb_le. lia.
Qed.

Lemma filter_length_le {A} (f g : A -> bool) (l : list A) :
  (forall x, f x = true -> g x = true) ->
  (length (List.filter f l) <= length (List.filter g l))%nat.
Proof.
  intros Hfg. induction l as [|x l IH]; cbn; [lia|].
  destruct (f x) eqn:Hf.
  - rewrite (Hfg x Hf). cbn. lia.
  - destruct (g x); cbn; lia.
Qed.

(** C8, as the code has it: the manager view counts the rows whose
    timestamp parses and lies [days <= 7], respectively [days <= 30], whole
    days before now, [days] being the floor of the difference: the two
    windows are cumulative, and a row is outside the 7-day window exactly
    when its timestamp is 8 days or more before now. *)
Theorem manager_stats_windows (records : list record) :
  last_7 (manager_stats E records) = length (List.filter (in_window E 7) records)
  /\ last_30 (manager_stats E records) = length (List.filter (in_window E 30) records)
  /\ (forall r, in_window E 7 r = true -> in_window E 30 r = true)
  /\ (last_7 (manager_stats E records) <= last_30 (manager_stats E records))%nat
  /\ (forall r ts_dt,
        strptime_datetime (Str.strip (get "Timestamp" r)) = Some ts_dt ->
        (in_window E 7 r = true <->
         microseconds (now E) - microseconds ts_dt < 8 * 86400000000)
        /\ (in_window E 30 r = true <->
            microseconds (now E) - microseconds ts_dt < 31 * 86400000000)).
Proof.
  unfold manager_stats.
  destruct (fold_count_windows records (Stats 0 0 [])) as [H7 H30].
  cbn [last_7 last_30] in H7, H30. rewrite Nat.add_0_r in H7, H30.
  rewrite H7, H30.
  split; [reflexivity|]. split; [reflexivity|].
  split; [apply in_window_mono|].
  split; [apply filter_length_le, in_window_mono|].
  intros r ts_dt Hts. unfold in_window. rewrite Hts, !Z.leb_le.
  unfold delta_days. split; apply days_le_iff.
Qed.


End ManagerView.

(** C8, as the claim words it, fails: a row written 7 days and 23 hours
    before now is more than 7 days old and is counted in the 7-day window. *)
Lemma last_7_days_counterexample :
  microseconds noon_jan_9 - microseconds (Datetime (Date 2026 1 1) 13 0 0 0)
    > 7 * 86400000000
  /\ strptime_datetime (Strptime := iso_strptime) "2026-01-01 13:00:00"
     = Some (Datetime (Date 2026 1 1) 13 0 0 0)
  /\ last_7 (manager_stats (SP := iso_strptime) (quiet_env noon_jan_9 week_old_records "" "")
                           week_old_records) = 1%nat.
Proof. repeat split; vm_compute; reflexivity. Qed.

(** ** The export by date range *)

Section Keeps.
Context {A B : Type}.

Lemma keeps_ret (a : A) : keeps (ret a).
Proof. intros w. reflexivity. Qed.

Lemma keeps_mret (a : A) : keeps (mret a : M A).
Proof. intros w. reflexivity. Qed.

Lemma keeps_raise (exc : string) : keeps (raise exc : M A).
Proof. intros w. reflexivity. Qed.

Lemma keeps_bind (m : M A) (k : A -> M B) :
  keeps m -> (forall a, keeps (k a)) -> keeps (m ≫= k).
Proof.
  intros Hm Hk w. unfold mbind, M_bind, bind.
  specialize (Hm w). destruct (m w) as [[a|exc] w']; cbn in *.
  - rewrite Hk. exact Hm.
  - exact Hm.
Qed.

Lemma keeps_try_except (m : M A) (h : string -> M A) :
  keeps m -> (forall exc, keeps (h exc)) -> keeps (try_except m h).
Proof.
  intros Hm Hh w. unfold try_except.
  specialize (Hm w). destruct (m w) as [[a|exc] w']; cbn in *.
  - exact Hm.
  - rewrite Hh. exact Hm.
Qed.
End Keeps.

Lemma keeps_emit (e : effect) : keeps (emit e).
Proof. intros w. reflexivity. Qed.

Lemma keeps_read : keeps read.
Proof. intros w. reflexivity. Qed.

Lemma keeps_for_each {A} (l : list A) (body : A -> M unit) :
  (forall x, keeps (body x)) -> keeps (for_each l body).
Proof.
  intros Hbody. induction l as [|x l IH]; cbn [for_each].
  - apply keeps_ret.
  - apply keeps_bind; [apply Hbody | intros _; exact IH].
Qed.

Lemma never_ret (s : state) (r : result) : r <> Goto s -> never_goto s (ret r).
Proof. intros Hr w. cbn. congruence. Qed.

Lemma never_raise (s : state) (exc : string) : never_goto s (raise exc).
Proof. intros w. cbn. discriminate. Qed.

Lemma never_bind {A} (s : state) (m : M A) (k : A -> M result) :
  (forall a, never_goto s (k a)) -> never_goto s (m ≫= k).
Proof.
  intros Hk w. unfold mbind, M_bind, bind.
  destruct (m w) as [[a|exc] w']; [apply Hk | cbn; discriminate].
Qed.

Lemma unless_end_bind {A} (m : M A) (k : A -> M result) :
  keeps m -> (forall a, keeps_unless_end (k a)) -> keeps_unless_end (m ≫= k).
Proof.
  intros Hm Hk w. unfold mbind, M_bind, bind.
  specialize (Hm w). destruct (m w) as [[a|exc] w']; cbn in *.
  - destruct (Hk a w') as [H|H]; [left; exact H | right; rewrite H; exact Hm].
  - right. exact Hm.
Qed.

Lemma unless_end_keeps (m : M result) : keeps m -> keeps_unless_end m.
Proof. intros Hm w. right. apply Hm. Qed.

Lemma unless_end_tail (f : user_data -> user_data) :
  keeps_unless_end (modify f;; ret END).
Proof. intros w. left. reflexivity. Qed.

(** Splits a goal on a handler along its control flow. *)
Ltac handler_cases :=
  repeat first
    [ progress cbv zeta
    | match goal with
      | |- _ (if ?c then _ else _) => destruct c
      | |- _ (match ?x with _ => _ end) => destruct x
      | |- _ _ (if ?c then _ else _) => destruct c
      | |- _ _ (match ?x with _ => _ end) => destruct x
      end ].

Ltac keeps_tac :=
  repeat first
    [ apply keeps_ret | apply keeps_mret | apply keeps_emit | apply keeps_read
    | apply keeps_raise
    | apply keeps_bind; [|intros ?]
    | apply keeps_try_except; [|intros ?]
    | apply keeps_for_each; intros ?
    | progress handler_cases ].

Ltac never_tac :=
  repeat first
    [ apply never_ret; discriminate
    | apply never_raise
    | apply never_bind; intros ?
    | progress handler_cases ].

Section ExportByDate.
Context {SI : SetIter} {SP : Strptime} (E : env).

Lemma keeps_bot_send_message (c : chat) (text : string) : keeps (bot_send_message E c text).
Proof. unfold bot_send_message. keeps_tac. Qed.

Lemma keeps_bot_send_document (c : chat) (rows : list record) (filename : string) :
  keeps (bot_send_document E c rows filename).
Proof. unfold bot_send_document. keeps_tac. Qed.

Lemma keeps_fetch_records : keeps (fetch_records E).
Proof. unfold fetch_records. keeps_tac. Qed.

Lemma keeps_export_csv_records (records : list record) (chat : Z) :
  keeps (export_csv_records E records chat).
Proof.
  unfold export_csv_records.
  destruct records; [apply keeps_bot_send_message | apply keeps_bot_send_document].
Qed.

Lemma keeps_filter_date_range (start : option date) (end_ : date) (records : list record) :
  keeps (filter_date_range start end_ records).
Proof.
  induction records as [|r records IH]; cbn [filter_date_range]; [apply keeps_ret|].
  handler_cases; try exact IH; try apply keeps_raise.
  apply keeps_bind; [exact IH | intros ?; apply keeps_mret].
Qed.

Lemma keeps_send_manager_view (chat : Z) : keeps (send_manager_view E chat).
Proof.
  unfold send_manager_view.
  apply keeps_bind.
  - apply keeps_try_except.
    + apply keeps_bind; [apply keeps_fetch_records | intros ?; apply keeps_mret].
    + intros ?. apply keeps_bind; [apply keeps_emit | intros ?].
      apply keeps_bind; [apply keeps_bot_send_message | intros ?; apply keeps_mret].
  - intros [records|]; [apply keeps_bot_send_message | apply keeps_mret].
Qed.

Lemma export_date_end_keeps_unless_end (text : string) (chat : Z) :
  keeps_unless_end (export_date_end E text chat).
Proof.
  unfold export_date_end.
  destruct (_parse_date text) as [end_|]; [|apply unless_end_keeps; keeps_tac].
  apply unless_end_bind; [apply keeps_read | intros d].
  destruct (match ud_export_start d with
            | Some s => date_ltb end_ s
            | None => false
            end); [apply unless_end_keeps; keeps_tac|].
  apply unless_end_bind.
  { apply keeps_try_except; [|intros ?; keeps_tac].
    apply keeps_bind; [apply keeps_fetch_records | intros ?; apply keeps_mret]. }
  intros [records|]; [|apply unless_end_keeps; keeps_tac].
  apply unless_end_bind; [apply keeps_filter_date_range | intros filtered].
  apply unless_end_bind; [apply keeps_export_csv_records | intros _].
  apply unless_end_tail.
Qed.

Lemma export_date_start_collects (text : string) (w : world) :
  (export_date_start text w).1 = Returns (Goto EXPORT_DATE_END) ->
  is_Some (ud_export_start (data (export_date_start text w).2)).
Proof.
  unfold export_date_start.
  destruct (_parse_date text) as [start|]; cbn; [eauto | discriminate].
Qed.

Lemma entry_points_never (u : update) (h : M result) :
  entry_points E u = Some h -> never_goto EXPORT_DATE_END h.
Proof.
  unfold entry_points. intros H.
  destruct (payload u); repeat case_match; simplify_eq;
    unfold action_new_entry, action_recall_entry, action_export_entry, export_csv_command;
    never_tac.
Qed.

Lemma fallbacks_never (u : update) (h : M result) :
  fallbacks u = Some h -> never_goto EXPORT_DATE_END h.
Proof.
  unfold fallbacks. intros H.
  destruct (payload u); repeat case_match; simplify_eq. unfold cancel. never_tac.
Qed.


Lemma states_never (st : state) (u : update) (h : M result) :
  st <> EXPORT_DATE_START -> st <> EXPORT_DATE_END ->
  states E st u = Some h -> never_goto EXPORT_DATE_END h.
Proof.
  intros Hs He H. unfold states in H.
  destruct st; try contradiction; destruct (payload u);
    repeat case_match; simplify_eq;
    unfold brand_name, creator_name, room_no, date_to_be_aired, camera_requirements,
      stage_design, other_technical, platform_mode, platform_select, platform_other,
      confirm_submit, recall_choice, show_history, search_brand, export_choice,
      export_requester;
    never_tac.
Qed.

Lemma menu_keeps (who : user) : keeps (menu E who).
Proof. unfold menu. keeps_tac. Qed.

Lemma other_handlers_keep (u : update) (h : M result) :
  other_handlers E u = Some h -> keeps h.
Proof.
  unfold other_handlers. intros H.
  destruct (payload u); repeat case_match; simplify_eq;
    unfold action_dashboard, action_manager, recall_hint, dashboard_command,
      manager_view_command;
    repeat first
      [ apply keeps_send_manager_view
      | apply keeps_bind; [|intros ?]
      | apply keeps_emit | apply keeps_mret | apply keeps_ret
      | progress handler_cases ].
Qed.

(** One update keeps the invariant. *)
Lemma step_start_collected (current : option state) (u : update) (w : world) :
  start_collected current w ->
  start_collected (step E current u w).1 (step E current u w).2.
Proof.
  intros Hinv. unfold step.
  destruct (match payload u with
            | Command name => String.eqb name "start" || String.eqb name "menu"
            | _ => false
            end).
  { cbn [fst snd]. intros Hc. rewrite menu_keeps. auto. }
  destruct (conversation E current u) as [h|] eqn:Hconv.
  - destruct (h w) as [o w'] eqn:Hh. cbn [fst snd]. intros Hnext.
    unfold conversation in Hconv. destruct current as [st|].
    + destruct (states E st u) as [h'|] eqn:Hst.
      * injection Hconv as ->.
        destruct (decide (st = EXPORT_DATE_START)) as [->|Hs].
        { unfold states in Hst. destruct (payload u); simplify_eq.
          pose proof (export_date_start_collects text w) as Hc.
          rewrite Hh in Hc. cbn [fst snd] in Hc.
          destruct o as [[s| |]|exc]; cbn in Hnext; simplify_eq. auto. }
        destruct (decide (st = EXPORT_DATE_END)) as [->|He].
        { unfold states in Hst. destruct (payload u); simplify_eq.
          destruct (export_date_end_keeps_unless_end text (chat_id u) w) as [Hend|Hkeep];
            rewrite Hh in *; cbn [fst snd] in *.
          - subst o. discriminate Hnext.
          - rewrite Hkeep. auto. }
        pose proof (states_never st u h Hs He Hst w) as Hnever.
        rewrite Hh in Hnever. cbn [fst] in Hnever.
        destruct o as [[s| |]|exc]; cbn in Hnext; simplify_eq.
      * pose proof (fallbacks_never u h Hconv w) as Hnever.
        rewrite Hh in Hnever. cbn [fst] in Hnever.
        unfold fallbacks in Hconv. destruct (payload u); repeat case_match; simplify_eq.
        unfold cancel, mbind, M_bind, bind, emit, modify, ret in Hh.
        injection Hh as <- <-. discriminate Hnext.
    + pose proof (entry_points_never u h Hconv w) as Hnever.
      rewrite Hh in Hnever. cbn [fst] in Hnever.
      destruct o as [[s| |]|exc]; cbn in Hnext; simplify_eq.
  - destruct (other_handlers E u) as [h|] eqn:Hother; cbn [fst snd]; [|exact Hinv].
    intros Hc. rewrite (other_handlers_keep u h Hother). auto.
Qed.

(** Whatever the updates, a conversation that is in [EXPORT_DATE_END] has
    collected its start date. *)
Lemma run_start_collected (us : list update) (current : option state) (w : world) :
  start_collected current w ->
  start_collected (run E current us w).1 (run E current us w).2.
Proof.
  revert current w. induction us as [|u us IH]; intros current w Hinv; [exact Hinv|].
  rewrite run_cons. apply IH, step_start_collected, Hinv.
Qed.


(** The start handler stores the date it parsed from the text typed. *)
Lemma export_date_start_stores (text : string) (w : world) :
  (export_date_start text w).1 = Returns (Goto EXPORT_DATE_END) ->
  exists start, _parse_date text = Some start
                /\ ud_export_start (data (export_date_start text w).2) = Some start.
Proof.
  unfold export_date_start.
  destruct (_parse_date text) as [start|]; cbn; [eauto | discriminate].
Qed.

(** A start date that parses is stored, and the end date is asked for. *)
Lemma step_start_date (who : user) (chat : Z) (text : string) (start : date) (w : world) :
  _parse_date text = Some start ->
  step E (Some EXPORT_DATE_START) (Update who chat (Text text)) w
  = (Some EXPORT_DATE_END,
     World (set_export_start (Some start) (data w))
           (trace w ++ [reply_text "Enter end date (YYYY-MM-DD):" None])).
Proof.
  intros Hparse. unfold step, conversation, states. cbn [payload orb].
  unfold export_date_start. rewrite Hparse. reflexivity.
Qed.

(** An end date before the stored start date: the prompt again. *)
Lemma step_end_before_start
    (who : user) (chat : Z) (text : string) (start end_ : date) (w : world) :
  ud_export_start (data w) = Some start ->
  _parse_date text = Some end_ ->
  date_ltb end_ start = true ->
  step E (Some EXPORT_DATE_END) (Update who chat (Text text)) w
  = (Some EXPORT_DATE_END,
     World (data w)
           (trace w ++
            [reply_text "End date must be after start date. Enter end date (YYYY-MM-DD):"
                        None])).
Proof.
  intros Hstart Hparse Hlt.
  unfold step, conversation, states. cbn [payload chat_id orb].
  unfold export_date_end. rewrite Hparse.
  erewrite bind_eq by reflexivity. rewrite Hstart, Hlt. reflexivity.
Qed.

(** Any number of end dates before the stored start date. *)
Lemma run_ends_before_start
    (who : user) (chat : Z) (ends : list string) (start : date) (w : world) :
  ud_export_start (data w) = Some start ->
  Forall (fun t => exists end_, _parse_date t = Some end_ /\ date_ltb end_ start = true)
         ends ->
  run E (Some EXPORT_DATE_END) (answers who chat ends) w
  = (Some EXPORT_DATE_END,
     World (data w)
           (trace w ++
            map (fun _ => reply_text
                            "End date must be after start date. Enter end date (YYYY-MM-DD):"
                            None) ends)).
Proof.
  intros Hstart Hall. revert w Hstart.
  induction Hall as [|t ends (end_ & Hparse & Hlt) _ IH]; intros w Hstart.
  - cbn [answers map run]. rewrite app_nil_r. destruct w; reflexivity.
  - unfold answers in *. cbn [map]. rewrite run_cons.
    rewrite (step_end_before_start who chat t start end_ w Hstart Hparse Hlt).
    cbn [fst snd]. rewrite IH by exact Hstart.
    cbn [data trace]. rewrite <- app_assoc. reflexivity.
Qed.

Lemma reprompts_are_silent (text : string) (ends : list string) :
  reads (map (fun _ => reply_text text None) ends) = 0%nat
  /\ exported (map (fun _ => reply_text text None) ends) = []
  /\ messaged (map (fun _ => reply_text text None) ends) = [].
Proof. induction ends as [|t ends IH]; [repeat split | exact IH]. Qed.

(** The only way into [EXPORT_DATE_END] is a start date that parses, typed
    at the question for it; the date stored is the date typed. *)
Lemma enters_date_end (current : option state) (u : update) (w : world) :
  (step E current u w).1 = Some EXPORT_DATE_END ->
  current <> Some EXPORT_DATE_END ->
  exists text start,
    current = Some EXPORT_DATE_START
    /\ payload u = Text text
    /\ _parse_date text = Some start
    /\ ud_export_start (data (step E current u w).2) = Some start.
Proof.
  unfold step.
  destruct (match payload u with
            | Command name => String.eqb name "start" || String.eqb name "menu"
            | _ => false
            end).
  { cbn [fst snd]. intros H Hne. contradiction. }
  destruct (conversation E current u) as [h|] eqn:Hconv.
  - destruct (h w) as [o w'] eqn:Hh. cbn [fst snd]. intros Hnext Hne.
    unfold conversation in Hconv. destruct current as [st|].
    + destruct (states E st u) as [h'|] eqn:Hst.
      * injection Hconv as ->.
        destruct (decide (st = EXPORT_DATE_START)) as [->|Hs].
        { unfold states in Hst. destruct (payload u) as [text| |] eqn:Hp; simplify_eq.
          destruct (export_date_start_stores text w) as (start & Hparse & Hstored).
          - rewrite Hh. cbn [fst].
            destruct o as [[s| |]|exc]; cbn in Hnext; simplify_eq. reflexivity.
          - rewrite Hh in Hstored. cbn [snd] in Hstored.
            exists text, start. auto. }
        destruct (decide (st = EXPORT_DATE_END)) as [->|He]; [contradiction|].
        pose proof (states_never st u h Hs He Hst w) as Hnever.
        rewrite Hh in Hnever. cbn [fst] in Hnever.
        destruct o as [[s| |]|exc]; cbn in Hnext; simplify_eq.
      * pose proof (fallbacks_never u h Hconv w) as Hnever.
        rewrite Hh in Hnever. cbn [fst] in Hnever.
        destruct o as [[s| |]|exc]; cbn in Hnext; simplify_eq.
    + pose proof (entry_points_never u h Hconv w) as Hnever.
      rewrite Hh in Hnever. cbn [fst] in Hnever.
      destruct o as [[s| |]|exc]; cbn in Hnext; simplify_eq.
  - destruct (other_handlers E u) as [h|]; cbn [fst snd]; intros H Hne; contradiction.
Qed.

(** While the conversation stays in [EXPORT_DATE_END] the session is not
    touched: the stored start date is the one that was typed. *)
Lemma stays_date_end (u : update) (w : world) :
  (step E (Some EXPORT_DATE_END) u w).1 = Some EXPORT_DATE_END ->
  data (step E (Some EXPORT_DATE_END) u w).2 = data w.
Proof.
  unfold step.
  destruct (match payload u with
            | Command name => String.eqb name "start" || String.eqb name "menu"
            | _ => false
            end).
  { cbn [fst snd]. intros _. apply menu_keeps. }
  destruct (conversation E (Some EXPORT_DATE_END) u) as [h|] eqn:Hconv.
  - destruct (h w) as [o w'] eqn:Hh. cbn [fst snd]. intros Hnext.
    unfold conversation in Hconv.
    destruct (states E EXPORT_DATE_END u) as [h'|] eqn:Hst.
    + injection Hconv as ->.
      unfold states in Hst. destruct (payload u); simplify_eq.
      destruct (export_date_end_keeps_unless_end text (chat_id u) w) as [Hend|Hkeep];
        rewrite Hh in *; cbn [fst snd] in *.
      * subst o. discriminate Hnext.
      * exact Hkeep.
    + unfold fallbacks in Hconv. destruct (payload u); repeat case_match; simplify_eq.
      unfold cancel, mbind, M_bind, bind, emit, modify, ret in Hh.
      injection Hh as <- <-. discriminate Hnext.
  - destruct (other_handlers E u) as [h|] eqn:Hother; cbn [fst snd]; intros _;
      [apply (other_handlers_keep u h Hother) | reflexivity].
Qed.

(** C7: in the export by date range the start date is collected before the
    end date, and an end date earlier than it only has the end-date prompt
    issued again. From the question for the start date, a start date typed
    and then any number of end dates earlier than it: the date typed is the
    one stored, each of the end dates gets the prompt again, the
    conversation stays in [EXPORT_DATE_END], and the sheet is not read and
    nothing is exported or sent. In any conversation [EXPORT_DATE_END] is
    entered only by a start date that parses, typed at its question, which
    stores that date; the session is not touched while the conversation
    stays there; so a conversation in [EXPORT_DATE_END] has its start date. *)
Theorem export_end_before_start_reprompts
    (who : user) (chat : Z) (text : string) (ends : list string) (start : date)
    (w : world) :
  _parse_date text = Some start ->
  Forall (fun t => exists end_, _parse_date t = Some end_ /\ date_ltb end_ start = true)
         ends ->
  let final := run E (Some EXPORT_DATE_START) (answers who chat (text :: ends)) w in
  final = (Some EXPORT_DATE_END,
           World (set_export_start (Some start) (data w))
                 (trace w ++
                  reply_text "Enter end date (YYYY-MM-DD):" None
                  :: map (fun _ =>
                            reply_text
                              "End date must be after start date. Enter end date (YYYY-MM-DD):"
                              None) ends))
  /\ reads (trace final.2) = reads (trace w)
  /\ exported (trace final.2) = exported (trace w)
  /\ messaged (trace final.2) = messaged (trace w)
  /\ (forall current u w0,
        (step E current u w0).1 = Some EXPORT_DATE_END ->
        current <> Some EXPORT_DATE_END ->
        exists t s,
          current = Some EXPORT_DATE_START
          /\ payload u = Text t
          /\ _parse_date t = Some s
          /\ ud_export_start (data (step E current u w0).2) = Some s)
  /\ (forall u w0,
        (step E (Some EXPORT_DATE_END) u w0).1 = Some EXPORT_DATE_END ->
        data (step E (Some EXPORT_DATE_END) u w0).2 = data w0)
  /\ (forall us w0,
        (run E None us w0).1 = Some EXPORT_DATE_END ->
        is_Some (ud_export_start (data (run E None us w0).2))).
Proof.
  intros Hparse Hall.
  assert (Hrun : run E (Some EXPORT_DATE_START) (answers who chat (text :: ends)) w
                 = (Some EXPORT_DATE_END,
                    World (set_export_start (Some start) (data w))
                      (trace w ++
                       reply_text "Enter end date (YYYY-MM-DD):" None
                       :: map (fun _ =>
                                 reply_text
                                   "End date must be after start date. Enter end date (YYYY-MM-DD):"
                                   None) ends))).
  { unfold answers. cbn [map]. rewrite run_cons.
    rewrite (step_start_date who chat text start w Hparse). cbn [fst snd].
    fold (answers who chat ends).
    rewrite (run_ends_before_start who chat ends start) by (reflexivity || exact Hall).
    cbn [data trace]. rewrite <- app_assoc. reflexivity. }
  cbv zeta. rewrite Hrun. cbn [snd trace].
  split; [reflexivity|].
  destruct (reprompts_are_silent
              "End date must be after start date. Enter end date (YYYY-MM-DD):" ends)
    as (Hreads & Hexported & Hmessaged).
  change (reply_text "Enter end date (YYYY-MM-DD):" None :: ?l)
    with ([reply_text "Enter end date (YYYY-MM-DD):" None] ++ l).
  split.
  { rewrite !reads_app, Hreads.
    replace (reads [reply_text "Enter end date (YYYY-MM-DD):" None]) with 0%nat
      by reflexivity.
    lia. }
  split.
  { unfold exported in *. rewrite !omap_app, Hexported. cbn [omap list_omap].
    rewrite !app_nil_r. reflexivity. }
  split.
  { rewrite !messaged_app, Hmessaged. unfold messaged. cbn [omap list_omap].
    rewrite !app_nil_r. reflexivity. }
  split; [exact enters_date_end|].
  split; [exact stays_date_end|].
  intros us w0 Hst.
  apply (run_start_collected us None w0); [discriminate | exact Hst].
Qed.

End ExportByDate.

(** ** The theorems on concrete inputs *)

(** Single mode, Facebook, TikTok, then Lazada: the selection is Lazada. *)
Lemma single_mode_selection_is_last_toggle_witness :
  Forall (fun n => n <> "done") (["Facebook"; "TikTok"] ++ ["Lazada"])
  /\ ud_platform_mode (data single_start) = Some "Single"
  /\ ud_platforms
       (data (run (SI := elements_order) (SP := iso_strptime) quiet (Some PLATFORM_SELECT)
                  (map (toggle alice 7) (["Facebook"; "TikTok"] ++ ["Lazada"]))
                  single_start).2)
     = Some ["Lazada"].
Proof.
  assert (H1 : Forall (fun n => n <> "done") (["Facebook"; "TikTok"] ++ ["Lazada"]))
    by (repeat constructor; discriminate).
  assert (H2 : ud_platform_mode (data single_start) = Some "Single") by reflexivity.
  split; [exact H1|]. split; [exact H2|].
  exact (proj1 (proj2 (single_mode_selection_is_last_toggle
                         (SI := elements_order) (SP := iso_strptime) quiet alice 7
                         ["Facebook"; "TikTok"] "Lazada" single_start H1 H2))).
Defined.

(** Multi mode, Others, TikTok, then Others again. *)
Lemma multi_mode_toggles_flip_membership_witness :
  Forall (fun n => n <> "done") ["Others"; "TikTok"; "Others"]
  /\ ud_platform_mode (data multi_start) = Some "Multi"
  /\ selection (run (SI := elements_order) (SP := iso_strptime) quiet (Some PLATFORM_SELECT)
                    (map (toggle alice 7) ["Others"; "TikTok"; "Others"]) multi_start).2
     = apply_toggles (selection multi_start) ["Others"; "TikTok"; "Others"].
Proof.
  assert (H1 : Forall (fun n => n <> "done") ["Others"; "TikTok"; "Others"])
    by (repeat constructor; discriminate).
  assert (H2 : ud_platform_mode (data multi_start) = Some "Multi") by reflexivity.
  split; [exact H1|]. split; [exact H2|].
  exact (proj1 (proj2 (multi_mode_toggles_flip_membership
                         (SI := elements_order) (SP := iso_strptime) quiet alice 7
                         ["Others"; "TikTok"; "Others"] multi_start H1 H2))).
Defined.


(** The scenario with a set that enumerates TikTok first. *)
Lemma multi_scenario_written_row_witness :
  append_error quiet = None
  /\ exists row,
       written (trace (run (SI := reversed_order) (SP := iso_strptime) quiet
                           (Some PLATFORM_MODE) (multi_scenario alice 7)
                           (World cleared [])).2)
       = written [] ++ [row]
       /\ row !! 10%nat
          = Some (Str.join ", " (set_to_list (SetIter := reversed_order)
                                             ({[ "Others" ]} ∪ {[ "TikTok" ]})))
       /\ (row !! 10%nat = Some "Others, TikTok" \/ row !! 10%nat = Some "TikTok, Others")
       /\ row !! 11%nat = Some "Podcast Clips".
Proof.
  assert (H1 : append_error quiet = None) by reflexivity.
  split; [exact H1|].
  exact (multi_scenario_written_row (SI := reversed_order) (SP := iso_strptime) quiet
           alice 7 (World cleared []) H1).
Defined.

(** The echo refused with two observers configured. *)
Lemma echo_failure_stops_notifications_witness :
  append_error echo_fails_env = None
  /\ send_error echo_fails_env (ChatId 7) = Some "Forbidden"
  /\ (step (SI := elements_order) (SP := iso_strptime) echo_fails_env (Some CONFIRM_SUBMIT)
           (Update alice 7 (Callback "confirm:yes")) (World filled [])).1
     = Some CONFIRM_SUBMIT.
Proof.
  assert (H1 : append_error echo_fails_env = None) by reflexivity.
  assert (H2 : send_error echo_fails_env (ChatId 7) = Some "Forbidden") by reflexivity.
  split; [exact H1|]. split; [exact H2|].
  exact (proj1 (echo_failure_stops_notifications
                  (SI := elements_order) (SP := iso_strptime) echo_fails_env alice 7
                  "Forbidden" (World filled []) H1 H2)).
Defined.

(** The query " ACME " on the sheet of three rows. *)
Lemma search_brand_reports_in_store_order_witness :
  sheet quiet = inr acme_records
  /\ (length (last_n 10 (search_matches (Str.lower (Str.strip " ACME ")) acme_records))
      <= 10)%nat.
Proof.
  assert (H1 : sheet quiet = inr acme_records) by reflexivity.
  split; [exact H1|].
  exact (proj1 (proj2 (proj2 (search_brand_reports_in_store_order quiet " ACME "
                                acme_records (World cleared []) H1)))).
Defined.

(** The start date 2026-02-10 is typed, then the end dates 2026-02-01 and
    2026-01-15: the second prompt is issued again each time. *)
Lemma export_end_before_start_reprompts_witness :
  _parse_date (SP := iso_strptime) "2026-02-10" = Some (Date 2026 2 10)
  /\ Forall (fun t => exists end_,
                        _parse_date (SP := iso_strptime) t = Some end_
                        /\ date_ltb end_ (Date 2026 2 10) = true)
            ["2026-02-01"; "2026-01-15"]
  /\ run (SI := elements_order) (SP := iso_strptime) quiet (Some EXPORT_DATE_START)
         (answers alice 7 ["2026-02-10"; "2026-02-01"; "2026-01-15"]) (World cleared [])
     = (Some EXPORT_DATE_END,
        World (set_export_start (Some (Date 2026 2 10)) cleared)
              [reply_text "Enter end date (YYYY-MM-DD):" None;
               reply_text "End date must be after start date. Enter end date (YYYY-MM-DD):"
                          None;
               reply_text "End date must be after start date. Enter end date (YYYY-MM-DD):"
                          None]).
Proof.
  assert (H1 : _parse_date (SP := iso_strptime) "2026-02-10" = Some (Date 2026 2 10))
    by (vm_compute; reflexivity).
  assert (H2 : Forall (fun t => exists end_,
                                  _parse_date (SP := iso_strptime) t = Some end_
                                  /\ date_ltb end_ (Date 2026 2 10) = true)
                      ["2026-02-01"; "2026-01-15"]).
  { constructor; [|constructor; [|constructor]].
    - exists (Date 2026 2 1). split; vm_compute; reflexivity.
    - exists (Date 2026 1 15). split; vm_compute; reflexivity. }
  split; [exact H1|]. split; [exact H2|].
  exact (proj1 (export_end_before_start_reprompts
                  (SI := elements_order) (SP := iso_strptime) quiet alice 7
                  "2026-02-10" ["2026-02-01"; "2026-01-15"] (Date 2026 2 10)
                  (World cleared []) H1 H2)).
Defined.

(** [/export] from a user who is not an admin. *)
Lemma export_command_denied_without_read_witness :
  _is_admin quiet mallory = false
  /\ step (SI := elements_order) (SP := iso_strptime) quiet None
          (Update mallory 7 (Command "export")) (World cleared [])
     = (None,
        World cleared ([] ++ [reply_text "Sorry, only admins can export CSV." None])).
Proof.
  assert (H1 : _is_admin quiet mallory = false) by (vm_compute; reflexivity).
  split; [exact H1|].
  exact (proj1 (export_command_denied_without_read
                  (SI := elements_order) (SP := iso_strptime) quiet mallory 7
                  (World cleared []) H1)).
Defined.

(** * Further properties of the handlers *)

(** ** Cancellation, denials and the failed write *)

Section Guards.
Context {SI : SetIter} {SP : Strptime} (E : env).

Lemma states_refuse_commands (st : state) (who : user) (chat : Z) (name : string) :
  states E st (Update who chat (Command name)) = None.
Proof. destruct st; reflexivity. Qed.

(** [/cancel] in any state of the conversation answers, clears the session
    and ends the conversation; outside a conversation it is dropped and the
    session stays. *)
Theorem cancel_clears_only_inside_a_conversation
    (st : state) (who : user) (chat : Z) (w : world) :
  step E (Some st) (Update who chat (Command "cancel")) w
  = (None,
     World cleared (trace w ++ [reply_text "Canceled. Use /start to begin again." None]))
  /\ step E None (Update who chat (Command "cancel")) w = (None, w).
Proof.
  split; [|reflexivity].
  unfold step, conversation. cbn [payload].
  rewrite states_refuse_commands. reflexivity.
Qed.

(** No state of the conversation accepts a callback whose data does not start
    with the prefix of one of the five button families. *)
Lemma states_refuse_action (st : state) (who : user) (chat : Z) (token : string) :
  Str.startswith "action:" token = true ->
  states E st (Update who chat (Callback token)) = None.
Proof.
  intros H. apply startswith_spec in H as [post ->].
  destruct st; reflexivity.
Qed.

(** The dashboard link and the manager view, asked by command or by button
    in any state, by a user who is not an admin: the fixed denial, no read of
    the sheet, and the conversation and the session as they were. *)
Theorem privileged_views_denied (current : option state) (who : user) (chat : Z) (w : world) :
  _is_admin E who = false ->
  step E current (Update who chat (Command "dashboard")) w
  = (current,
     World (data w)
           (trace w ++ [reply_text "Sorry, only admins can access the dashboard link." None]))
  /\ step E current (Update who chat (Command "manager")) w
     = (current,
        World (data w)
              (trace w ++ [reply_text "Sorry, only admins can access the manager view." None]))
  /\ step E current (Update who chat (Callback "action:dashboard")) w
     = (current,
        World (data w)
              (trace w ++ [answer;
                           reply_text "Sorry, only admins can access the dashboard link."
                                      None]))
  /\ step E current (Update who chat (Callback "action:manager")) w
     = (current,
        World (data w)
              (trace w ++ [answer;
                           reply_text "Sorry, only admins can access the manager view."
                                      None])).
Proof.
  intros Hnot.
  assert (Hconv : forall token,
             Str.startswith "action:" token = true ->
             Str.match_exact "action:new" token = false ->
             Str.match_exact "action:recall" token = false ->
             Str.match_exact "action:export" token = false ->
             conversation E current (Update who chat (Callback token)) = None).
  { intros token Hp H1 H2 H3. unfold conversation, entry_points, fallbacks.
    destruct current as [st|]; cbn [payload].
    - rewrite states_refuse_action by exact Hp. reflexivity.
    - rewrite H1, H2, H3. reflexivity. }
  assert (Hcmd : forall name,
             String.eqb name "export" = false -> String.eqb name "cancel" = false ->
             conversation E current (Update who chat (Command name)) = None).
  { intros name H1 H2. unfold conversation, entry_points, fallbacks.
    destruct current as [st|]; cbn [payload].
    - rewrite states_refuse_commands, H2. reflexivity.
    - rewrite H1. reflexivity. }
  repeat split.
  - unfold step. cbn [payload]. rewrite Hcmd by reflexivity.
    cbn. unfold dashboard_command. rewrite Hnot. reflexivity.
  - unfold step. cbn [payload]. rewrite Hcmd by reflexivity.
    cbn. unfold manager_view_command. rewrite Hnot. reflexivity.
  - unfold step. cbn [payload]. rewrite Hconv by reflexivity.
    unfold other_handlers. cbn [payload effective_user orb].
    replace (Str.match_exact "action:dashboard" "action:dashboard") with true
      by (vm_compute; reflexivity).
    unfold action_dashboard. run_handler. rewrite Hnot. cbn.
    rewrite <- app_assoc. reflexivity.
  - unfold step. cbn [payload]. rewrite Hconv by reflexivity.
    unfold other_handlers. cbn [payload effective_user chat_id orb].
    replace (Str.match_exact "action:dashboard" "action:manager") with false
      by (vm_compute; reflexivity).
    replace (Str.match_exact "action:manager" "action:manager") with true
      by (vm_compute; reflexivity).
    unfold action_manager. run_handler. rewrite Hnot. cbn.
    rewrite <- app_assoc. reflexivity.
Qed.

(** A confirmed submission that the sheet refuses: the error is reported to
    the user, the conversation ends, no row is written, nobody is notified,
    and the session is kept. *)
Theorem failed_write_reports_and_ends
    (token : string) (who : user) (chat : Z) (exc : string) (w : world) :
  Str.startswith "confirm:" token = true ->
  token <> "confirm:no" ->
  append_error E = Some exc ->
  step E (Some CONFIRM_SUBMIT) (Update who chat (Callback token)) w
  = (None,
     World (data w)
           (trace w ++ [answer; log "Failed to append row";
                        edit_message_text
                          ("Sorry, I couldn't save your request. Error: " +:+ exc) None])).
Proof.
  intros Hp Hne Happ. apply String.eqb_neq in Hne.
  erewrite step_callback
    by (cbv beta iota delta [states payload]; rewrite Hp; reflexivity).
  cbn [effective_user chat_id]. unfold confirm_submit.
  erewrite bind_eq by reflexivity. rewrite Hne.
  erewrite bind_eq by reflexivity.
  erewrite bind_eq
    by (unfold try_except, _append_row, mbind, M_bind, bind; rewrite Happ; reflexivity).
  cbn. rewrite <- !app_assoc. reflexivity.
Qed.
End Guards.

(** The handler of [PLATFORM_MODE] on any token of its pattern. *)
Lemma platform_mode_accepts_or_single
    {SI : SetIter} {SP : Strptime} (E : env)
    (token : string) (who : user) (chat : Z) (w : world) :
  Str.startswith "mode:" token = true ->
  (step E (Some PLATFORM_MODE) (Update who chat (Callback token)) w).1 = Some PLATFORM_SELECT
  /\ ud_platforms (data (step E (Some PLATFORM_MODE) (Update who chat (Callback token)) w).2)
     = Some [].
Proof.
  intros Hp.
  erewrite step_callback
    by (cbv beta iota delta [states payload]; rewrite Hp; reflexivity).
  unfold platform_mode. run_handler. split; reflexivity.
Qed.

(** ** More on the platform selector *)

Section SelectorMore.
Context {SI : SetIter} {SP : Strptime} (E : env).

(** [Done] is accepted with any selection, the empty one too: the selection
    is stored as it is, and the conversation goes to the free text when
    "Others" is selected and to the confirmation otherwise. *)
Theorem done_accepts_any_selection (who : user) (chat : Z) (w : world) :
  let after := step E (Some PLATFORM_SELECT) (Update who chat (Callback "platform:done")) w in
  after.1 = Some (if bool_decide ("Others" ∈ selection w)
                  then PLATFORM_OTHER else CONFIRM_SUBMIT)
  /\ data after.2 = set_platforms (set_to_list (selection w)) (data w)
  /\ selection after.2 = selection w
  /\ written (trace after.2) = written (trace w)
  /\ (selection w = ∅ ->
      after.1 = Some CONFIRM_SUBMIT /\ ud_platforms (data after.2) = Some []).
Proof.
  cbv zeta. erewrite step_callback by reflexivity.
  unfold platform_select. run_handler.
  change (set_of_list (default [] (ud_platforms (data w)))) with (selection w).
  assert (Hsel : selection (World (set_platforms (set_to_list (selection w)) (data w)) [])
                 = selection w) by apply set_of_list_to_list.
  destruct (bool_decide ("Others" ∈ selection w)) eqn:Ho; cbn.
  - split; [reflexivity|]. split; [reflexivity|]. split; [exact Hsel|].
    split; [rewrite !written_app; cbn; rewrite !app_nil_r; reflexivity|].
    intros Hempty. rewrite Hempty in Ho.
    apply bool_decide_eq_true in Ho. set_solver.
  - split; [reflexivity|]. split; [reflexivity|]. split; [exact Hsel|].
    split; [rewrite !written_app; cbn; rewrite !app_nil_r; reflexivity|].
    intros Hempty. rewrite Hempty, set_to_list_empty. split; reflexivity.
Qed.

(** The list stored by a toggle has no entry twice, and stays within the
    catalog when the selection was within it and the button is one of the
    catalog. *)
Lemma toggle_keeps_catalog (who : user) (chat : Z) (name : string) (w : world) :
  name <> "done" ->
  let after := (step E (Some PLATFORM_SELECT) (toggle who chat name) w).2 in
  (exists l, ud_platforms (data after) = Some l /\ NoDup l)
  /\ (name ∈ PLATFORMS ->
      (forall x, x ∈ selection w -> x ∈ PLATFORMS) ->
      forall x, x ∈ selection after -> x ∈ PLATFORMS).
Proof.
  intros Hne. cbv zeta.
  rewrite selection_after_toggle by exact Hne.
  rewrite step_toggle by exact Hne. cbn [snd data ud_platforms set_platforms].
  split.
  - eexists. split; [reflexivity|]. rewrite set_to_list_perm. apply NoDup_elements.
  - intros Hname Hsub x. unfold toggled.
    destruct (String.eqb _ "Single"); [|case_bool_decide]; set_solver.
Qed.

(** From the choice of the mode on, whatever catalog buttons are pressed, the
    stored selection has no entry twice and holds catalog entries only, so at
    most eight. *)
Theorem selection_stays_in_catalog
    (who : user) (chat : Z) (token : string) (names : list string) (w : world) :
  Str.startswith "mode:" token = true ->
  Forall (fun n => n ∈ PLATFORMS) names ->
  let final := run E (Some PLATFORM_MODE)
                   (Update who chat (Callback token) :: map (toggle who chat) names) w in
  final.1 = Some PLATFORM_SELECT
  /\ exists l, ud_platforms (data final.2) = Some l
               /\ NoDup l /\ (forall x, x ∈ l -> x ∈ PLATFORMS) /\ (length l <= 8)%nat.
Proof.
  intros Hp Hnames. cbv zeta.
  assert (Hdone : forall n, n ∈ PLATFORMS -> n <> "done").
  { intros n Hn ->. vm_compute in Hn. apply list_elem_of_In in Hn. cbn in Hn.
    repeat (destruct Hn as [Hn|Hn]; [discriminate|]). exact Hn. }
  assert (Hinv : forall names w0,
             Forall (fun n => n ∈ PLATFORMS) names ->
             (exists l, ud_platforms (data w0) = Some l /\ NoDup l) ->
             (forall x, x ∈ selection w0 -> x ∈ PLATFORMS) ->
             let fin := run E (Some PLATFORM_SELECT) (map (toggle who chat) names) w0 in
             fin.1 = Some PLATFORM_SELECT
             /\ (exists l, ud_platforms (data fin.2) = Some l /\ NoDup l)
             /\ (forall x, x ∈ selection fin.2 -> x ∈ PLATFORMS)).
  { clear w Hp Hnames. intros names' w0 Hnames. revert w0.
    induction Hnames as [|name names' Hname _ IH]; intros w0 Hnd Hsub; cbv zeta.
    - repeat split; assumption.
    - cbn [map]. rewrite run_cons.
      destruct (toggle_keeps_catalog who chat name w0 (Hdone name Hname)) as [Hnd' Hsub'].
      specialize (Hsub' Hname Hsub).
      assert (Hst : (step E (Some PLATFORM_SELECT) (toggle who chat name) w0).1
                    = Some PLATFORM_SELECT)
        by (rewrite step_toggle by exact (Hdone name Hname); reflexivity).
      rewrite Hst. apply IH; assumption. }
  rewrite run_cons.
  destruct (platform_mode_accepts_or_single E token who chat w Hp) as (Hst & Hpl).
  rewrite Hst.
  destruct (Hinv names (step E (Some PLATFORM_MODE) (Update who chat (Callback token)) w).2
                 Hnames) as (H1 & (l & Hl & Hnd) & Hsub).
  { exists []. split; [exact Hpl | constructor]. }
  { unfold selection. rewrite Hpl. cbn. set_solver. }
  split; [exact H1|]. exists l. split; [exact Hl|]. split; [exact Hnd|].
  assert (Hin : forall x, x ∈ l -> x ∈ PLATFORMS).
  { intros x Hx. apply Hsub. unfold selection, set_of_list. rewrite Hl. cbn.
    apply elem_of_list_to_set. exact Hx. }
  split; [exact Hin|].
  change 8%nat with (length PLATFORMS).
  apply submseteq_length, NoDup_submseteq; assumption.
Qed.
End SelectorMore.

(** ** The keyboards and the handlers behind them *)

Section Keyboards.
Context {SI : SetIter} {SP : Strptime} (E : env).

(** The platform keyboard has one button for each entry of the catalog, in
    the order of the catalog, then [Done]; each is accepted in
    [PLATFORM_SELECT], a catalog button is read back as the toggle of its
    entry, and its mark tells whether the entry is selected. *)
Theorem platforms_keyboard_round_trip (selected : gset string) (who : user) (chat : Z) :
  offered (_platforms_keyboard selected)
  = map (fun name => "platform:" +:+ name) PLATFORMS ++ ["platform:done"]
  /\ Forall (fun token =>
               is_Some (states E PLATFORM_SELECT (Update who chat (Callback token))))
            (offered (_platforms_keyboard selected))
  /\ (forall name, name ∈ PLATFORMS ->
        Str.after_first ":" ("platform:" +:+ name) = Some name
        /\ name <> "done"
        /\ [((if bool_decide (name ∈ selected) then "[x]" else "[ ]") +:+ " " +:+ name,
             "platform:" +:+ name)] ∈ _platforms_keyboard selected).
Proof.
  split; [reflexivity|]. split.
  - replace (offered (_platforms_keyboard selected))
      with (map (fun name => "platform:" +:+ name) PLATFORMS ++ ["platform:done"])
      by reflexivity.
    apply Forall_app. split.
    + apply Forall_map, Forall_forall. intros name _.
      cbv beta iota delta [states payload]. rewrite startswith_app. eauto.
    + repeat constructor. cbn. eauto.
  - intros name Hname. split; [apply after_first_platform|]. split.
    + intros ->. apply list_elem_of_In in Hname. cbn in Hname.
      repeat (destruct Hname as [Hname|Hname]; [discriminate|]). exact Hname.
    + unfold _platforms_keyboard. apply list_elem_of_In, in_or_app. left.
      apply in_map_iff. exists name. split; [reflexivity|].
      apply list_elem_of_In. exact Hname.
Qed.

(** The buttons and the states that take them. [/menu] sends the menu
    keyboard in any state and leaves the conversation where it is. With no
    conversation open every button of the menu has a handler. In a
    conversation, whatever its state, the three buttons that open one (new
    request, recall, export) are dropped: nothing is answered, and the
    state and the session stay; the two views are still served. The
    buttons of the mode, confirmation, recall and export keyboards are taken
    by the states [PLATFORM_MODE], [CONFIRM_SUBMIT], [RECALL_MENU] and
    [EXPORT_CHOICE], and the recall and export tokens are those the handlers
    branch on. *)
Theorem menu_buttons_dropped_in_conversation
    (is_admin : bool) (st : state) (current : option state)
    (who : user) (chat : Z) (w : world) :
  step E current (Update who chat (Command "menu")) w
  = (current,
     World (data w)
           (trace w ++
            [reply_text
               "Hi! I can record a new request or recall past submissions. Choose an option:"
               (Some (_action_keyboard (_is_admin E who)))]))
  /\ Forall (fun token =>
               is_Some (entry_points E (Update who chat (Callback token)))
               \/ is_Some (other_handlers E (Update who chat (Callback token))))
            (offered (_action_keyboard is_admin))
  /\ Forall (fun token =>
               step E (Some st) (Update who chat (Callback token)) w = (Some st, w))
            ["action:new"; "action:recall"; "action:export"]
  /\ Forall (fun token =>
               conversation E (Some st) (Update who chat (Callback token)) = None
               /\ is_Some (other_handlers E (Update who chat (Callback token))))
            ["action:dashboard"; "action:manager"]
  /\ Forall (fun token =>
               is_Some (states E PLATFORM_MODE (Update who chat (Callback token))))
            (offered _platform_mode_keyboard)
  /\ Forall (fun token =>
               is_Some (states E CONFIRM_SUBMIT (Update who chat (Callback token))))
            (offered confirm_keyboard)
  /\ Forall (fun token =>
               is_Some (states E RECALL_MENU (Update who chat (Callback token)))
               /\ (token = "recall:history" \/ token = "recall:search"))
            (offered recall_keyboard)
  /\ Forall (fun token =>
               is_Some (states E EXPORT_CHOICE (Update who chat (Callback token)))
               /\ exists choice,
                    Str.after_first ":" token = Some choice
                    /\ (choice = "all" \/ choice = "date" \/ choice = "requester"))
            (offered export_keyboard).
Proof.
  assert (Hnew : Str.match_exact "action:new" "action:new" = true) by (vm_compute; reflexivity).
  assert (Hrec : Str.match_exact "action:recall" "action:recall" = true
                 /\ Str.match_exact "action:new" "action:recall" = false)
    by (vm_compute; split; reflexivity).
  assert (Hexp : Str.match_exact "action:export" "action:export" = true
                 /\ Str.match_exact "action:new" "action:export" = false
                 /\ Str.match_exact "action:recall" "action:export" = false)
    by (vm_compute; repeat split; reflexivity).
  assert (Hdash : Str.match_exact "action:dashboard" "action:dashboard" = true)
    by (vm_compute; reflexivity).
  assert (Hman : Str.match_exact "action:manager" "action:manager" = true
                 /\ Str.match_exact "action:dashboard" "action:manager" = false)
    by (vm_compute; split; reflexivity).
  assert (Hviews : forall token,
             token = "action:new" \/ token = "action:recall" \/ token = "action:export" ->
             Str.match_exact "action:dashboard" token = false
             /\ Str.match_exact "action:manager" token = false).
  { intros token [->|[->| ->]]; vm_compute; split; reflexivity. }
  destruct Hrec as [Hrec1 Hrec2], Hexp as (Hexp1 & Hexp2 & Hexp3), Hman as [Hman1 Hman2].
  split.
  { unfold step. cbn [payload effective_user].
    replace (String.eqb "menu" "start" || String.eqb "menu" "menu") with true
      by reflexivity.
    unfold menu. run_handler. reflexivity. }
  split.
  { assert (Hbase : Forall (fun token =>
               is_Some (entry_points E (Update who chat (Callback token)))
               \/ is_Some (other_handlers E (Update who chat (Callback token))))
              ["action:new"; "action:recall"]).
    { constructor; [|constructor; [|constructor]];
        left; unfold entry_points; cbn [payload].
      - rewrite Hnew. eauto.
      - rewrite Hrec2, Hrec1. eauto. }
    destruct is_admin; [|exact Hbase].
    change (offered (_action_keyboard true))
      with (["action:new"; "action:recall"]
            ++ ["action:export"; "action:dashboard"; "action:manager"]).
    apply Forall_app. split; [exact Hbase|].
    constructor; [|constructor; [|constructor; [|constructor]]].
    - left. unfold entry_points. cbn [payload]. rewrite Hexp2, Hexp3, Hexp1. eauto.
    - right. unfold other_handlers. cbn [payload]. rewrite Hdash. eauto.
    - right. unfold other_handlers. cbn [payload]. rewrite Hman2, Hman1. eauto. }
  split.
  { apply Forall_forall. intros token Hin. apply list_elem_of_In in Hin. cbn in Hin.
    assert (Htoken : token = "action:new" \/ token = "action:recall"
                     \/ token = "action:export")
      by (destruct Hin as [<-|[<-|[<-|[]]]]; auto).
    destruct (Hviews token Htoken) as [Hd Hm].
    unfold step, conversation. cbn [payload].
    rewrite states_refuse_action
      by (destruct Htoken as [->|[->| ->]]; reflexivity).
    unfold fallbacks, other_handlers. cbn [payload]. rewrite Hd, Hm. reflexivity. }
  split.
  { apply Forall_forall. intros token Hin. apply list_elem_of_In in Hin. cbn in Hin.
    unfold conversation.
    destruct Hin as [<-|[<-|[]]];
      (rewrite states_refuse_action by reflexivity);
      (split; [reflexivity|]); unfold other_handlers; cbn [payload].
    - rewrite Hdash. eauto.
    - rewrite Hman2, Hman1. eauto. }
  split.
  { apply Forall_forall. intros token Hin. apply list_elem_of_In in Hin. cbn in Hin.
    destruct Hin as [<-|[<-|[]]]; cbn; eauto. }
  split.
  { apply Forall_forall. intros token Hin. apply list_elem_of_In in Hin. cbn in Hin.
    destruct Hin as [<-|[<-|[]]]; cbn; eauto. }
  split.
  { apply Forall_forall. intros token Hin. apply list_elem_of_In in Hin. cbn in Hin.
    destruct Hin as [<-|[<-|[]]]; (split; [cbn; eauto | auto]). }
  apply Forall_forall. intros token Hin. apply list_elem_of_In in Hin. cbn in Hin.
  destruct Hin as [<-|[<-|[<-|[]]]]; (split; [cbn; eauto | eexists; split; [reflexivity|auto]]).
Qed.
End Keyboards.

(** ** The form, end to end *)

Section Form.
Context {SI : SetIter} {SP : Strptime} (E : env).

(** A text message in a state whose handler accepts it. *)
Lemma step_text (current : state) (who : user) (chat : Z) (text : string)
    (h : M result) (w : world) :
  states E current (Update who chat (Text text)) = Some h ->
  step E (Some current) (Update who chat (Text text)) w =
  (next_state (Some current) (h w).1, (h w).2).
Proof.
  intros H. unfold step, conversation. cbn [payload]. rewrite H.
  destruct (h w); reflexivity.
Qed.

(** One question of the form: the answer goes through its handler. *)
Ltac form_step :=
  rewrite run_cons; erewrite step_text by reflexivity;
  unfold brand_name, creator_name, room_no, date_to_be_aired, camera_requirements,
    stage_design, other_technical;
  unfold mbind, M_bind, mret, M_ret, bind, ret, emit, modify;
  cbn [fst snd next_state data trace].

Lemma form_run (who : user) (chat : Z) (t1 t2 t3 t4 t5 t6 t7 : string) (w : world) :
  run E (Some BRAND_NAME) (answers who chat [t1; t2; t3; t4; t5; t6; t7]) w
  = (Some PLATFORM_MODE,
     World (UserData (Some (Str.strip t1)) (Some (Str.strip t2)) (Some (Str.strip t3))
                     (Some (Str.strip t4)) (Some (Str.strip t5)) (Some (Str.strip t6))
                     (Some (Str.strip t7)) (ud_platform_mode (data w))
                     (ud_platforms (data w)) (ud_platforms_other (data w))
                     (ud_export_start (data w)))
           (trace w ++ [reply_text "Creator Name:" None;
                        reply_text "Room No / Room Letter:" None;
                        reply_text "Date to be Aired (e.g., 2026-02-15):" None;
                        reply_text "Camera Requirements:" None;
                        reply_text "Stage Design:" None;
                        reply_text "Other Technical Requirements:" None;
                        reply_text "Platform to be used:" (Some _platform_mode_keyboard)])).
Proof.
  unfold answers. cbn [map].
  do 7 form_step. cbn [run].
  rewrite <- !app_assoc. reflexivity.
Qed.

(** The seven answers of the form are stored in their fields, each stripped
    and otherwise as typed (the air date too: it is not parsed); the
    conversation reaches the choice of the mode, nothing is read or
    written, and the platform fields of the session are untouched. *)
Theorem form_stores_stripped_answers
    (who : user) (chat : Z) (t1 t2 t3 t4 t5 t6 t7 : string) (w : world) :
  let final := run E (Some BRAND_NAME) (answers who chat [t1; t2; t3; t4; t5; t6; t7]) w in
  final.1 = Some PLATFORM_MODE
  /\ data final.2
     = UserData (Some (Str.strip t1)) (Some (Str.strip t2)) (Some (Str.strip t3))
                (Some (Str.strip t4)) (Some (Str.strip t5)) (Some (Str.strip t6))
                (Some (Str.strip t7)) (ud_platform_mode (data w))
                (ud_platforms (data w)) (ud_platforms_other (data w))
                (ud_export_start (data w))
  /\ written (trace final.2) = written (trace w)
  /\ reads (trace final.2) = reads (trace w).
Proof.
  cbv zeta. rewrite form_run. cbn [fst snd data trace].
  rewrite written_app, reads_app. cbn.
  rewrite app_nil_r, Nat.add_0_r. repeat split.
Qed.

Lemma step_mode_single (who : user) (chat : Z) (w : world) :
  step E (Some PLATFORM_MODE) (Update who chat (Callback "mode:single")) w =
  (Some PLATFORM_SELECT,
   World (set_platforms [] (set_platform_mode "Single" (data w)))
         (trace w ++ [answer;
                      edit_message_text "Select platform(s):"
                                        (Some (_platforms_keyboard ∅))])).
Proof.
  erewrite step_callback by reflexivity.
  unfold platform_mode. run_handler. rewrite <- app_assoc. reflexivity.
Qed.

Lemma step_done_plain (who : user) (chat : Z) (w : world) :
  "Others" ∉ selection w ->
  step E (Some PLATFORM_SELECT) (Update who chat (Callback "platform:done")) w =
  (Some CONFIRM_SUBMIT,
   World (set_platforms (set_to_list (selection w)) (data w))
         (trace w ++ [answer;
                      edit_message_text
                        ("Please confirm your submission:" +:+ nl +:+ nl +:+
                         _format_summary
                           (set_platforms (set_to_list (selection w)) (data w)))
                        (Some confirm_keyboard)])).
Proof.
  intros Hnot. erewrite step_callback by reflexivity.
  unfold platform_select. run_handler.
  change (set_of_list (default [] (ud_platforms (data w)))) with (selection w).
  rewrite bool_decide_eq_false_2 by assumption. cbn.
  rewrite <- app_assoc. reflexivity.
Qed.

(** A whole Single-mode request for a platform other than "Others", accepted
    by the sheet, writes one row: the timestamp, the requester, the seven
    stripped answers, "Single", the platform, and for the other-platforms
    field whatever the session held before the request (nothing in a cleared
    session). *)
Theorem single_request_written_row
    (who : user) (chat : Z) (t1 t2 t3 t4 t5 t6 t7 name : string) (w : world) :
  name <> "done" ->
  name <> "Others" ->
  append_error E = None ->
  let final := run E (Some BRAND_NAME)
                   (single_request who chat [t1; t2; t3; t4; t5; t6; t7] name) w in
  written (trace final.2)
  = written (trace w)
    ++ [[ strftime_iso (now E);
          (let u := Str.strip (default "" (username who)) in
           if String.eqb u "" then "id:" +:+ pretty (id who) else u);
          Str.strip t1; Str.strip t2; Str.strip t3; Str.strip t4; Str.strip t5;
          Str.strip t6; Str.strip t7; "Single"; name;
          default "" (ud_platforms_other (data w)) ]].
Proof.
  intros Hdone Hothers Happ. cbv zeta. unfold single_request.
  rewrite run_app, form_run. cbn [fst snd].
  set (w1 := World _ _).
  rewrite run_cons, step_mode_single. cbn [fst snd].
  set (w2 := World _ _).
  assert (Hm2 : ud_platform_mode (data w2) = Some "Single") by reflexivity.
  rewrite run_cons, step_toggle by exact Hdone. cbn [fst snd].
  assert (Ht : toggled name w2 = {[ name ]}) by reflexivity.
  rewrite Ht, set_to_list_singleton.
  set (w3 := World _ _).
  assert (Hs3 : selection w3 = {[ name ]}).
  { unfold selection, set_of_list. cbn. apply (right_id_L ∅ (∪)). }
  rewrite run_cons, step_done_plain by (rewrite Hs3; set_solver).
  cbn [fst snd]. rewrite Hs3, set_to_list_singleton.
  set (w4 := World _ _).
  rewrite run_cons. cbn [run snd].
  rewrite confirm_yes_written by exact Happ.
  unfold w4, w3, w2, w1. cbn [trace data].
  rewrite !written_app. cbn. rewrite !app_nil_r. reflexivity.
Qed.
End Form.

(** ** Recall and export *)

Section Queries.
Context {SI : SetIter} {SP : Strptime} (E : env).

Lemma fetch_ok (records : list record) (h : string -> M (option (list record))) (w : world) :
  sheet E = inr records ->
  try_except (records ← fetch_records E; mret (Some records)) h w
  = (Returns (Some records), World (data w) (trace w ++ [get_all_records])).
Proof.
  intros Hsheet. unfold try_except, fetch_records, mbind, M_bind, bind, emit.
  rewrite Hsheet. reflexivity.
Qed.

Lemma export_csv_records_ok (rows : list record) (chat : Z) (w : world) :
  send_error E (ChatId chat) = None ->
  export_csv_records E rows chat w
  = (Returns tt, World (data w) (trace w ++ [export_effect E chat rows])).
Proof.
  intros Hsend. unfold export_csv_records, export_effect.
  destruct rows; unfold bot_send_message, bot_send_document; run_handler;
    rewrite Hsend; reflexivity.
Qed.

(** A user without a handle who asks for the history is told to set one; the
    sheet is not read. *)
Theorem history_without_handle_reads_nothing (who : user) (chat : Z) (w : world) :
  Str.strip (default "" (username who)) = "" ->
  step E (Some RECALL_MENU) (Update who chat (Callback "recall:history")) w
  = (None,
     World (data w)
           (trace w ++ [answer;
                        edit_message_text
                          "I couldn't find your username. Please set a Telegram username and try again."
                          None])).
Proof.
  intros Hu. erewrite step_callback by reflexivity. cbn [effective_user].
  unfold recall_choice. erewrite bind_eq by reflexivity.
  cbn [String.eqb Ascii.eqb Bool.eqb]. unfold show_history. rewrite Hu.
  run_handler. rewrite <- app_assoc. reflexivity.
Qed.

(** The history of a user with a handle: one read of the sheet; the rows
    whose requester cell, stripped, is the stripped handle, compared as it
    is; the last ten of them at most, in the order of the sheet; and a
    message of its own when there is none. *)
Theorem history_reports_last_ten
    (who : user) (chat : Z) (records : list record) (w : world) :
  Str.strip (default "" (username who)) <> "" ->
  sheet E = inr records ->
  let mine := rows_of (Str.strip (default "" (username who))) records in
  let latest := last_n 10 mine in
  step E (Some RECALL_MENU) (Update who chat (Callback "recall:history")) w
  = (None,
     World (data w)
           (trace w ++ [answer; get_all_records;
                        edit_message_text
                          (match latest with
                           | [] => "No submissions found for your username."
                           | _ => "Your last submissions:" +:+ nl
                                  +:+ Str.join nl (map history_line latest)
                           end) None]))
  /\ (forall r, r ∈ mine <->
                r ∈ records
                /\ Str.strip (get "Requester Username" r)
                   = Str.strip (default "" (username who)))
  /\ (length latest <= 10)%nat
  /\ (exists older, mine = older ++ latest)
  /\ sublist latest records.
Proof.
  intros Hu Hsheet. cbv zeta. split.
  { apply String.eqb_neq in Hu.
    erewrite step_callback by reflexivity. cbn [effective_user].
    unfold recall_choice. erewrite bind_eq by reflexivity.
    cbn [String.eqb Ascii.eqb Bool.eqb]. unfold show_history. rewrite Hu.
    erewrite bind_eq by (apply fetch_ok; exact Hsheet).
    cbv beta iota zeta. fold (rows_of (Str.strip (default "" (username who))) records).
    destruct (last_n 10 (rows_of (Str.strip (default "" (username who))) records));
      run_handler; rewrite <- !app_assoc; reflexivity. }
  split.
  { intros r. unfold rows_of.
    rewrite !list_elem_of_In, List.filter_In, String.eqb_eq. reflexivity. }
  split; [apply last_n_length|].
  split; [eexists; apply last_n_suffix|].
  etrans; [apply sublist_drop | apply filter_sublist].
Qed.

(** The export of everything: one read, then every row of the sheet in one
    file, in the order of the sheet and without a limit; an empty sheet gets
    the notice and no file. *)
Theorem export_all_sends_every_row
    (who : user) (chat : Z) (records : list record) (w : world) :
  sheet E = inr records ->
  send_error E (ChatId chat) = None ->
  let after := step E (Some EXPORT_CHOICE) (Update who chat (Callback "export:all")) w in
  after = (None,
           World (data w)
                 (trace w ++ [answer; edit_message_text "Preparing CSV export..." None;
                              get_all_records; export_effect E chat records]))
  /\ exported (trace after.2)
     = exported (trace w) ++ (if decide (records = []) then [] else [records]).
Proof.
  intros Hsheet Hsend. cbv zeta.
  assert (Hstep : step E (Some EXPORT_CHOICE) (Update who chat (Callback "export:all")) w
                  = (None,
                     World (data w)
                       (trace w ++ [answer; edit_message_text "Preparing CSV export..." None;
                                    get_all_records; export_effect E chat records]))).
  { erewrite step_callback by reflexivity. cbn [chat_id].
    unfold export_choice. erewrite bind_eq by reflexivity.
    erewrite bind_eq by reflexivity. cbn [String.eqb Ascii.eqb Bool.eqb].
    erewrite bind_eq by reflexivity.
    erewrite bind_eq by (apply fetch_ok; exact Hsheet).
    cbv beta iota zeta.
    erewrite bind_eq by (apply export_csv_records_ok; exact Hsend).
    cbn. rewrite <- !app_assoc. reflexivity. }
  rewrite Hstep. split; [reflexivity|]. cbn [snd trace].
  unfold exported. rewrite omap_app. f_equal.
  destruct records; reflexivity.
Qed.

(** The export of one requester: the rows whose requester cell, stripped,
    is the text typed, stripped and without its leading [@]s; all of them,
    in the order of the sheet. *)
Theorem export_requester_sends_their_rows
    (who : user) (chat : Z) (text : string) (records : list record) (w : world) :
  sheet E = inr records ->
  send_error E (ChatId chat) = None ->
  step E (Some EXPORT_REQUESTER) (Update who chat (Text text)) w
  = (None,
     World (data w)
           (trace w ++ [get_all_records;
                        export_effect E chat
                          (rows_of (Str.lstrip_char "@" (Str.strip text)) records)])).
Proof.
  intros Hsheet Hsend.
  unfold step, conversation, states. cbn [payload chat_id].
  unfold export_requester.
  erewrite bind_eq by (apply fetch_ok; exact Hsheet).
  cbv beta iota zeta.
  fold (rows_of (Str.lstrip_char "@" (Str.strip text)) records).
  erewrite bind_eq by (apply export_csv_records_ok; exact Hsend).
  cbn. rewrite <- !app_assoc. reflexivity.
Qed.

Lemma filter_date_range_ok (start end_ : date) (records : list record) (w : world) :
  filter_date_range (Some start) end_ records w
  = (Returns (List.filter (in_range start end_) records), w).
Proof.
  induction records as [|r records IH]; [reflexivity|].
  cbn [filter_date_range List.filter]. unfold in_range at 1.
  destruct (String.eqb (Str.strip (get "Timestamp" r)) ""); [exact IH|].
  destruct (strptime_datetime (Str.strip (get "Timestamp" r))) as [ts_dt|]; [|exact IH].
  erewrite bind_eq by exact IH.
  destruct (date_leb start (dt_date ts_dt) && date_leb (dt_date ts_dt) end_); reflexivity.
Qed.

(** The export of a range of dates, for an end date not before the start
    date: one read, then the rows whose timestamp parses and whose date lies
    between the two dates, both included, in the order of the sheet (the
    rows without a timestamp or with one that does not parse are passed
    over); the start date is forgotten and the conversation ends. *)
Theorem export_date_range_sends_rows_in_range
    (who : user) (chat : Z) (text : string) (start end_ : date)
    (records : list record) (w : world) :
  ud_export_start (data w) = Some start ->
  _parse_date text = Some end_ ->
  date_ltb end_ start = false ->
  sheet E = inr records ->
  send_error E (ChatId chat) = None ->
  step E (Some EXPORT_DATE_END) (Update who chat (Text text)) w
  = (None,
     World (set_export_start None (data w))
           (trace w ++ [get_all_records;
                        export_effect E chat (List.filter (in_range start end_) records)])).
Proof.
  intros Hstart Hparse Hlt Hsheet Hsend.
  unfold step, conversation, states. cbn [payload chat_id].
  unfold export_date_end. rewrite Hparse.
  erewrite bind_eq by reflexivity. rewrite Hstart, Hlt.
  erewrite bind_eq by (apply fetch_ok; exact Hsheet).
  cbv beta iota zeta.
  erewrite bind_eq by apply filter_date_range_ok.
  erewrite bind_eq by (apply export_csv_records_ok; exact Hsend).
  cbn. rewrite <- !app_assoc. reflexivity.
Qed.
End Queries.

(** ** A sheet that cannot be read *)

Section SheetFailure.
Context {SI : SetIter} {SP : Strptime} (E : env).

Lemma fetch_fails (exc : string) (h : string -> M (option (list record))) (w : world) :
  sheet E = inl exc ->
  try_except (records ← fetch_records E; mret (Some records)) h w
  = h exc (World (data w) (trace w ++ [get_all_records])).
Proof.
  intros Hsheet. unfold try_except, fetch_records, mbind, M_bind, bind, emit.
  rewrite Hsheet. reflexivity.
Qed.

(** When the sheet cannot be read, every query reports the text of the
    error after its one attempt, sends no file, keeps the session and ends
    the conversation: the history of a user with a handle, the search for
    any text, the export of everything, the export by dates for an end date
    that parses and is not before the stored start date, and the export of
    any requester. *)
Theorem unreadable_sheet_is_reported
    (who : user) (chat : Z) (query text requester exc : string) (w : world) :
  sheet E = inl exc ->
  let sorry := "Sorry, I couldn't access the sheet. Error: " +:+ exc in
  (Str.strip (default "" (username who)) <> "" ->
   step E (Some RECALL_MENU) (Update who chat (Callback "recall:history")) w
   = (None, World (data w)
              (trace w ++ [answer; get_all_records; log "Failed to fetch history";
                           edit_message_text sorry None])))
  /\ step E (Some SEARCH_BRAND) (Update who chat (Text query)) w
     = (None, World (data w)
                (trace w ++ [get_all_records; log "Failed to search";
                             reply_text sorry None]))
  /\ step E (Some EXPORT_CHOICE) (Update who chat (Callback "export:all")) w
     = (None, World (data w)
                (trace w ++ [answer; edit_message_text "Preparing CSV export..." None;
                             get_all_records; log "Failed to export CSV";
                             reply_text sorry None]))
  /\ (forall end_,
        _parse_date text = Some end_ ->
        match ud_export_start (data w) with
        | Some s => date_ltb end_ s
        | None => false
        end = false ->
        step E (Some EXPORT_DATE_END) (Update who chat (Text text)) w
        = (None, World (data w)
                   (trace w ++ [get_all_records; log "Failed to export CSV";
                                reply_text sorry None])))
  /\ step E (Some EXPORT_REQUESTER) (Update who chat (Text requester)) w
     = (None, World (data w)
                (trace w ++ [get_all_records; log "Failed to export CSV";
                             reply_text sorry None])).
Proof.
  intros Hsheet. cbv zeta.
  split.
  { intros Hu. apply String.eqb_neq in Hu.
    erewrite step_callback by reflexivity. cbn [effective_user].
    unfold recall_choice. erewrite bind_eq by reflexivity.
    cbn [String.eqb Ascii.eqb Bool.eqb]. unfold show_history. rewrite Hu.
    erewrite bind_eq by (rewrite (fetch_fails exc) by exact Hsheet; reflexivity).
    cbn. rewrite <- !app_assoc. reflexivity. }
  split.
  { unfold step, conversation, states. cbn [payload chat_id].
    unfold search_brand.
    erewrite bind_eq by (rewrite (fetch_fails exc) by exact Hsheet; reflexivity).
    cbn. rewrite <- !app_assoc. reflexivity. }
  split.
  { erewrite step_callback by reflexivity. cbn [chat_id].
    unfold export_choice. erewrite bind_eq by reflexivity.
    erewrite bind_eq by reflexivity. cbn [String.eqb Ascii.eqb Bool.eqb].
    erewrite bind_eq by reflexivity.
    erewrite bind_eq by (rewrite (fetch_fails exc) by exact Hsheet; reflexivity).
    cbn. rewrite <- !app_assoc. reflexivity. }
  split.
  { intros end_ Hparse Hlt.
    unfold step, conversation, states. cbn [payload chat_id].
    unfold export_date_end. rewrite Hparse.
    erewrite bind_eq by reflexivity. cbn [data]. rewrite Hlt.
    erewrite bind_eq by (rewrite (fetch_fails exc) by exact Hsheet; reflexivity).
    cbn. rewrite <- !app_assoc. reflexivity. }
  unfold step, conversation, states. cbn [payload chat_id].
  unfold export_requester.
  erewrite bind_eq by (rewrite (fetch_fails exc) by exact Hsheet; reflexivity).
  cbn. rewrite <- !app_assoc. reflexivity.
Qed.
End SheetFailure.

(** ** The brands of the manager view *)

Lemma count_of_bump (brand b : string) (counts : list (string * nat)) :
  count_of b (bump brand counts)
  = (count_of b counts + (if String.eqb brand b then 1 else 0))%nat.
Proof.
  induction counts as [|[b0 n] counts IH]; cbn.
  - destruct (String.eqb brand b); reflexivity.
  - destruct (String.eqb_spec b0 brand) as [->|Hne]; cbn.
    + destruct (String.eqb brand b); lia.
    + destruct (String.eqb_spec b0 b) as [->|Hne'].
      * apply String.eqb_neq in Hne. rewrite String.eqb_sym, Hne. lia.
      * exact IH.
Qed.

Lemma keys_bump (brand : string) (counts : list (string * nat)) :
  map fst (bump brand counts)
  = if bool_decide (brand ∈ map fst counts) then map fst counts
    else map fst counts ++ [brand].
Proof.
  induction counts as [|[b0 n] counts IH]; [reflexivity|].
  cbn [bump map fst].
  destruct (String.eqb_spec b0 brand) as [->|Hne]; cbn [map fst].
  - rewrite bool_decide_eq_true_2 by left. reflexivity.
  - rewrite IH. repeat case_bool_decide; try reflexivity; exfalso.
    + apply H0. right. assumption.
    + apply elem_of_cons in H0 as [->|?]; [apply Hne; reflexivity | contradiction].
Qed.

Lemma bump_positive (brand : string) (counts : list (string * nat)) :
  Forall (fun c => (0 < snd c)%nat) counts ->
  Forall (fun c => (0 < snd c)%nat) (bump brand counts).
Proof.
  intros H. induction counts as [|[b0 n] counts IH]; cbn.
  - repeat constructor.
  - inversion H as [|? ? Hn Hrest]; subst.
    destruct (String.eqb b0 brand); constructor; cbn in *; try lia; auto.
Qed.

Section Brands.
Context {SP : Strptime} (E : env).

Lemma brand_counts_fold (records : list record) (st : stats) :
  brand_counts (fold_left (count_record E) records st)
  = fold_left (fun counts r => bump (brand_of r) counts) records (brand_counts st).
Proof.
  revert st. induction records as [|r records IH]; intros st; [reflexivity|].
  cbn [fold_left]. rewrite IH. f_equal.
  unfold count_record, brand_of.
  destruct (strptime_datetime (Str.strip (get "Timestamp" r))); reflexivity.
Qed.

Lemma fold_bump_spec (records : list record) (counts : list (string * nat)) :
  let final := fold_left (fun counts r => bump (brand_of r) counts) records counts in
  (NoDup (map fst counts) -> NoDup (map fst final))
  /\ (Forall (fun c => (0 < snd c)%nat) counts -> Forall (fun c => (0 < snd c)%nat) final)
  /\ (forall b, count_of b final = (count_of b counts + rows_of_brand b records)%nat).
Proof.
  revert counts. induction records as [|r records IH]; intros counts; cbv zeta.
  - cbn. repeat split; auto.
  - cbn [fold_left]. destruct (IH (bump (brand_of r) counts)) as (Hnd & Hpos & Hcount).
    split; [|split].
    + intros H. apply Hnd. rewrite keys_bump. case_bool_decide; [exact H|].
      apply NoDup_app. split; [exact H|]. split; [|apply NoDup_singleton].
      intros x Hx Hx'. apply list_elem_of_singleton in Hx'. subst. contradiction.
    + intros H. apply Hpos, bump_positive, H.
    + intros b. rewrite Hcount, count_of_bump. unfold rows_of_brand.
      cbn [List.filter]. destruct (String.eqb (brand_of r) b); cbn [length]; lia.
Qed.

(** The histogram of the manager view: every brand has one entry, with the
    number of the rows of the brand (a row with an empty brand counts for
    "Unknown"), which is not zero; a brand without a row has no entry. *)
Theorem brand_counts_is_a_histogram (records : list record) :
  let counts := brand_counts (manager_stats E records) in
  NoDup (map fst counts)
  /\ (forall b, count_of b counts = rows_of_brand b records)
  /\ Forall (fun c => (0 < snd c)%nat /\ snd c = rows_of_brand (fst c) records) counts.
Proof.
  cbv zeta. unfold manager_stats. rewrite brand_counts_fold. cbn [brand_counts].
  pose proof (fold_bump_spec records []) as Hspec. cbv zeta in Hspec.
  destruct Hspec as (Hnd & Hpos & Hcount).
  specialize (Hnd ltac:(constructor)). specialize (Hpos ltac:(constructor)).
  cbn [count_of] in Hcount.
  set (counts := fold_left _ records []) in *.
  split; [exact Hnd|]. split; [exact Hcount|].
  assert (Hlook : forall l : list (string * nat),
             NoDup (map fst l) -> Forall (fun c => snd c = count_of (fst c) l) l).
  { clear. induction l as [|[b n] l IH]; intros Hnd; constructor.
    - cbn. rewrite String.eqb_refl. reflexivity.
    - cbn [map fst] in Hnd. apply NoDup_cons in Hnd as [Hb Hnd].
      specialize (IH Hnd). rewrite Forall_forall in *. intros [b' n'] Hin.
      cbn [fst snd count_of].
      destruct (String.eqb_spec b b') as [->|Hne]; [|apply (IH _ Hin)].
      exfalso. apply Hb. apply list_elem_of_In, in_map_iff.
      exists (b', n'). split; [reflexivity | apply list_elem_of_In; exact Hin]. }
  specialize (Hlook counts Hnd).
  rewrite Forall_forall in *. intros c Hc. split; [apply Hpos, Hc|].
  rewrite (Hlook c Hc). apply Hcount.
Qed.
End Brands.





(** ** The top brands of the manager view *)

Section TopBrands.
Context {SP : Strptime} (E : env).


End TopBrands.

(** ** The allow-list *)

(** The test of the allow-list in terms of the variable as configured: a
    handle, stripped, passes when it is not empty and equals, leading [@]s
    apart on either side, one of the entries between the commas, stripped
    and not empty; letters are compared as they are. *)
Theorem admin_test_ignores_leading_at (E : env) (who : user) :
  _is_admin E who = true <->
  Str.strip (default "" (username who)) <> ""
  /\ exists entry,
       entry ∈ Str.split "," (ADMIN_USERNAMES_env E)
       /\ Str.strip entry <> ""
       /\ Str.lstrip_char "@" (Str.strip (default "" (username who)))
          = Str.lstrip_char "@" (Str.strip entry).
Proof.
  rewrite is_admin_spec. unfold ADMIN_USERNAMES, usernames_of.
  rewrite list_elem_of_In, in_map_iff.
  split; intros [Hu H]; (split; [exact Hu|]).
  - destruct H as (entry & Heq & Hin). apply List.filter_In in Hin as [Hin Hne].
    exists entry. split; [apply list_elem_of_In; exact Hin|].
    split; [|symmetry; exact Heq].
    apply negb_true_iff, String.eqb_neq in Hne. exact Hne.
  - destruct H as (entry & Hin & Hne & Heq).
    exists entry. split; [symmetry; exact Heq|].
    apply List.filter_In. split; [apply list_elem_of_In; exact Hin|].
    apply negb_true_iff, String.eqb_neq. exact Hne.
Qed.

(** ** The file of environment variables *)

Module DotenvFacts.
Import Dotenv.

Lemma first_value_single (key line : string) :
  first_value key [line]
  = match parse_line line with
    | Some (k, v) => if String.eqb k key then Some v else None
    | None => None
    end.
Proof.
  unfold first_value. cbn [omap list_omap].
  destruct (parse_line line) as [[k v]|]; [destruct (String.eqb k key)|]; reflexivity.
Qed.

Lemma load_line_lookup (environ : gmap string string) (line key : string) :
  load_line environ line !! key
  = match environ !! key with
    | Some v => Some v
    | None => if String.eqb key "" then None else first_value key [line]
    end.
Proof.
  unfold load_line. rewrite first_value_single.
  destruct (parse_line line) as [[k v]|].
  2: { destruct (environ !! key), (String.eqb key ""); reflexivity. }
  destruct (String.eqb_spec k key) as [->|Hne].
  - destruct (String.eqb_spec key "") as [->|Hk]; cbn [negb andb].
    + destruct (environ !! ""); reflexivity.
    + case_bool_decide as Hlook.
      * rewrite lookup_insert_eq, Hlook. reflexivity.
      * destruct (environ !! key); [reflexivity | contradiction].
  - destruct (negb (String.eqb k "") && bool_decide (environ !! k = None)).
    + rewrite lookup_insert_ne by exact Hne.
      destruct (environ !! key), (String.eqb key ""); reflexivity.
    + destruct (environ !! key), (String.eqb key ""); reflexivity.
Qed.

Lemma first_value_cons (key line : string) (lines : list string) :
  first_value key (line :: lines)
  = match first_value key [line] with
    | Some v => Some v
    | None => first_value key lines
    end.
Proof.
  rewrite first_value_single. unfold first_value. cbn [omap list_omap].
  destruct (parse_line line) as [[k v]|]; [|reflexivity].
  destruct (String.eqb k key); reflexivity.
Qed.

Lemma load_lookup (lines : list string) (environ : gmap string string) (key : string) :
  foldl load_line environ lines !! key
  = match environ !! key with
    | Some v => Some v
    | None => if String.eqb key "" then None else first_value key lines
    end.
Proof.
  revert environ. induction lines as [|line lines IH]; intros environ.
  - cbn. destruct (environ !! key), (String.eqb key ""); reflexivity.
  - cbn [foldl]. rewrite IH, load_line_lookup, (first_value_cons key line lines).
    destruct (environ !! key); [reflexivity|].
    destruct (String.eqb key ""); [reflexivity|].
    destruct (first_value key [line]); reflexivity.
Qed.


(** Loading the file twice is loading it once. *)
Theorem load_dotenv_idempotent (file : option (list string)) (environ : gmap string string) :
  _load_dotenv file (_load_dotenv file environ) = _load_dotenv file environ.
Proof.
  destruct file as [lines|]; [|reflexivity]. cbn [_load_dotenv].
  apply map_eq. intros key. rewrite !load_lookup.
  destruct (environ !! key); [reflexivity|].
  destruct (String.eqb key ""); [reflexivity|].
  destruct (first_value key lines); reflexivity.
Qed.

Example parse_line_ex :
  parse_line "  TZ = 'Asia/Manila'  " = Some ("TZ", "Asia/Manila")
  /\ parse_line "# a comment" = None
  /\ parse_line "no equals sign" = None
  /\ parse_line "KEY=a=b" = Some ("KEY", "a=b")
  /\ parse_line "=value" = Some ("", "value").
Proof. repeat split; vm_compute; reflexivity. Qed.
End DotenvFacts.

(** ** Input the handlers do not expect *)

Section Unexpected.
Context {SI : SetIter} {SP : Strptime} (E : env).

Lemma step_invalid_start (who : user) (chat : Z) (text : string) (w : world) :
  _parse_date text = None ->
  step E (Some EXPORT_DATE_START) (Update who chat (Text text)) w
  = (Some EXPORT_DATE_START,
     World (data w)
           (trace w ++ [reply_text
                          "Invalid date format. Please enter start date as YYYY-MM-DD:"
                          None])).
Proof.
  intros H. erewrite step_text by reflexivity.
  unfold export_date_start. rewrite H. reflexivity.
Qed.

Lemma step_invalid_end (who : user) (chat : Z) (text : string) (w : world) :
  _parse_date text = None ->
  step E (Some EXPORT_DATE_END) (Update who chat (Text text)) w
  = (Some EXPORT_DATE_END,
     World (data w)
           (trace w ++ [reply_text
                          "Invalid date format. Please enter end date as YYYY-MM-DD:"
                          None])).
Proof.
  intros H. erewrite step_text by reflexivity. cbn [chat_id].
  unfold export_date_end. rewrite H. reflexivity.
Qed.

(** Dates that do not parse never abort the export: after any number of
    them the conversation is still at the question asked, the session is
    as it was (no start date is stored), and each attempt got the
    re-prompt of its question and nothing else, so the sheet was not read. *)
Theorem invalid_dates_reprompt
    (who : user) (chat : Z) (texts : list string) (w : world) :
  Forall (fun t => _parse_date t = None) texts ->
  run E (Some EXPORT_DATE_START) (answers who chat texts) w
  = (Some EXPORT_DATE_START,
     World (data w)
           (trace w ++ map (fun _ => reply_text
                                       "Invalid date format. Please enter start date as YYYY-MM-DD:"
                                       None) texts))
  /\ run E (Some EXPORT_DATE_END) (answers who chat texts) w
     = (Some EXPORT_DATE_END,
        World (data w)
              (trace w ++ map (fun _ => reply_text
                                          "Invalid date format. Please enter end date as YYYY-MM-DD:"
                                          None) texts)).
Proof.
  intros Hall. revert w.
  induction Hall as [|t texts Ht _ IH]; intros w.
  - cbn [answers map run]. rewrite app_nil_r. destruct w; split; reflexivity.
  - unfold answers in *. cbn [map]. rewrite !run_cons.
    rewrite step_invalid_start, step_invalid_end by exact Ht. cbn [fst snd].
    destruct (IH (World (data w)
                        (trace w ++ [reply_text
                                       "Invalid date format. Please enter start date as YYYY-MM-DD:"
                                       None]))) as [Hs _].
    destruct (IH (World (data w)
                        (trace w ++ [reply_text
                                       "Invalid date format. Please enter end date as YYYY-MM-DD:"
                                       None]))) as [_ He].
    rewrite Hs, He. cbn [data trace]. rewrite <- !app_assoc. split; reflexivity.
Qed.

(** A button token that no keyboard offers: in the recall menu any token
    under [recall:] other than the two known ones gets the apology and ends
    the conversation; in the export menu any choice other than the three
    known ones is answered and otherwise ignored, the handler returns
    nothing and the conversation stays at the menu. Neither reads the sheet
    or touches the session. *)
Theorem unknown_choice_tokens
    (who : user) (chat : Z) (token choice : string) (w : world) :
  Str.startswith "recall:" token = true ->
  token <> "recall:history" ->
  token <> "recall:search" ->
  choice <> "all" ->
  choice <> "date" ->
  choice <> "requester" ->
  step E (Some RECALL_MENU) (Update who chat (Callback token)) w
  = (None,
     World (data w)
           (trace w ++ [answer;
                        edit_message_text
                          "Sorry, I didn't understand that recall option. Use /menu to try again."
                          None]))
  /\ step E (Some EXPORT_CHOICE) (Update who chat (Callback ("export:" +:+ choice))) w
     = (Some EXPORT_CHOICE, World (data w) (trace w ++ [answer])).
Proof.
  intros Hp Hh Hs Ha Hd Hr.
  apply String.eqb_neq in Hh, Hs, Ha, Hd, Hr.
  split.
  - erewrite step_callback
      by (cbv beta iota delta [states payload]; rewrite Hp; reflexivity).
    cbn [effective_user]. unfold recall_choice.
    erewrite bind_eq by reflexivity. rewrite Hh, Hs.
    erewrite bind_eq by reflexivity. cbn [ret next_state fst snd data trace].
    rewrite <- app_assoc. reflexivity.
  - erewrite step_callback
      by (cbv beta iota delta [states payload]; rewrite startswith_app; reflexivity).
    cbn [chat_id]. unfold export_choice.
    erewrite bind_eq by reflexivity.
    change (Str.after_first ":" ("export:" +:+ choice)) with (Some choice).
    erewrite bind_eq by reflexivity.
    rewrite Ha, Hd, Hr. reflexivity.
Qed.
End Unexpected.

(** ** The further properties on concrete inputs *)

(** [/dashboard] from a user who is not an admin, in the middle of the form. *)
Lemma privileged_views_denied_witness :
  _is_admin quiet mallory = false
  /\ (step (SI := elements_order) (SP := iso_strptime) quiet (Some ROOM_NO)
           (Update mallory 7 (Command "dashboard")) (World filled [])).1
     = Some ROOM_NO.
Proof.
  assert (H1 : _is_admin quiet mallory = false) by (vm_compute; reflexivity).
  split; [exact H1|].
  exact (f_equal fst (proj1 (privileged_views_denied
                               (SI := elements_order) (SP := iso_strptime) quiet
                               (Some ROOM_NO) mallory 7 (World filled []) H1))).
Defined.

(** The confirmation when the sheet refuses the row. *)
Lemma failed_write_reports_and_ends_witness :
  Str.startswith "confirm:" "confirm:yes" = true
  /\ "confirm:yes" <> "confirm:no"
  /\ append_error write_fails_env = Some "quota exceeded"
  /\ (step (SI := elements_order) (SP := iso_strptime) write_fails_env (Some CONFIRM_SUBMIT)
           (Update alice 7 (Callback "confirm:yes")) (World filled [])).2
     = World filled
         ([] ++ [answer; log "Failed to append row";
                 edit_message_text
                   ("Sorry, I couldn't save your request. Error: " +:+ "quota exceeded")
                   None]).
Proof.
  assert (H1 : Str.startswith "confirm:" "confirm:yes" = true) by reflexivity.
  assert (H2 : "confirm:yes" <> "confirm:no") by discriminate.
  assert (H3 : append_error write_fails_env = Some "quota exceeded") by reflexivity.
  split; [exact H1|]. split; [exact H2|]. split; [exact H3|].
  exact (f_equal snd (failed_write_reports_and_ends
                        (SI := elements_order) (SP := iso_strptime) write_fails_env
                        "confirm:yes" alice 7 "quota exceeded" (World filled []) H1 H2 H3)).
Defined.

(** Multistreaming, then Facebook, Shopee and Facebook again. *)
Lemma selection_stays_in_catalog_witness :
  Str.startswith "mode:" "mode:multi" = true
  /\ Forall (fun n => n ∈ PLATFORMS) ["Facebook"; "Shopee"; "Facebook"]
  /\ (run (SI := elements_order) (SP := iso_strptime) quiet (Some PLATFORM_MODE)
          (Update alice 7 (Callback "mode:multi")
           :: map (toggle alice 7) ["Facebook"; "Shopee"; "Facebook"])
          (World cleared [])).1
     = Some PLATFORM_SELECT.
Proof.
  assert (H1 : Str.startswith "mode:" "mode:multi" = true) by reflexivity.
  assert (H2 : Forall (fun n => n ∈ PLATFORMS) ["Facebook"; "Shopee"; "Facebook"]).
  { repeat constructor; apply list_elem_of_In; cbn; tauto. }
  split; [exact H1|]. split; [exact H2|].
  exact (proj1 (selection_stays_in_catalog
                  (SI := elements_order) (SP := iso_strptime) quiet alice 7 "mode:multi"
                  ["Facebook"; "Shopee"; "Facebook"] (World cleared []) H1 H2)).
Defined.

(** A Single-mode request for Facebook from a cleared session. *)
Lemma single_request_written_row_witness :
  "Facebook" <> "done"
  /\ "Facebook" <> "Others"
  /\ append_error quiet = None
  /\ written (trace (run (SI := elements_order) (SP := iso_strptime) quiet (Some BRAND_NAME)
                         (single_request alice 7
                            [" Zeta "; "Lee"; "C"; "soon"; "1 cam"; "none"; "none"]
                            "Facebook")
                         (World cleared [])).2)
     = written []
       ++ [[ strftime_iso (now quiet);
             (let u := Str.strip (default "" (username alice)) in
              if String.eqb u "" then "id:" +:+ pretty (id alice) else u);
             Str.strip " Zeta "; Str.strip "Lee"; Str.strip "C"; Str.strip "soon";
             Str.strip "1 cam"; Str.strip "none"; Str.strip "none"; "Single"; "Facebook";
             default "" (ud_platforms_other cleared) ]].
Proof.
  assert (H1 : "Facebook" <> "done") by discriminate.
  assert (H2 : "Facebook" <> "Others") by discriminate.
  assert (H3 : append_error quiet = None) by reflexivity.
  split; [exact H1|]. split; [exact H2|]. split; [exact H3|].
  exact (single_request_written_row
           (SI := elements_order) (SP := iso_strptime) quiet alice 7
           " Zeta " "Lee" "C" "soon" "1 cam" "none" "none" "Facebook"
           (World cleared []) H1 H2 H3).
Defined.

(** The history asked by a user without a handle. *)
Lemma history_without_handle_reads_nothing_witness :
  Str.strip (default "" (username nobody)) = ""
  /\ (step (SI := elements_order) (SP := iso_strptime) quiet (Some RECALL_MENU)
           (Update nobody 7 (Callback "recall:history")) (World cleared [])).1
     = None.
Proof.
  assert (H1 : Str.strip (default "" (username nobody)) = "") by reflexivity.
  split; [exact H1|].
  exact (f_equal fst (history_without_handle_reads_nothing
                        (SI := elements_order) (SP := iso_strptime) quiet nobody 7
                        (World cleared []) H1)).
Defined.

(** The history of alice on the sheet of three rows. *)
Lemma history_reports_last_ten_witness :
  Str.strip (default "" (username alice)) <> ""
  /\ sheet quiet = inr acme_records
  /\ (length (last_n 10 (rows_of (Str.strip (default "" (username alice))) acme_records))
      <= 10)%nat.
Proof.
  assert (H1 : Str.strip (default "" (username alice)) <> "") by discriminate.
  assert (H2 : sheet quiet = inr acme_records) by reflexivity.
  split; [exact H1|]. split; [exact H2|].
  exact (proj1 (proj2 (proj2 (history_reports_last_ten
                                (SI := elements_order) (SP := iso_strptime) quiet alice 7
                                acme_records (World cleared []) H1 H2)))).
Defined.

(** The export of the whole sheet of three rows. *)
Lemma export_all_sends_every_row_witness :
  sheet quiet = inr acme_records
  /\ send_error quiet (ChatId 7) = None
  /\ exported (trace (step (SI := elements_order) (SP := iso_strptime) quiet
                           (Some EXPORT_CHOICE) (Update alice 7 (Callback "export:all"))
                           (World cleared [])).2)
     = exported [] ++ (if decide (acme_records = []) then [] else [acme_records]).
Proof.
  assert (H1 : sheet quiet = inr acme_records) by reflexivity.
  assert (H2 : send_error quiet (ChatId 7) = None) by reflexivity.
  split; [exact H1|]. split; [exact H2|].
  exact (proj2 (export_all_sends_every_row
                  (SI := elements_order) (SP := iso_strptime) quiet alice 7
                  acme_records (World cleared []) H1 H2)).
Defined.

(** The export of the rows of [@carol]. *)
Lemma export_requester_sends_their_rows_witness :
  sheet quiet = inr acme_records
  /\ send_error quiet (ChatId 7) = None
  /\ (step (SI := elements_order) (SP := iso_strptime) quiet (Some EXPORT_REQUESTER)
           (Update alice 7 (Text "@carol")) (World cleared [])).1
     = None.
Proof.
  assert (H1 : sheet quiet = inr acme_records) by reflexivity.
  assert (H2 : send_error quiet (ChatId 7) = None) by reflexivity.
  split; [exact H1|]. split; [exact H2|].
  exact (f_equal fst (export_requester_sends_their_rows
                        (SI := elements_order) (SP := iso_strptime) quiet alice 7
                        "@carol" acme_records (World cleared []) H1 H2)).
Defined.

(** The export from 10 February to 28 February. *)
Lemma export_date_range_sends_rows_in_range_witness :
  ud_export_start (data start_feb_10) = Some (Date 2026 2 10)
  /\ _parse_date (SP := iso_strptime) "2026-02-28" = Some (Date 2026 2 28)
  /\ date_ltb (Date 2026 2 28) (Date 2026 2 10) = false
  /\ sheet quiet = inr acme_records
  /\ send_error quiet (ChatId 7) = None
  /\ (step (SI := elements_order) (SP := iso_strptime) quiet (Some EXPORT_DATE_END)
           (Update alice 7 (Text "2026-02-28")) start_feb_10).1
     = None.
Proof.
  assert (H1 : ud_export_start (data start_feb_10) = Some (Date 2026 2 10)) by reflexivity.
  assert (H2 : _parse_date (SP := iso_strptime) "2026-02-28" = Some (Date 2026 2 28))
    by (vm_compute; reflexivity).
  assert (H3 : date_ltb (Date 2026 2 28) (Date 2026 2 10) = false) by reflexivity.
  assert (H4 : sheet quiet = inr acme_records) by reflexivity.
  assert (H5 : send_error quiet (ChatId 7) = None) by reflexivity.
  split; [exact H1|]. split; [exact H2|]. split; [exact H3|].
  split; [exact H4|]. split; [exact H5|].
  exact (f_equal fst (export_date_range_sends_rows_in_range
                        (SI := elements_order) (SP := iso_strptime) quiet alice 7
                        "2026-02-28" (Date 2026 2 10) (Date 2026 2 28) acme_records
                        start_feb_10 H1 H2 H3 H4 H5)).
Defined.

(** The search for "acme" on a sheet that times out. *)
Lemma unreadable_sheet_is_reported_witness :
  sheet unreadable_env = inl "timed out"
  /\ step (SI := elements_order) (SP := iso_strptime) unreadable_env (Some SEARCH_BRAND)
          (Update alice 7 (Text "acme")) (World cleared [])
     = (None,
        World cleared
              ([] ++ [get_all_records; log "Failed to search";
                      reply_text ("Sorry, I couldn't access the sheet. Error: " +:+ "timed out")
                                 None])).
Proof.
  assert (H1 : sheet unreadable_env = inl "timed out") by reflexivity.
  split; [exact H1|].
  exact (proj1 (proj2 (unreadable_sheet_is_reported
                         (SI := elements_order) (SP := iso_strptime) unreadable_env
                         alice 7 "acme" "2026-02-28" "bob" "timed out"
                         (World cleared []) H1))).
Defined.

(** The export button pressed by a user who is not an admin. *)
Lemma export_button_denied_without_read_witness :
  _is_admin quiet mallory = false
  /\ (step (SI := elements_order) (SP := iso_strptime) quiet None
           (Update mallory 7 (Callback "action:export")) (World cleared [])).1
     = None.
Proof.
  assert (H1 : _is_admin quiet mallory = false) by (vm_compute; reflexivity).
  split; [exact H1|].
  exact (proj1 (export_button_denied_without_read
                  (SI := elements_order) (SP := iso_strptime) quiet mallory 7
                  (World cleared []) H1)).
Defined.

(** A confirmed submission with the first of two observers refused. *)
Lemma observers_all_tried_witness :
  append_error observer_fails_env = None
  /\ send_error observer_fails_env (ChatId 7) = None
  /\ messaged (trace (step (SI := elements_order) (SP := iso_strptime) observer_fails_env
                           (Some CONFIRM_SUBMIT) (Update alice 7 (Callback "confirm:yes"))
                           (World filled [])).2)
     = messaged [] ++ ChatId 7 :: observers observer_fails_env.
Proof.
  assert (H1 : append_error observer_fails_env = None) by reflexivity.
  assert (H2 : send_error observer_fails_env (ChatId 7) = None) by reflexivity.
  split; [exact H1|]. split; [exact H2|].
  exact (proj2 (proj2 (proj2 (observers_all_tried
                                (SI := elements_order) (SP := iso_strptime)
                                observer_fails_env alice 7 (World filled []) H1 H2)))).
Defined.

(** Two dates in another format, typed at the question for the start date. *)
Lemma invalid_dates_reprompt_witness :
  Forall (fun t => _parse_date (SP := iso_strptime) t = None) ["15/02/2026"; "tomorrow"]
  /\ (run (SI := elements_order) (SP := iso_strptime) quiet (Some EXPORT_DATE_START)
          (answers alice 7 ["15/02/2026"; "tomorrow"]) (World cleared [])).1
     = Some EXPORT_DATE_START.
Proof.
  assert (H1 : Forall (fun t => _parse_date (SP := iso_strptime) t = None)
                      ["15/02/2026"; "tomorrow"])
    by (repeat constructor).
  split; [exact H1|].
  exact (f_equal fst (proj1 (invalid_dates_reprompt
                               (SI := elements_order) (SP := iso_strptime) quiet
                               alice 7 ["15/02/2026"; "tomorrow"] (World cleared []) H1))).
Defined.

(** A stale recall button and an export token with an empty choice. *)
Lemma unknown_choice_tokens_witness :
  Str.startswith "recall:" "recall:latest" = true
  /\ (step (SI := elements_order) (SP := iso_strptime) quiet (Some EXPORT_CHOICE)
           (Update alice 7 (Callback ("export:" +:+ ""))) (World cleared [])).1
     = Some EXPORT_CHOICE.
Proof.
  assert (H1 : Str.startswith "recall:" "recall:latest" = true) by reflexivity.
  split; [exact H1|].
  exact (f_equal fst (proj2 (unknown_choice_tokens
                               (SI := elements_order) (SP := iso_strptime) quiet
                               alice 7 "recall:latest" "" (World cleared []) H1
                               ltac:(discriminate) ltac:(discriminate)
                               ltac:(discriminate) ltac:(discriminate)
                               ltac:(discriminate)))).
Defined.

